(** * quickSilver/app.py: field cleaning, intent matching, category
    extraction and table normalisation

    A shallow embedding of the content-extraction engine of
    [src/quickSilver/app.py] and the properties of it that the specification
    states.  Python text is a sequence of Unicode code points; dictionaries are
    insertion-ordered association lists; an exception is a value of the error
    monad.  What the program takes from outside its own source (the Unicode
    character database, [urllib.parse.urljoin], the [re] engine, the iteration
    order of a [set], the wall clock) is a parameter of the embedding. *)

From Stdlib Require Import String Ascii DecimalString DecimalNat.
From Stdlib Require Import NArith ZArith Bool Arith Lia Permutation List.
Import ListNotations.

Set Implicit Arguments.
Set Warnings "-register-all".

(** ** Python text *)

Definition char := N.
Definition str := list char.

(** A literal of the source, as code points. *)
Definition lit (x : string) : str := map N_of_ascii (list_ascii_of_string x).

Definition str_eqb (a b : str) : bool :=
  if list_eq_dec N.eq_dec a b then true else false.

(** [not s] for a string or a list. *)
Definition is_empty {A : Type} (s : list A) : bool :=
  match s with [] => true | _ => false end.

(** [s.startswith(p)] *)
Fixpoint startswith (p s : str) : bool :=
  match p, s with
  | [], _ => true
  | _ :: _, [] => false
  | a :: p', b :: s' => N.eqb a b && startswith p' s'
  end.

(** [p in s] for strings: [p] occurs in [s] as a contiguous run. *)
Fixpoint contains (s p : str) : bool :=
  startswith p s || match s with [] => false | _ :: s' => contains s' p end.

(** [sep.join(parts)] *)
Fixpoint join (sep : str) (parts : list str) : str :=
  match parts with
  | [] => []
  | [p] => p
  | p :: rest => p ++ sep ++ join sep rest
  end.

(** [s.replace(a, b)] for a one-character [a]. *)
Definition replace_char (a b : char) (s : str) : str :=
  map (fun c => if N.eqb c a then b else c) s.

(** [str(n)] for a non-negative integer. *)
Definition str_of_nat (n : nat) : str :=
  lit (NilEmpty.string_of_uint (Nat.to_uint n)).

(** ** The Unicode character database

    [unicodedata], [str.isspace], [str.lower] and the [\d] class of [re] are
    CPython's; the embedding takes them as tables. *)

Class Unicode := {
  nfkd : str -> str;            (* unicodedata.normalize('NFKD', s) *)
  isspace : char -> bool;       (* c.isspace() *)
  is_control : char -> bool;    (* unicodedata.category(c)[0] == 'C' *)
  is_decimal : char -> bool;    (* c matches \d *)
  isalnum : str -> bool;        (* s.isalnum() *)
  str_lower : str -> str;       (* s.lower() *)
  str_upper : str -> str;       (* s.upper() *)
  str_title : str -> str        (* s.title() *)
}.

Section Text.
Context {U : Unicode}.

(** [s.split()]: the maximal runs of non-whitespace characters. *)
Fixpoint split_from (cur : str) (s : str) : list str :=
  match s with
  | [] => if is_empty cur then [] else [rev cur]
  | c :: r =>
      if isspace c
      then (if is_empty cur then split_from [] r else rev cur :: split_from [] r)
      else split_from (c :: cur) r
  end.

Definition split (s : str) : list str := split_from [] s.

Fixpoint lstrip (s : str) : str :=
  match s with
  | c :: r => if isspace c then lstrip r else s
  | [] => []
  end.

Definition rstrip (s : str) : str := rev (lstrip (rev s)).

(** [s.strip()] *)
Definition strip (s : str) : str := rstrip (lstrip s).

End Text.

(** ** DataCleaner *)

(** An exception carries its message, [str(e)]. *)
Inductive result (A : Type) : Type :=
| Ok (a : A)
| Raise (msg : str).
Arguments Ok {A} a.
Arguments Raise {A} msg.

Definition bind {A B} (m : result A) (f : A -> result B) : result B :=
  match m with
  | Ok a => f a
  | Raise e => Raise e
  end.

Notation "x <- m ;; k" := (bind m (fun x => k))
  (at level 61, m at next level, right associativity).

Section Cleaner.
Context {U : Unicode}.

(** [urllib.parse.urljoin(base, url)]; it raises [ValueError] on some
    malformed references. *)
Variable urljoin : str -> str -> result str.

(** [DataCleaner.clean_text], lines 45-63, on a string. *)
Definition clean_text (text : str) : str :=
  if is_empty text then []
  else
    let text := nfkd text in
    let text := join (lit " ") (split text) in
    let text :=
      filter (fun c => negb (is_control c)
                       || existsb (N.eqb c) [10; 13; 9]%N) text in
    strip text.

(** [clean_text] at a call site whose argument may be [None]:
    [not None] holds, so the first branch is taken. *)
Definition clean_text_opt (text : option str) : str :=
  match text with
  | None => []
  | Some t => clean_text t
  end.

(** [DataCleaner.clean_url], lines 65-81. *)
Definition clean_url (url base_url : str) : result str :=
  if is_empty url then Ok []
  else
    let url := strip url in
    url <- (if negb (startswith (lit "http://") url
                     || startswith (lit "https://") url
                     || startswith (lit "//") url)
            then urljoin base_url url
            else Ok url) ;;
    Ok (if startswith (lit "//") url then lit "https:" ++ url else url).

(** [re.sub(r'[^\d+]', '', s)]: the character class keeps a decimal digit
    and a plus sign, wherever it stands. *)
Definition sub_non_digit_plus (s : str) : str :=
  filter (fun c => is_decimal c || N.eqb c 43) s.

(** [DataCleaner.standardize_phone], lines 93-106. *)
Definition standardize_phone (phone : str) : str :=
  if is_empty phone then []
  else
    let digits := sub_non_digit_plus phone in
    if 10 <=? length digits then digits else phone.

(** What the specification's words describe: every character is removed
    except the digits and a plus sign that leads the input. *)
Definition strip_to_digits_spec (s : str) : str :=
  match s with
  | c :: r => (if N.eqb c 43 then [c] else if is_decimal c then [c] else [])
              ++ filter is_decimal r
  | [] => []
  end.

Definition standardize_phone_spec (phone : str) : str :=
  let digits := strip_to_digits_spec phone in
  if 10 <=? length digits then digits else phone.

End Cleaner.

(** ** The character tables on ASCII

    CPython's tables restricted to code points below 128, where NFKD is the
    identity, the whitespace characters are 9-13, 28-31 and 32, category C is
    0-31 and 127, and [\d] is 48-57.  The documents and strings evaluated
    below are ASCII. *)

Definition ascii_isspace (c : char) : bool :=
  ((9 <=? c) && (c <=? 13) || (28 <=? c) && (c <=? 32))%N.

Definition ascii_is_control (c : char) : bool :=
  ((c <=? 31) || (c =? 127))%N.

Definition ascii_is_decimal (c : char) : bool :=
  ((48 <=? c) && (c <=? 57))%N.

Definition ascii_is_upper (c : char) : bool := ((65 <=? c) && (c <=? 90))%N.
Definition ascii_is_lower (c : char) : bool := ((97 <=? c) && (c <=? 122))%N.

Definition ascii_lower_char (c : char) : char :=
  if ascii_is_upper c then (c + 32)%N else c.
Definition ascii_upper_char (c : char) : char :=
  if ascii_is_lower c then (c - 32)%N else c.

(** [str.title]: a cased character is upper-cased after an uncased one and
    lower-cased after a cased one. *)
Fixpoint ascii_title_from (prev_cased : bool) (s : str) : str :=
  match s with
  | [] => []
  | c :: r =>
      let cased := ascii_is_upper c || ascii_is_lower c in
      (if prev_cased then ascii_lower_char c else ascii_upper_char c)
        :: ascii_title_from cased r
  end.

Definition ascii_tables : Unicode := {|
  nfkd := fun s => s;
  isspace := ascii_isspace;
  is_control := ascii_is_control;
  is_decimal := ascii_is_decimal;
  isalnum := fun s => negb (is_empty s) &&
    forallb (fun c => ascii_is_decimal c || ascii_is_upper c || ascii_is_lower c) s;
  str_lower := map ascii_lower_char;
  str_upper := map ascii_upper_char;
  str_title := ascii_title_from false
|}.

(** ** The parsed document

    The tree the parser hands over: text nodes and elements with a tag name,
    an attribute mapping and children.  The root is the document object
    itself. *)

Inductive Node : Type :=
| Text (t : str)
| Elem (tag : str) (attrs : list (str * str)) (children : list Node).

(** An element as the program holds it: the node together with where it
    sits, which [find_parent] and [find_previous_sibling] walk. *)
Record Loc : Type := {
  node : Node;
  ancestors : list Node;   (* nearest first *)
  before : list Node       (* earlier siblings, nearest first *)
}.

Definition root (soup : Node) : Loc :=
  {| node := soup; ancestors := []; before := [] |}.

Fixpoint lookup {V : Type} (k : str) (d : list (str * V)) : option V :=
  match d with
  | [] => None
  | (k', v) :: r => if str_eqb k k' then Some v else lookup k r
  end.

Definition attrs_of (n : Node) : list (str * str) :=
  match n with
  | Text _ => []
  | Elem _ a _ => a
  end.

Definition is_tag (tags : list str) (n : Node) : bool :=
  match n with
  | Text _ => false
  | Elem t _ _ => existsb (str_eqb t) tags
  end.

(** [element.get(key, default)] *)
Definition get (e : Loc) (key : string) (default : str) : str :=
  match lookup (lit key) (attrs_of (node e)) with
  | Some v => v
  | None => default
  end.

(** [element.has_attr(key)] *)
Definition has_attr (e : Loc) (key : string) : bool :=
  match lookup (lit key) (attrs_of (node e)) with
  | Some _ => true
  | None => false
  end.

(** [element.get_text()]: the text nodes below, concatenated. *)
Fixpoint text_of (n : Node) : str :=
  match n with
  | Text t => t
  | Elem _ _ cs => concat (map text_of cs)
  end.

Definition get_text (e : Loc) : str := text_of (node e).

(** [tag.string]: the single text child, looked for through single element
    children; [None] otherwise. *)
Fixpoint string_of (n : Node) : option str :=
  match n with
  | Text t => Some t
  | Elem _ _ [c] => string_of c
  | Elem _ _ _ => None
  end.

(** Everything below a node, in document order. *)
Fixpoint descendants (anc : list Node) (n : Node) {struct n} : list Loc :=
  match n with
  | Text _ => []
  | Elem _ _ cs =>
      (fix walk (seen : list Node) (cs : list Node) {struct cs} : list Loc :=
         match cs with
         | [] => []
         | c :: rest =>
             {| node := c; ancestors := n :: anc; before := seen |}
               :: descendants (n :: anc) c ++ walk (c :: seen) rest
         end) [] cs
  end.

(** [e.find_all(tags)] *)
Definition find_all (tags : list string) (e : Loc) : list Loc :=
  filter (fun d => is_tag (map lit tags) (node d))
         (descendants (ancestors e) (node e)).

(** [e.find(tag)] *)
Definition find (tag : string) (e : Loc) : option Loc :=
  hd_error (find_all [tag] e).

(** [e.find_all(tag, key=value)] and [e.find(tag, attrs={key: value})] *)
Definition find_all_attr (tag key : string) (value : str) (e : Loc) : list Loc :=
  filter (fun d => match lookup (lit key) (attrs_of (node d)) with
                   | Some v => str_eqb v value
                   | None => false
                   end)
         (find_all [tag] e).

Definition find_attr (tag key : string) (value : str) (e : Loc) : option Loc :=
  hd_error (find_all_attr tag key value e).

(** [element.find_parent(tag)] and [element.find_previous_sibling(tag)] *)
Definition find_parent (tag : string) (e : Loc) : option Node :=
  List.find (is_tag [lit tag]) (ancestors e).

Definition find_previous_sibling (tag : string) (e : Loc) : option Node :=
  List.find (is_tag [lit tag]) (before e).

(** [enumerate(l)] *)
Definition enumerate {A : Type} (l : list A) : list (nat * A) :=
  combine (seq 0 (length l)) l.

(** ** Extracted records

    One record type per dictionary literal of the extractors.  A key that only
    some shapes of a dictionary carry is an [option]. *)

Module Title.
Record t : Type := {
  level : str; text : str; position : nat; id : str; class : str }.
End Title.

Module Description.
Record t : Type := {
  type : str; text : str; length : nat; position : nat }.
End Description.

Module Image.
Record t : Type := {
  position : nat; url : str; alt : str; title : str;
  width : str; height : str; loading : str }.
End Image.

Module Link.
Record t : Type := {
  position : nat; url : str; text : str; title : str;
  is_external : bool; rel : str; target : str }.
End Link.

Module Table.
Record t : Type := {
  table_number : nat; headers : list str; rows : list (list str);
  row_count : nat; column_count : nat }.
End Table.

Module Contact.
Record t : Type := {
  emails : list str; phones : list str; total_contacts : nat }.
End Contact.

Module Price.
Record t : Type := { price : str; context : str }.
End Price.

Module Video.
Record t : Type := {
  position : nat; type : str; src : str;
  poster : option str;   (* video tags *)
  title : option str;    (* iframes *)
  width : str; height : str }.
End Video.

Module Option_.
Record t : Type := {
  value : str; text : str; selected : bool; disabled : bool }.
End Option_.

Module Field.
Record t : Type := {
  position : nat; element_type : str; input_type : str;
  name : str; id : str;
  value : option str; placeholder : option str; label : option str;
  required : option bool; disabled : bool; readonly : option bool;
  hidden : option bool; checked : option bool;
  min : option str; max : option str; maxlength : option str;
  pattern : option str; rows : option str; cols : option str;
  multiple : option bool; size : option str;
  options : option (list Option_.t); options_count : option nat;
  text : option str; class : str; aria_label : option str;
  data_attributes : option (list (str * str)) }.
End Field.

Module Form.
Record t : Type := {
  form_number : nat; form_id : str; form_name : str; form_class : str;
  action : str; method : str; enctype : str; autocomplete : str;
  target : str; fields : list Field.t;
  total_fields : nat; hidden_fields : nat; required_fields : nat;
  disabled_fields : nat }.
End Form.

Module Meta.
Record t : Type := {
  position : nat; name : str; property : str; content : str;
  http_equiv : str }.
End Meta.

(** [f.get(key, False)] on an optional boolean key. *)
Definition truthy (b : option bool) : bool :=
  match b with Some true => true | _ => false end.

(** The values of [results['data']], by category. *)
Inductive Items : Type :=
| TitleItems (l : list Title.t)
| DescriptionItems (l : list Description.t)
| ImageItems (l : list Image.t)
| LinkItems (l : list Link.t)
| TableItems (l : list Table.t)
| ContactItems (c : Contact.t)
| PriceItems (l : list Price.t)
| VideoItems (l : list Video.t)
| FormItems (l : list Form.t)
| MetaItems (l : list Meta.t).

Module Metadata.
Record t : Type := {
  url : str; timestamp : str; title : str; description : str }.
End Metadata.

Record Results : Type := {
  metadata : Metadata.t;
  data : list (string * Items) }.

(** [d[k] = v] on an insertion-ordered dictionary. *)
Fixpoint dict_set {V : Type} (k : string) (v : V) (d : list (string * V))
  : list (string * V) :=
  match d with
  | [] => [(k, v)]
  | (k', v') :: r =>
      if String.eqb k k' then (k, v) :: r else (k', v') :: dict_set k v r
  end.

(** A loop whose body may raise and otherwise extends a list. *)
Fixpoint collect {A B : Type} (f : A -> result (list B)) (l : list A)
  : result (list B) :=
  match l with
  | [] => Ok []
  | a :: r => bs <- f a ;; rest <- collect f r ;; Ok (bs ++ rest)
  end.

(** ** The regular-expression engine

    The patterns are the program's; matching them is [re]'s. *)

Class Regex := {
  (* re.findall(pattern, text, re.IGNORECASE), for a pattern without
     capturing groups *)
  findall_ignorecase : str -> str -> list str;
  (* bool(re.match(pattern, s)) *)
  re_match : str -> str -> bool;
  (* re.compile(pattern, re.I).search(s) is not None *)
  search_ignorecase : str -> str -> bool
}.

(** ** IntelligentElementMatcher *)

Record IntelligentElementMatcher : Type := {
  stop_words : list str;
  lemmatizer : option (str -> result str)   (* None when NLTK data is absent *)
}.

Definition patterns : list (string * string) := [
  ("email", "\b[A-Za-z0-9._%+-]+@[A-Za-z0-9.-]+\.[A-Z|a-z]{2,}\b");
  ("phone", "\b(?:\+?1[-.\s]?)?\(?\d{3}\)?[-.\s]?\d{3}[-.\s]?\d{4}\b");
  ("price", "\$\s*\d+(?:,\d{3})*(?:\.\d{2})?|\b\d+(?:,\d{3})*(?:\.\d{2})?\s*(?:USD|EUR|GBP|dollars?)\b");
  ("date", "\b(?:\d{1,2}[-/]\d{1,2}[-/]\d{2,4}|\d{4}[-/]\d{1,2}[-/]\d{1,2}|(?:Jan|Feb|Mar|Apr|May|Jun|Jul|Aug|Sep|Oct|Nov|Dec)[a-z]*\s+\d{1,2},?\s+\d{4})\b");
  ("url", "https?://(?:www\.)?[-a-zA-Z0-9@:%._\+~#=]{1,256}\.[a-zA-Z0-9()]{1,6}\b(?:[-a-zA-Z0-9()@:%_\+.~#?&/=]*)");
  ("social_media", "(?:@[A-Za-z0-9_]+|(?:facebook|twitter|instagram|linkedin)\.com/[A-Za-z0-9_.-]+)")
]%string.

Definition element_keywords : list (string * list string) := [
  ("title", ["title"; "heading"; "header"; "h1"; "h2"; "h3"; "headline"; "caption"; "name"]);
  ("description", ["description"; "desc"; "summary"; "content"; "text"; "paragraph"; "detail"; "about"; "info"]);
  ("image", ["image"; "img"; "picture"; "photo"; "thumbnail"; "graphic"; "visual"; "media"]);
  ("link", ["link"; "url"; "href"; "anchor"; "hyperlink"; "reference"]);
  ("table", ["table"; "grid"; "data"; "list"; "spreadsheet"; "chart"]);
  ("contact", ["email"; "phone"; "contact"; "address"; "tel"; "telephone"; "mail"]);
  ("price", ["price"; "cost"; "amount"; "value"; "$"; "fee"; "rate"; "charge"; "payment"]);
  ("date", ["date"; "time"; "published"; "updated"; "timestamp"; "when"; "schedule"]);
  ("product", ["product"; "item"; "goods"; "merchandise"; "article"]);
  ("author", ["author"; "writer"; "by"; "creator"; "publisher"]);
  ("category", ["category"; "tag"; "topic"; "section"; "type"; "class"]);
  ("social", ["social"; "twitter"; "facebook"; "instagram"; "linkedin"; "share"]);
  ("video", ["video"; "youtube"; "vimeo"; "media"; "embed"]);
  ("form", ["form"; "input"; "search"; "subscribe"; "newsletter"]);
  ("meta", ["meta"; "metadata"; "seo"; "keywords"; "tags"])
]%string.

(** The inner two loops of [match_intent], lines 179-183: one point for every
    pair of a token and a keyword of which one occurs in the other. *)
Definition score_of (tokens : list str) (keywords : list string) : nat :=
  fold_left (fun score token =>
    fold_left (fun score keyword =>
      if contains (lit keyword) token || contains token (lit keyword)
      then score + 1 else score) keywords score) tokens 0.

(** The dictionary [scores], lines 177-185: the categories that scored. *)
Definition scores_of (tokens : list str) : list (string * nat) :=
  flat_map (fun '(element_type, keywords) =>
    let score := score_of tokens keywords in
    if 0 <? score then [(element_type, score)] else []) element_keywords.

(** Lines 175-191 of [match_intent], from the token list on.  The comparison
    [v >= max_score * 0.7] is taken over the rationals, [10 v >= 7 max_score];
    the double product decides it the same way whenever [max_score] is below
    2^49. *)
Definition match_tokens (tokens : list str) : list string :=
  let scores := scores_of tokens in
  let matched_types :=
    match scores with
    | [] => []
    | _ :: _ =>
        let max_score := list_max (map snd scores) in
        map fst (filter (fun '(_, v) => 7 * max_score <=? 10 * v) scores)
    end in
  match matched_types with
  | [] => ["all"%string]
  | _ :: _ => matched_types
  end.

Section Matcher.
Context {U : Unicode} {R : Regex}.

(** [word_tokenize] of NLTK. *)
Variable word_tokenize : str -> result (list str).

(** [preprocess_query], lines 153-167. *)
Definition preprocess_query (self : IntelligentElementMatcher) (query : str)
  : list str :=
  if is_empty query then []
  else
    let attempt :=
      tokens <- word_tokenize (str_lower query) ;;
      match lemmatizer self with
      | Some lemmatize =>
          collect (fun token => t <- lemmatize token ;; Ok [t])
            (filter (fun token =>
                       isalnum token
                       && negb (existsb (str_eqb token) (stop_words self)))
                    tokens)
      | None => Ok (filter isalnum tokens)
      end in
    match attempt with
    | Ok tokens => tokens
    | Raise _ => split (str_lower query)
    end.

(** [match_intent], lines 169-191. *)
Definition match_intent (self : IntelligentElementMatcher) (user_query : str)
  : list string :=
  if is_empty user_query then ["all"%string]
  else match_tokens (preprocess_query self user_query).

(** [extract_pattern], lines 193-198. *)
Definition extract_pattern (text : str) (pattern_type : string) : list str :=
  match List.find (fun p => String.eqb pattern_type (fst p)) patterns with
  | Some (_, pattern) => findall_ignorecase (lit pattern) text
  | None => []
  end.

(** [DataCleaner.validate_email], lines 108-115. *)
Definition validate_email (email : str) : bool :=
  if is_empty email then false
  else re_match (lit "^[a-zA-Z0-9._%+-]+@[a-zA-Z0-9.-]+\.[a-zA-Z]{2,}$") email.

End Matcher.

(** ** WebScraper *)

Record WebScraper : Type := {
  url : str;
  soup : Node;
  base_url : str;
  errors : list str
}.

Section Scraper.
Context {U : Unicode} {R : Regex}.
Variable urljoin : str -> str -> result str.

(** [list(set(l))]: the distinct elements in the set's iteration order. *)
Variable list_of_set : list str -> list str.

Definition document (self : WebScraper) : Loc := root (soup self).

(** [' '.join(element.get(key, []))] for a multi-valued attribute, which the
    parser holds as the list of its whitespace-separated values. *)
Definition joined (e : Loc) (key : string) : str :=
  join (lit " ") (split (get e key [])).

(** The inner loop of [_extract_all_titles], lines 414-423, for one tag. *)
Definition titles_of_tag (self : WebScraper) (tag : string) : list Title.t :=
  flat_map (fun '(idx, element) =>
    let text := clean_text (get_text element) in
    if is_empty text then []
    else [ {| Title.level := str_upper (lit tag);
              Title.text := text;
              Title.position := idx + 1;
              Title.id := get element "id" [];
              Title.class := joined element "class" |} ])
    (enumerate (find_all [tag] (document self))).

(** [_extract_all_titles], lines 410-424. *)
Definition _extract_all_titles (self : WebScraper) : list Title.t :=
  flat_map (titles_of_tag self) ["h1"; "h2"; "h3"; "h4"; "h5"; "h6"]%string.

(** The record of the meta description, lines 430-438. *)
Definition meta_description (self : WebScraper) : list Description.t :=
  match find_attr "meta" "name" (lit "description") (document self) with
  | Some meta_desc =>
      let content := get meta_desc "content" [] in
      if is_empty content then []
      else [ {| Description.type := lit "Meta Description";
                Description.text := clean_text content;
                Description.length := length content;
                Description.position := 0 |} ]
  | None => []
  end.

(** The records of the paragraphs, lines 440-449. *)
Definition paragraph_descriptions (self : WebScraper) : list Description.t :=
  flat_map (fun '(idx, p) =>
    let text := clean_text (get_text p) in
    if is_empty text then []
    else [ {| Description.type := lit "Paragraph";
              Description.text := text;
              Description.length := length text;
              Description.position := idx + 1 |} ])
    (enumerate (find_all ["p"%string] (document self))).

(** [_extract_all_descriptions], lines 426-451. *)
Definition _extract_all_descriptions (self : WebScraper)
  : list Description.t :=
  meta_description self ++ paragraph_descriptions self.

(** [a or b] on strings. *)
Definition or_else (a b : str) : str := if is_empty a then b else a.

(** The source of an image, line 458. *)
Definition image_src (img : Loc) : str :=
  or_else (get img "src" [])
          (or_else (get img "data-src" []) (get img "data-lazy-src" [])).

(** [_extract_all_images], lines 453-471. *)
Definition _extract_all_images (self : WebScraper) : result (list Image.t) :=
  collect (fun '(idx, img) =>
    let src := image_src img in
    if is_empty src then Ok []
    else
      full_url <- clean_url urljoin src (base_url self) ;;
      Ok [ {| Image.position := idx + 1;
              Image.url := full_url;
              Image.alt := clean_text (get img "alt" []);
              Image.title := clean_text (get img "title" []);
              Image.width := get img "width" [];
              Image.height := get img "height" [];
              Image.loading := get img "loading" [] |} ])
    (enumerate (find_all ["img"%string] (document self))).

(** [find_all('a', href=True)] *)
Definition anchors (self : WebScraper) : list Loc :=
  filter (fun a => has_attr a "href") (find_all ["a"%string] (document self)).

(** [_extract_all_links], lines 473-492. *)
Definition _extract_all_links (self : WebScraper) : result (list Link.t) :=
  collect (fun '(idx, a) =>
    let href := get a "href" [] in
    full_url <- clean_url urljoin href (base_url self) ;;
    let link_text := clean_text (get_text a) in
    Ok [ {| Link.position := idx + 1;
            Link.url := full_url;
            Link.text := link_text;
            Link.title := clean_text (get a "title" []);
            Link.is_external := negb (contains full_url (base_url self));
            Link.rel := joined a "rel";
            Link.target := get a "target" [] |} ])
    (enumerate (anchors self)).

(** The cleaned texts of the cells below an element. *)
Definition cell_texts (e : Loc) : list str :=
  map (fun c => clean_text (get_text c)) (find_all ["th"; "td"]%string e).

(** The header cells read off the table, lines 502-509. *)
Definition found_headers (table : Loc) : list str :=
  match find "thead" table with
  | Some header_row => cell_texts header_row
  | None =>
      match find "tr" table with
      | Some first_row => cell_texts first_row
      | None => []
      end
  end.

(** The generated names, line 516. *)
Definition column_names (num_cols : nat) : list str :=
  map (fun i => lit "Column_" ++ str_of_nat (i + 1)) (seq 0 num_cols).

(** The headers of a table, lines 499-516. *)
Definition table_headers (table : Loc) : list str :=
  let headers := found_headers table in
  match headers with
  | [] =>
      match find "tr" table with
      | Some first_row =>
          column_names (length (find_all ["td"; "th"]%string first_row))
      | None => headers
      end
  | _ :: _ => headers
  end.

Definition rows_to_process (table : Loc) : list Loc :=
  match find "tbody" table with
  | Some tbody => find_all ["tr"%string] tbody
  | None => find_all ["tr"%string] table
  end.

Definition has_thead (table : Loc) : bool :=
  match find "thead" table with Some _ => true | None => false end.

(** Line 523. *)
Definition start_idx (table : Loc) (headers : list str) : nat :=
  if negb (has_thead table) && negb (is_empty headers) then 1 else 0.

(** The rows kept as data, lines 525-528. *)
Definition table_rows (table : Loc) (headers : list str) : list (list str) :=
  flat_map (fun row =>
    let cells := map (fun td => clean_text (get_text td))
                     (find_all ["td"; "th"]%string row) in
    if negb (is_empty cells) && existsb (fun c => negb (is_empty c)) cells
    then [cells] else [])
    (skipn (start_idx table headers) (rows_to_process table)).

(** [_extract_all_tables], lines 494-539. *)
Definition _extract_all_tables (self : WebScraper) : list Table.t :=
  flat_map (fun '(table_idx, table) =>
    let headers := table_headers table in
    let rows_data := table_rows table headers in
    if negb (is_empty rows_data) && negb (is_empty headers)
    then [ {| Table.table_number := table_idx + 1;
              Table.headers := headers;
              Table.rows := rows_data;
              Table.row_count := length rows_data;
              Table.column_count := length headers |} ]
    else [])
    (enumerate (find_all ["table"%string] (document self))).

(** [_extract_all_contact_info], lines 541-557. *)
Definition _extract_all_contact_info (self : WebScraper) : Contact.t :=
  let page_text := get_text (document self) in
  let emails := list_of_set (extract_pattern page_text "email") in
  let phones := list_of_set (extract_pattern page_text "phone") in
  let emails := filter validate_email emails in
  let phones := map standardize_phone phones in
  {| Contact.emails := emails;
     Contact.phones := phones;
     Contact.total_contacts := length emails + length phones |}.

(** [find_all([...], class_=re.compile(r'price|cost|amount', re.I))]: the
    pattern holds no blank, so it is found in one of the class values exactly
    when it is found in their joined string. *)
Definition price_elements (self : WebScraper) : list Loc :=
  filter (fun e => has_attr e "class"
                   && search_ignorecase (lit "price|cost|amount")
                                        (joined e "class"))
         (find_all ["span"; "div"; "p"; "strong"; "b"]%string (document self)).

(** [_extract_all_prices], lines 559-588. *)
Definition _extract_all_prices (self : WebScraper) : list Price.t :=
  let prices :=
    flat_map (fun elem =>
      let text := clean_text (get_text elem) in
      map (fun price => {| Price.price := price;
                           Price.context := firstn 150 text |})
          (extract_pattern text "price"))
      (price_elements self) in
  let page_text := get_text (document self) in
  fold_left (fun prices price =>
    if existsb (fun p => str_eqb (Price.price p) price) prices
    then prices
    else prices ++ [ {| Price.price := price;
                        Price.context := lit "General page content" |} ])
    (extract_pattern page_text "price") prices.

(** The second loop of [_extract_all_videos], lines 606-616. *)
Fixpoint iframe_videos (self : WebScraper) (videos : list Video.t)
    (iframes : list Loc) : result (list Video.t) :=
  match iframes with
  | [] => Ok videos
  | iframe :: rest =>
      let src := get iframe "src" [] in
      if existsb (fun platform => contains (str_lower src) (lit platform))
                 ["youtube"; "vimeo"; "dailymotion"; "video"]%string
      then
        full <- clean_url urljoin src (base_url self) ;;
        iframe_videos self
          (videos ++ [ {| Video.position := length videos + 1;
                          Video.type := lit "iframe";
                          Video.src := full;
                          Video.poster := None;
                          Video.title := Some (clean_text (get iframe "title" []));
                          Video.width := get iframe "width" [];
                          Video.height := get iframe "height" [] |} ])
          rest
      else iframe_videos self videos rest
  end.

(** [_extract_all_videos], lines 590-618. *)
Definition _extract_all_videos (self : WebScraper) : result (list Video.t) :=
  videos <-
    collect (fun '(idx, video) =>
      src <- clean_url urljoin (get video "src" []) (base_url self) ;;
      poster <- clean_url urljoin (get video "poster" []) (base_url self) ;;
      Ok [ {| Video.position := idx + 1;
              Video.type := lit "video";
              Video.src := src;
              Video.poster := Some poster;
              Video.title := None;
              Video.width := get video "width" [];
              Video.height := get video "height" [] |} ])
      (enumerate (find_all ["video"%string] (document self))) ;;
  iframe_videos self videos (find_all ["iframe"%string] (document self)).

(** [_extract_all_meta], lines 817-831. *)
Definition _extract_all_meta (self : WebScraper) : list Meta.t :=
  map (fun '(idx, meta) =>
    {| Meta.position := idx + 1;
       Meta.name := get meta "name" [];
       Meta.property := get meta "property" [];
       Meta.content := clean_text (get meta "content" []);
       Meta.http_equiv := get meta "http-equiv" [] |})
    (enumerate (find_all ["meta"%string] (document self))).

(** [_find_label_for_element], lines 773-807. *)
Definition _find_label_for_element (form element : Loc) : str :=
  let element_id := get element "id" [] in
  let element_name := get element "name" [] in
  let by_for :=
    if is_empty element_id then None
    else find_attr "label" "for" element_id form in
  match by_for with
  | Some label => clean_text (get_text label)
  | None =>
  match find_parent "label" element with
  | Some parent_label => clean_text (text_of parent_label)
  | None =>
  match find_previous_sibling "label" element with
  | Some prev_sibling => clean_text (text_of prev_sibling)
  | None =>
      let aria_label := get element "aria-label" [] in
      if negb (is_empty aria_label) then clean_text aria_label
      else
        let placeholder := get element "placeholder" [] in
        if negb (is_empty placeholder) then clean_text placeholder
        else if negb (is_empty element_name)
        then str_title (replace_char 45%N 32%N (replace_char 95%N 32%N element_name))
        else []
  end end end.

(** [_extract_data_attributes], lines 809-815. *)
Definition _extract_data_attributes (element : Loc) : list (str * str) :=
  map (fun '(attr, value) => (attr, clean_text value))
      (filter (fun '(attr, _) => startswith (lit "data-") attr)
              (attrs_of (node element))).

(** The dictionary built for an [input], lines 643-667. *)
Definition input_field (form input_elem : Loc) (field_position : nat)
  : Field.t :=
  let input_type := str_lower (get input_elem "type" (lit "text")) in
  {| Field.position := field_position;
     Field.element_type := lit "input";
     Field.input_type := input_type;
     Field.name := get input_elem "name" [];
     Field.id := get input_elem "id" [];
     Field.value := Some (clean_text (get input_elem "value" []));
     Field.placeholder := Some (clean_text (get input_elem "placeholder" []));
     Field.label := Some (_find_label_for_element form input_elem);
     Field.required := Some (has_attr input_elem "required");
     Field.disabled := has_attr input_elem "disabled";
     Field.readonly := Some (has_attr input_elem "readonly");
     Field.hidden := Some (str_eqb input_type (lit "hidden")
                           || has_attr input_elem "hidden");
     Field.checked := Some (has_attr input_elem "checked");
     Field.min := Some (get input_elem "min" []);
     Field.max := Some (get input_elem "max" []);
     Field.maxlength := Some (get input_elem "maxlength" []);
     Field.pattern := Some (get input_elem "pattern" []);
     Field.rows := None; Field.cols := None;
     Field.multiple := None; Field.size := None;
     Field.options := None; Field.options_count := None;
     Field.text := None;
     Field.class := joined input_elem "class";
     Field.aria_label := Some (get input_elem "aria-label" []);
     Field.data_attributes := Some (_extract_data_attributes input_elem) |}.

(** The dictionary built for a [textarea], lines 672-692. *)
Definition textarea_field (form textarea : Loc) (field_position : nat)
  : Field.t :=
  {| Field.position := field_position;
     Field.element_type := lit "textarea";
     Field.input_type := lit "textarea";
     Field.name := get textarea "name" [];
     Field.id := get textarea "id" [];
     Field.value := Some (clean_text (get_text textarea));
     Field.placeholder := Some (clean_text (get textarea "placeholder" []));
     Field.label := Some (_find_label_for_element form textarea);
     Field.required := Some (has_attr textarea "required");
     Field.disabled := has_attr textarea "disabled";
     Field.readonly := Some (has_attr textarea "readonly");
     Field.hidden := Some (has_attr textarea "hidden");
     Field.checked := None;
     Field.min := None; Field.max := None;
     Field.maxlength := Some (get textarea "maxlength" []);
     Field.pattern := None;
     Field.rows := Some (get textarea "rows" []);
     Field.cols := Some (get textarea "cols" []);
     Field.multiple := None; Field.size := None;
     Field.options := None; Field.options_count := None;
     Field.text := None;
     Field.class := joined textarea "class";
     Field.aria_label := Some (get textarea "aria-label" []);
     Field.data_attributes := Some (_extract_data_attributes textarea) |}.

(** The dictionary built for a [select], lines 697-726. *)
Definition select_field (form select : Loc) (field_position : nat)
  : Field.t :=
  let options :=
    map (fun option =>
      {| Option_.value := get option "value" [];
         Option_.text := clean_text (get_text option);
         Option_.selected := has_attr option "selected";
         Option_.disabled := has_attr option "disabled" |})
      (find_all ["option"%string] select) in
  {| Field.position := field_position;
     Field.element_type := lit "select";
     Field.input_type := lit "select";
     Field.name := get select "name" [];
     Field.id := get select "id" [];
     Field.value := None; Field.placeholder := None;
     Field.label := Some (_find_label_for_element form select);
     Field.required := Some (has_attr select "required");
     Field.disabled := has_attr select "disabled";
     Field.readonly := None;
     Field.hidden := Some (has_attr select "hidden");
     Field.checked := None;
     Field.min := None; Field.max := None; Field.maxlength := None;
     Field.pattern := None; Field.rows := None; Field.cols := None;
     Field.multiple := Some (has_attr select "multiple");
     Field.size := Some (get select "size" []);
     Field.options := Some options;
     Field.options_count := Some (length options);
     Field.text := None;
     Field.class := joined select "class";
     Field.aria_label := Some (get select "aria-label" []);
     Field.data_attributes := Some (_extract_data_attributes select) |}.

(** The dictionary built for a [button], lines 731-744. *)
Definition button_field (button : Loc) (field_position : nat) : Field.t :=
  {| Field.position := field_position;
     Field.element_type := lit "button";
     Field.input_type := get button "type" (lit "button");
     Field.name := get button "name" [];
     Field.id := get button "id" [];
     Field.value := Some (clean_text (get button "value" []));
     Field.placeholder := None; Field.label := None;
     Field.required := None;
     Field.disabled := has_attr button "disabled";
     Field.readonly := None; Field.hidden := None; Field.checked := None;
     Field.min := None; Field.max := None; Field.maxlength := None;
     Field.pattern := None; Field.rows := None; Field.cols := None;
     Field.multiple := None; Field.size := None;
     Field.options := None; Field.options_count := None;
     Field.text := Some (clean_text (get_text button));
     Field.class := joined button "class";
     Field.aria_label := Some (get button "aria-label" []);
     Field.data_attributes := Some (_extract_data_attributes button) |}.

(** The dictionary built for an [input type="submit"], lines 751-761. *)
Definition submit_field (submit_btn : Loc) (field_position : nat) : Field.t :=
  {| Field.position := field_position;
     Field.element_type := lit "input";
     Field.input_type := lit "submit";
     Field.name := get submit_btn "name" [];
     Field.id := get submit_btn "id" [];
     Field.value := Some (clean_text (get submit_btn "value" (lit "Submit")));
     Field.placeholder := None; Field.label := None;
     Field.required := None;
     Field.disabled := has_attr submit_btn "disabled";
     Field.readonly := None; Field.hidden := None; Field.checked := None;
     Field.min := None; Field.max := None; Field.maxlength := None;
     Field.pattern := None; Field.rows := None; Field.cols := None;
     Field.multiple := None; Field.size := None;
     Field.options := None; Field.options_count := None;
     Field.text := None;
     Field.class := joined submit_btn "class";
     Field.aria_label := None;
     Field.data_attributes := None |}.

(** A loop that numbers and appends one field per element. *)
Definition add_fields (build : Loc -> nat -> Field.t) (elements : list Loc)
    (state : nat * list Field.t) : nat * list Field.t :=
  fold_left (fun '(field_position, fields) element =>
    let field_position := field_position + 1 in
    (field_position, fields ++ [build element field_position]))
    elements state.

(** The last loop, lines 748-762: a submit input is added unless a field of
    the same id and name is there already. *)
Definition add_submit_fields (submits : list Loc)
    (state : nat * list Field.t) : nat * list Field.t :=
  fold_left (fun '(field_position, fields) submit_btn =>
    if existsb (fun f =>
                  str_eqb (Field.id f) (get submit_btn "id" [])
                  && str_eqb (Field.name f) (get submit_btn "name" []))
               fields
    then (field_position, fields)
    else
      let field_position := field_position + 1 in
      (field_position, fields ++ [submit_field submit_btn field_position]))
    submits state.

(** The fields of one form, lines 638-762. *)
Definition form_fields (form : Loc) : list Field.t :=
  let state := (0, []) in
  let state := add_fields (input_field form)
                 (find_all ["input"%string] form) state in
  let state := add_fields (textarea_field form)
                 (find_all ["textarea"%string] form) state in
  let state := add_fields (select_field form)
                 (find_all ["select"%string] form) state in
  let state := add_fields button_field
                 (find_all ["button"%string] form) state in
  let state := add_submit_fields
                 (find_all_attr "input" "type" (lit "submit") form) state in
  snd state.

(** [_extract_all_forms], lines 620-771. *)
Definition _extract_all_forms (self : WebScraper) : result (list Form.t) :=
  collect (fun '(form_idx, form) =>
    action <- clean_url urljoin (get form "action" []) (base_url self) ;;
    let fields := form_fields form in
    Ok [ {| Form.form_number := form_idx + 1;
            Form.form_id := get form "id" [];
            Form.form_name := get form "name" [];
            Form.form_class := joined form "class";
            Form.action := action;
            Form.method := str_upper (get form "method" (lit "GET"));
            Form.enctype := get form "enctype" [];
            Form.autocomplete := get form "autocomplete" [];
            Form.target := get form "target" [];
            Form.fields := fields;
            Form.total_fields := length fields;
            Form.hidden_fields :=
              length (filter (fun f => truthy (Field.hidden f)) fields);
            Form.required_fields :=
              length (filter (fun f => truthy (Field.required f)) fields);
            Form.disabled_fields :=
              length (filter Field.disabled fields) |} ])
    (enumerate (find_all ["form"%string] (document self))).

(** *** scrape_full *)

(** A statement of the [try] block: it updates [results] in place and may
    raise. *)
Definition stmt : Type := Results -> Results * option str.

(** The statements run in order; the first exception ends the block and
    leaves [results] as the statements before it made it. *)
Fixpoint try_block (body : list stmt) (results : Results)
  : Results * option str :=
  match body with
  | [] => (results, None)
  | s :: rest =>
      match s results with
      | (results, None) => try_block rest results
      | (results, Some e) => (results, Some e)
      end
  end.

Definition set_title (title : str) : stmt := fun results =>
  ({| metadata := {| Metadata.url := Metadata.url (metadata results);
                     Metadata.timestamp := Metadata.timestamp (metadata results);
                     Metadata.title := title;
                     Metadata.description :=
                       Metadata.description (metadata results) |};
      data := data results |}, None).

Definition set_description (description : str) : stmt := fun results =>
  ({| metadata := {| Metadata.url := Metadata.url (metadata results);
                     Metadata.timestamp := Metadata.timestamp (metadata results);
                     Metadata.title := Metadata.title (metadata results);
                     Metadata.description := description |};
      data := data results |}, None).

(** [if 'all' in selected_features or feature in selected_features:
       results['data'][key] = extractor()] *)
Definition selected (selected_features : list str) (feature : string) : bool :=
  existsb (str_eqb (lit "all")) selected_features
  || existsb (str_eqb (lit feature)) selected_features.

Definition extract_into (selected_features : list str) (feature key : string)
    (extractor : result Items) : stmt := fun results =>
  if selected selected_features feature
  then match extractor with
       | Ok items =>
           ({| metadata := metadata results;
               data := dict_set key items (data results) |}, None)
       | Raise e => (results, Some e)
       end
  else (results, None).

(** Lines 370-371: no selection means every category. *)
Definition or_all (selected_features : list str) : list str :=
  if is_empty selected_features then [lit "all"] else selected_features.

(** The statements of the [try] block of [scrape_full], lines 361-402. *)
Definition scrape_body (self : WebScraper) (selected_features : list str)
  : list stmt :=
  let selected_features := or_all selected_features in
  let into := extract_into selected_features in
  [ set_title match find "title" (document self) with
              | Some title_tag => clean_text_opt (string_of (node title_tag))
              | None => lit "No title"
              end;
    (fun results =>
       match find_attr "meta" "name" (lit "description") (document self) with
       | Some meta_desc =>
           let content := get meta_desc "content" [] in
           if is_empty content then (results, None)
           else set_description (clean_text content) results
       | None => (results, None)
       end);
    into "titles" "titles" (Ok (TitleItems (_extract_all_titles self)));
    into "descriptions" "descriptions"
      (Ok (DescriptionItems (_extract_all_descriptions self)));
    into "images" "images" (l <- _extract_all_images self ;; Ok (ImageItems l));
    into "links" "links" (l <- _extract_all_links self ;; Ok (LinkItems l));
    into "tables" "tables" (Ok (TableItems (_extract_all_tables self)));
    into "contact" "contact_info"
      (Ok (ContactItems (_extract_all_contact_info self)));
    into "prices" "prices" (Ok (PriceItems (_extract_all_prices self)));
    into "videos" "videos" (l <- _extract_all_videos self ;; Ok (VideoItems l));
    into "forms" "forms" (l <- _extract_all_forms self ;; Ok (FormItems l));
    into "meta" "meta" (Ok (MetaItems (_extract_all_meta self))) ]%string.

(** [scrape_full], lines 348-408.  [now] is
    [datetime.now().strftime('%Y-%m-%d %H:%M:%S')]; the scraper comes back
    with its error log. *)
Definition scrape_full (now : str) (self : WebScraper)
    (selected_features : list str) : Results * WebScraper :=
  let results :=
    {| metadata := {| Metadata.url := url self;
                      Metadata.timestamp := now;
                      Metadata.title := [];
                      Metadata.description := [] |};
       data := [] |} in
  match try_block (scrape_body self selected_features) results with
  | (results, None) => (results, self)
  | (results, Some e) =>
      (results,
       {| url := url self; soup := soup self; base_url := base_url self;
          errors := errors self ++ [lit "Scraping error: " ++ e] |})
  end.

End Scraper.

(** ** create_clean_csv_data: the tables *)

(** A data frame: its column labels and its rows of cells. *)
Record DataFrame : Type := {
  columns : list str;
  values : list (list str)
}.

(** Lines 883-887: a row is padded or trimmed to the header length. *)
Definition normalize_row (max_cols : nat) (row : list str) : list str :=
  if length row <? max_cols
  then row ++ repeat [] (max_cols - length row)
  else if max_cols <? length row
  then firstn max_cols row
  else row.

(** [f'6_Table_{table_num}'] *)
Definition table_key (table_num : nat) : string :=
  ("6_Table_" ++ NilEmpty.string_of_uint (Nat.to_uint table_num))%string.

(** The branch [category == 'tables'] of [create_clean_csv_data], lines
    871-892.  The cells are strings, so [fillna] finds nothing to fill. *)
Definition table_frames (items : list Table.t)
    (data_frames : list (string * DataFrame)) : list (string * DataFrame) :=
  fold_left (fun data_frames table_data =>
    let table_num := Table.table_number table_data in
    let headers := Table.headers table_data in
    let rows := Table.rows table_data in
    if negb (is_empty rows) && negb (is_empty headers)
    then
      let max_cols := length headers in
      let normalized_rows := map (normalize_row max_cols) rows in
      dict_set (table_key table_num)
               {| columns := headers; values := normalized_rows |}
               data_frames
    else data_frames)
    items data_frames.

(** ** Evaluation on examples *)

(** [urljoin] where the examples call it: for a base of the form
    [scheme://host], the reference [x://[] raises [ValueError] (an opening
    bracket without its closing one in the host), an absolute path is put
    after the base, and a single path segment after the base and a slash. *)
Definition urljoin_examples (base reference : str) : result str :=
  if str_eqb reference (lit "x://[") then Raise (lit "Invalid IPv6 URL")
  else if startswith (lit "/") reference then Ok (base ++ reference)
  else Ok (base ++ lit "/" ++ reference).

(** An engine that finds nothing: what [re] answers for the program's
    patterns on a text without digits and without [@].  It fills the
    parameter in examples that select no category calling it. *)
Definition finds_nothing : Regex := {|
  findall_ignorecase := fun _ _ => [];
  re_match := fun _ _ => false;
  search_ignorecase := fun _ _ => false
|}.

(** Element constructors for writing documents down. *)
Definition el (tag : string) (attrs : list (string * string))
    (children : list Node) : Node :=
  Elem (lit tag) (map (fun '(k, v) => (lit k, lit v)) attrs) children.

Definition txt (t : string) : Node := Text (lit t).

Definition page (children : list Node) : Node := el "[document]" [] children.

Definition scraper_of (soup : Node) : WebScraper :=
  {| url := lit "https://x.com/page"; soup := soup;
     base_url := lit "https://x.com"; errors := [] |}.

(** ** What the specification states, in the terms of the embedding *)

(** The maximum observed score of a token list. *)
Definition max_score (tokens : list str) : nat :=
  list_max (map (fun entry => score_of tokens (snd entry)) element_keywords).

(** The scores over any taxonomy; [scores_of] is this at [element_keywords]. *)
Definition scored (tokens : list str)
    (taxonomy : list (string * list string)) : list (string * nat) :=
  flat_map (fun '(element_type, keywords) =>
    let score := score_of tokens keywords in
    if 0 <? score then [(element_type, score)] else []) taxonomy.

(** A token and a keyword overlap when one occurs in the other, line 182:
    [token in keyword or keyword in token]. *)
Definition overlaps (token : str) (keyword : string) : bool :=
  contains (lit keyword) token || contains token (lit keyword).

(** The pairs of a token and a keyword that overlap. *)
Definition overlap_pairs (tokens : list str) (keywords : list string)
  : list (str * string) :=
  filter (fun '(token, keyword) => overlaps token keyword)
         (list_prod tokens keywords).

(** The largest number of overlapping pairs over the categories. *)
Definition max_pairs (tokens : list str) : nat :=
  list_max (map (fun entry => length (overlap_pairs tokens (snd entry)))
                element_keywords).

(** Follows the spec's words, section 4.2: the score of a category is 1 per
    token that is a substring of, or contains, any of the keywords of the
    category, case-insensitive. *)
Definition token_score_spec {U : Unicode} (tokens : list str)
    (keywords : list string) : nat :=
  length (filter (fun token =>
                    existsb (fun keyword => overlaps (str_lower token) keyword)
                            keywords) tokens).

Definition max_token_score_spec {U : Unicode} (tokens : list str) : nat :=
  list_max (map (fun entry => token_score_spec tokens (snd entry))
                element_keywords).

(** The sentence on the selection, with the score of the spec: a category is
    selected exactly when its score is positive and at least 70% of the
    maximum. *)
Definition selects_by_token_score {U : Unicode} (tokens : list str) : Prop :=
  forall c keywords,
    In (c, keywords) element_keywords ->
    (In c (match_tokens tokens)
     <-> 0 < token_score_spec tokens keywords
         /\ 7 * max_token_score_spec tokens
            <= 10 * token_score_spec tokens keywords).

(** A table the normalizer makes a frame of under a name, line 877 and
    line 891. *)
Definition framed_as (name : string) (table : Table.t) : bool :=
  String.eqb name (table_key (Table.table_number table))
  && negb (is_empty (Table.rows table))
  && negb (is_empty (Table.headers table)).


(** A table of which a record is made, line 530. *)
Definition has_header_and_row {U : Unicode} (table : Loc) : bool :=
  negb (is_empty (table_rows table (table_headers table)))
  && negb (is_empty (table_headers table)).

(** An [iframe] of which a video record is made, line 608. *)
Definition on_video_platform {U : Unicode} (iframe : Loc) : bool :=
  existsb (fun platform =>
             contains (str_lower (get iframe "src" [])) (lit platform))
          ["youtube"; "vimeo"; "dailymotion"; "video"]%string.

(** What [list(set(l))] is known to be: the values of [l], each once.  Their
    order is the interpreter's, the same throughout one process; for strings
    it changes from one process to the next, the hashes being seeded per
    process. *)
Definition set_order (list_of_set : list str -> list str) : Prop :=
  forall l, NoDup (list_of_set l)
            /\ forall x, In x (list_of_set l) <-> In x l.

(** Two values of a category that are equal but for the order of the contact
    lists. *)
Definition same_items (a b : Items) : Prop :=
  match a, b with
  | ContactItems c1, ContactItems c2 =>
      Permutation (Contact.emails c1) (Contact.emails c2)
      /\ Permutation (Contact.phones c1) (Contact.phones c2)
      /\ Contact.total_contacts c1 = Contact.total_contacts c2
  | _, _ => a = b
  end.

(** Two dictionaries with the same keys in the same order, the values under
    each key being related. *)
Definition same_entries (rel : Items -> Items -> Prop)
    (d1 d2 : list (string * Items)) : Prop :=
  Forall2 (fun e1 e2 => fst e1 = fst e2 /\ rel (snd e1) (snd e2)) d1 d2.

(** Two results that agree on everything but the time stamp, the values of
    their categories being related. *)
Definition agree (rel : Items -> Items -> Prop) (r1 r2 : Results) : Prop :=
  Metadata.url (metadata r1) = Metadata.url (metadata r2)
  /\ Metadata.title (metadata r1) = Metadata.title (metadata r2)
  /\ Metadata.description (metadata r1) = Metadata.description (metadata r2)
  /\ same_entries rel (data r1) (data r2).

(** Two statements that take agreeing results to agreeing results and raise
    alike. *)
Definition alike (rel : Items -> Items -> Prop) (s1 s2 : stmt) : Prop :=
  forall r1 r2,
    agree rel r1 r2 ->
    agree rel (fst (s1 r1)) (fst (s2 r2)) /\ snd (s1 r1) = snd (s2 r2).

(** A frame made from a table: its header, and its rows padded with empty
    strings and cut to the header length. *)
Definition frame_of (table : Table.t) (df : DataFrame) : Prop :=
  columns df = Table.headers table
  /\ values df
     = map (fun row =>
              firstn (length (Table.headers table))
                     (row ++ repeat [] (length (Table.headers table)
                                        - length row)))
           (Table.rows table).

(** [results] with another time stamp. *)
Definition with_timestamp (now : str) (results : Results) : Results :=
  {| metadata := {| Metadata.url := Metadata.url (metadata results);
                    Metadata.timestamp := now;
                    Metadata.title := Metadata.title (metadata results);
                    Metadata.description :=
                      Metadata.description (metadata results) |};
     data := data results |}.

(** A statement that neither reads nor writes the time stamp. *)
Definition clock_blind (s : stmt) : Prop :=
  forall (now : str) (results : Results),
    s (with_timestamp now results)
    = (with_timestamp now (fst (s results)), snd (s results)).

Definition heading_tags : list string :=
  ["h1"; "h2"; "h3"; "h4"; "h5"; "h6"]%string.

Definition tag_of (e : Loc) : str :=
  match node e with
  | Text _ => []
  | Elem t _ _ => t
  end.

(** The builders applied to consecutive positions from [k + 1] on. *)
Definition numbered {A : Type} (k : nat) (builders : list (nat -> A)) : list A :=
  map (fun '(i, build) => build (i + 1))
      (combine (seq k (length builders)) builders).


Definition first_form (soup : Node) : Loc :=
  hd (root soup) (find_all ["form"%string] (root soup)).

Section Statements.
Context {U : Unicode}.
Variable urljoin : str -> str -> result str.

(** An image whose record is built, or which is passed over, without an
    exception. *)
Definition image_extracts (self : WebScraper) (img : Loc) : Prop :=
  is_empty (image_src img) = true
  \/ exists full_url,
       clean_url urljoin (image_src img) (base_url self) = Ok full_url.

(** The sentence on images: a record for every [img]. *)
Definition every_image_recorded (self : WebScraper) : Prop :=
  exists images,
    _extract_all_images urljoin self = Ok images
    /\ length images = length (find_all ["img"%string] (document self)).


(** The sentence on headings: the i-th heading record in document order has
    position i, over all levels. *)
Definition titles_in_document_order (self : WebScraper) : Prop :=
  let titles := _extract_all_titles self in
  map Title.position titles = seq 1 (length titles)
  /\ map Title.text titles
     = filter (fun text => negb (is_empty text))
              (map (fun e => clean_text (get_text e))
                   (find_all heading_tags (document self))).

(** The sentence on form fields: the records follow the document order of
    the controls inside the form. *)
Definition fields_in_document_order (form : Loc) : Prop :=
  map Field.element_type (form_fields form)
  = map tag_of
        (find_all ["input"; "textarea"; "select"; "button"]%string form).

(** The builders of a form's fields, kind by kind. *)
Definition field_builders (form : Loc) : list (nat -> Field.t) :=
  map (input_field form) (find_all ["input"%string] form)
  ++ map (textarea_field form) (find_all ["textarea"%string] form)
  ++ map (select_field form) (find_all ["select"%string] form)
  ++ map button_field (find_all ["button"%string] form).

End Statements.

(** ** Example inputs *)

Definition spaced_control : str := [97; 32; 0; 32; 98]%N.

Definition two_row_table : Table.t :=
  {| Table.table_number := 1;
     Table.headers := [lit "a"; lit "b"; lit "c"];
     Table.rows := [[lit "v1"; lit "v2"];
                    [lit "w1"; lit "w2"; lit "w3"; lit "w4"]];
     Table.row_count := 2;
     Table.column_count := 3 |}.

Definition short_row_table : Table.t :=
  {| Table.table_number := 2;
     Table.headers := [lit "x"; lit "y"];
     Table.rows := [[lit "v"]];
     Table.row_count := 1;
     Table.column_count := 2 |}.

Definition two_row_frame : DataFrame :=
  {| columns := [lit "a"; lit "b"; lit "c"];
     values := [[lit "v1"; lit "v2"; []]; [lit "w1"; lit "w2"; lit "w3"]] |}.

Definition one_heading : Node := page [el "h1" [] [txt "News"]].

Definition two_images : Node :=
  page [el "img" [("src", "x://[")]%string [];
        el "img" [("src", "http://y.org/a.png"); ("alt", "A")]%string []].

Definition second_image_only : Node :=
  page [el "img" [("src", "http://y.org/a.png"); ("alt", "A")]%string []].

Definition shuffled_headings : Node :=
  page [el "h2" [] [txt "Alpha"]; el "h1" [] [txt "Beta"];
        el "h2" [] [txt "Gamma"]].

Definition button_first_form : Node :=
  page [el "form" []
          [el "button" [] [txt "Go"];
           el "input" [("name", "q")]%string [];
           el "select" [("name", "s")]%string []]].

Definition sourceless_image : Node :=
  page [el "img" [("alt", "logo")]%string []].


Definition empty_thead_table : Node :=
  page [el "table" []
          [el "thead" [] [];
           el "tbody" []
             [el "tr" [] [el "td" [] [txt "x"]; el "td" [] [txt "y"]]]]].

Definition thead_only_table : Node :=
  page [el "table" []
          [el "thead" [] [el "tr" [] [el "th" [] [txt "Name"]]]]].

Definition header_outside_tbody : Node :=
  page [el "table" []
          [el "tr" [] [el "th" [] [txt "H"]];
           el "tbody" []
             [el "tr" [] [el "td" [] [txt "a"]];
              el "tr" [] [el "td" [] [txt "b"]]]]].

Definition header_row_only_table : Node :=
  page [el "table" [] [el "tr" [] [el "th" [] [txt "Name"]]]].

Definition blank_meta_description : Node :=
  page [el "meta" [("name", "description"); ("content", " ")]%string []].

(** Two iteration orders for the examples: first occurrences kept in the
    order of the list, and that order reversed. *)
Definition str_eq_dec : forall a b : str, {a = b} + {a <> b} :=
  list_eq_dec N.eq_dec.

Definition in_list_order (l : list str) : list str := nodup str_eq_dec l.

Definition in_reverse_order (l : list str) : list str :=
  rev (nodup str_eq_dec l).

(** [re] on the example texts that hold e-mail addresses: the text is words
    parted by single blanks, the addresses found are the words with an [@],
    each of which validates, and no phone number and no price is found. *)
Definition finds_addresses : Regex := {|
  findall_ignorecase := fun pattern text =>
    if str_eqb pattern
         (lit "\b[A-Za-z0-9._%+-]+@[A-Za-z0-9.-]+\.[A-Z|a-z]{2,}\b")
    then filter (fun word => contains word (lit "@"))
                (@split ascii_tables text)
    else [];
  re_match := fun _ s => contains s (lit "@");
  search_ignorecase := fun _ _ => false
|}.

Definition two_addresses : Node :=
  page [el "p" [] [txt "a@b.co c@d.org"]].

(** ** More of the program *)

(** *** DataCleaner.clean_numeric *)

Section Numeric.
Context {U : Unicode}.

(** The longest run of [\d] at the head of a string, and what follows it. *)
Fixpoint span_digits (s : str) : str * str :=
  match s with
  | c :: r =>
      if is_decimal c
      then let (digits, rest) := span_digits r in (c :: digits, rest)
      else ([], s)
  | [] => ([], [])
  end.

(** The match of [\d+\.?\d*] at the head of a string: every quantifier is
    greedy and nothing follows that could make it give back. *)
Definition number_at (s : str) : option str :=
  match span_digits s with
  | ([], _) => None
  | (whole, c :: rest) =>
      if N.eqb c 46
      then Some (whole ++ c :: fst (span_digits rest))
      else Some whole
  | (whole, []) => Some whole
  end.

(** The match of [-?\d+\.?\d*] at the head of a string: the sign is taken
    first and given back when no digit follows it. *)
Definition signed_number_at (s : str) : option str :=
  match s with
  | c :: r =>
      if N.eqb c 45
      then match number_at r with
           | Some n => Some (c :: n)
           | None => number_at s
           end
      else number_at s
  | [] => number_at s
  end.

(** The first element of [re.findall(r'-?\d+\.?\d*', s)]: the match at the
    leftmost position that has one. *)
Fixpoint first_number (s : str) : option str :=
  match s with
  | [] => None
  | _ :: r =>
      match signed_number_at s with
      | Some n => Some n
      | None => first_number r
      end
  end.

(** [DataCleaner.clean_numeric], lines 83-91. *)
Definition clean_numeric (value : str) : str :=
  if is_empty value then []
  else match first_number value with
       | Some n => n
       | None => []
       end.

(** Where the digits stop. *)
Definition stops (rest : str) : Prop :=
  match rest with
  | [] => True
  | c :: _ => is_decimal c = false
  end.

(** The strings [\d+\.?\d*] matches as a whole. *)
Definition numeral (n : str) : Prop :=
  exists whole frac,
    whole <> [] /\ forallb is_decimal whole = true
    /\ forallb is_decimal frac = true
    /\ (n = whole \/ (is_decimal 46%N = false /\ n = whole ++ 46%N :: frac)).

End Numeric.

(** *** The count of the scraped items, lines 1104-1109 of [scrape] *)

(** [len(v)] for a list; for the contact dictionary the lengths of its two
    lists and 1 for its number. *)
Definition items_count (v : Items) : nat :=
  match v with
  | TitleItems l => length l
  | DescriptionItems l => length l
  | ImageItems l => length l
  | LinkItems l => length l
  | TableItems l => length l
  | ContactItems c =>
      length (Contact.emails c) + length (Contact.phones c) + 1
  | PriceItems l => length l
  | VideoItems l => length l
  | FormItems l => length l
  | MetaItems l => length l
  end.

Definition total_items (results : Results) : nat :=
  list_sum (map (fun kv => items_count (snd kv)) (data results)).

(** [d.get(k)] on an insertion-ordered dictionary. *)
Fixpoint dict_get {V : Type} (k : string) (d : list (string * V)) : option V :=
  match d with
  | [] => None
  | (k', v) :: r => if String.eqb k k' then Some v else dict_get k r
  end.

(** *** create_clean_csv_data: the contact sheet *)

(** The branch [category == 'contact_info'], lines 894-913: one row per
    email, then one per phone; the columns are the keys of the row
    dictionaries. *)
Definition contact_rows (items : Contact.t) : list (list str) :=
  map (fun email => [lit "Email"; email; lit "Yes"]) (Contact.emails items)
  ++ map (fun phone => [lit "Phone"; phone; lit "Yes"]) (Contact.phones items).

Definition contact_frames (items : Contact.t)
    (data_frames : list (string * DataFrame)) : list (string * DataFrame) :=
  let rows := contact_rows items in
  if is_empty rows then data_frames
  else dict_set "7_Contact_Info"%string
         {| columns := [lit "Type"; lit "Value"; lit "Validated"];
            values := rows |}
         data_frames.


(** *** WebScraper.get_available_content *)

Module Analysis.
Record t : Type := { count : nat; preview : str }.
End Analysis.

(** The text nodes below a node, in document order. *)
Fixpoint strings_of (n : Node) : list str :=
  match n with
  | Text t => [t]
  | Elem _ _ cs => concat (map strings_of cs)
  end.

(** [if present: d[k] = v] *)
Definition put {V : Type} (present : bool) (k : string) (v : V)
    (d : list (string * V)) : list (string * V) :=
  if present then dict_set k v d else d.

Section Analyze.
Context {U : Unicode}.

(** [re.findall(pattern, text)], without flags. *)
Variable findall : str -> str -> list str.
Variable list_of_set : list str -> list str.

(** [element.get_text(strip=True)]: every text node stripped, the empty ones
    left out, joined without a separator. *)
Definition get_text_stripped (e : Loc) : str :=
  concat (map strip (strings_of (node e))).

(** [get_available_content], lines 259-346. *)
Definition get_available_content (self : WebScraper)
  : list (string * Analysis.t) :=
  let content_analysis := [] in
  let headings := find_all ["h1"; "h2"; "h3"; "h4"; "h5"; "h6"]%string
                    (document self) in
  let content_analysis :=
    put (negb (is_empty headings)) "titles"
      {| Analysis.count := length headings;
         Analysis.preview :=
           match headings with
           | h :: _ => firstn 100 (clean_text (get_text h))
           | [] => []
           end |} content_analysis in
  let paragraphs := find_all ["p"%string] (document self) in
  let content_analysis :=
    put (negb (is_empty paragraphs)) "descriptions"
      {| Analysis.count := length paragraphs;
         Analysis.preview :=
           match paragraphs with
           | p :: _ => firstn 100 (clean_text (get_text p))
           | [] => []
           end |} content_analysis in
  let images := find_all ["img"%string] (document self) in
  let content_analysis :=
    put (negb (is_empty images)) "images"
      {| Analysis.count := length images;
         Analysis.preview :=
           match images with
           | img :: _ => firstn 50 (get img "src" (lit "No src")) ++ lit "..."
           | [] => []
           end |} content_analysis in
  let links := anchors self in
  let content_analysis :=
    put (negb (is_empty links)) "links"
      {| Analysis.count := length links;
         Analysis.preview :=
           match links with
           | a :: _ => firstn 50 (get_text_stripped a)
           | [] => []
           end |} content_analysis in
  let tables := find_all ["table"%string] (document self) in
  let content_analysis :=
    put (negb (is_empty tables)) "tables"
      {| Analysis.count := length tables;
         Analysis.preview :=
           match tables with
           | table :: _ =>
               lit "Table with "
               ++ str_of_nat (length (find_all ["tr"%string] table))
               ++ lit " rows"
           | [] => []
           end |} content_analysis in
  let page_text := get_text (document self) in
  let emails :=
    findall (lit "\b[A-Za-z0-9._%+-]+@[A-Za-z0-9.-]+\.[A-Z|a-z]{2,}\b")
            page_text in
  let phones :=
    findall (lit "\b(?:\+?1[-.]?)?\(?\d{3}\)?[-.]?\d{3}[-.]?\d{4}\b")
            page_text in
  let content_analysis :=
    put (negb (is_empty emails) || negb (is_empty phones)) "contact"
      {| Analysis.count :=
           length (list_of_set emails) + length (list_of_set phones);
         Analysis.preview :=
           str_of_nat (length (list_of_set emails)) ++ lit " emails, "
           ++ str_of_nat (length (list_of_set phones)) ++ lit " phones" |}
      content_analysis in
  let prices := findall (lit "\$\s*\d+(?:,\d{3})*(?:\.\d{2})?") page_text in
  let content_analysis :=
    put (negb (is_empty prices)) "prices"
      {| Analysis.count := length (list_of_set prices);
         Analysis.preview :=
           match prices with
           | price :: _ => price
           | [] => []
           end |} content_analysis in
  let videos := find_all ["video"; "iframe"]%string (document self) in
  let content_analysis :=
    put (negb (is_empty videos)) "videos"
      {| Analysis.count := length videos;
         Analysis.preview := lit "Video content detected" |}
      content_analysis in
  let forms := find_all ["form"%string] (document self) in
  let content_analysis :=
    put (negb (is_empty forms)) "forms"
      {| Analysis.count := length forms;
         Analysis.preview :=
           str_of_nat (length forms) ++ lit " form(s) detected" |}
      content_analysis in
  let meta_tags := find_all ["meta"%string] (document self) in
  let content_analysis :=
    put (negb (is_empty meta_tags)) "meta"
      {| Analysis.count := length meta_tags;
         Analysis.preview :=
           str_of_nat (length meta_tags) ++ lit " meta tags" |}
      content_analysis in
  content_analysis.

End Analyze.

(** *** create_clean_csv_data: the form sheets *)

(** A cell of a sheet with mixed columns. *)
Inductive Cell : Type :=
| CStr (s : str)
| CInt (n : nat).

Record Sheet : Type := {
  sheet_columns : list str;
  sheet_rows : list (list Cell)
}.

(** ['Yes' if b else 'No'] *)
Definition yes_no (b : bool) : Cell :=
  CStr (if b then lit "Yes" else lit "No").

(** [field.get(key, '')] on an optional string key. *)
Definition or_blank (v : option str) : Cell :=
  CStr (match v with Some s => s | None => [] end).

Section FormSheets.

(** [json.dumps] on a dictionary of strings. *)
Variable json_dumps : list (str * str) -> str.

Definition form_overview_columns : list str :=
  map lit ["Form_Number"; "Form_ID"; "Form_Name"; "Form_Class"; "Action_URL";
           "Method"; "Encoding_Type"; "Autocomplete"; "Target";
           "Total_Fields"; "Hidden_Fields"; "Required_Fields";
           "Disabled_Fields"]%string.

(** The dictionary [form_overview], lines 931-945. *)
Definition form_overview (form : Form.t) : list Cell :=
  [ CInt (Form.form_number form);
    CStr (Form.form_id form);
    CStr (Form.form_name form);
    CStr (Form.form_class form);
    CStr (Form.action form);
    CStr (Form.method form);
    CStr (Form.enctype form);
    CStr (Form.autocomplete form);
    CStr (Form.target form);
    CInt (Form.total_fields form);
    CInt (Form.hidden_fields form);
    CInt (Form.required_fields form);
    CInt (Form.disabled_fields form) ].

Definition field_columns : list str :=
  map lit ["Position"; "Element_Type"; "Input_Type"; "Name"; "ID"; "Label";
           "Value"; "Placeholder"; "Required"; "Disabled"; "Readonly";
           "Hidden"; "Checked"; "Min"; "Max"; "MaxLength"; "Pattern"; "Rows";
           "Cols"; "Multiple"; "Size"; "Options_Count"; "Class";
           "ARIA_Label"; "Text"; "Data_Attributes"]%string.

(** The dictionary [field_row], lines 954-981. *)
Definition field_row (field : Field.t) : list Cell :=
  [ CInt (Field.position field);
    CStr (Field.element_type field);
    CStr (Field.input_type field);
    CStr (Field.name field);
    CStr (Field.id field);
    or_blank (Field.label field);
    or_blank (Field.value field);
    or_blank (Field.placeholder field);
    yes_no (truthy (Field.required field));
    yes_no (Field.disabled field);
    yes_no (truthy (Field.readonly field));
    yes_no (truthy (Field.hidden field));
    yes_no (truthy (Field.checked field));
    or_blank (Field.min field);
    or_blank (Field.max field);
    or_blank (Field.maxlength field);
    or_blank (Field.pattern field);
    or_blank (Field.rows field);
    or_blank (Field.cols field);
    yes_no (truthy (Field.multiple field));
    or_blank (Field.size field);
    match Field.options_count field with
    | Some n => CInt n
    | None => CStr []
    end;
    CStr (Field.class field);
    or_blank (Field.aria_label field);
    or_blank (Field.text field);
    CStr (json_dumps match Field.data_attributes field with
                     | Some d => d
                     | None => []
                     end) ].

Definition option_columns : list str :=
  map lit ["Field_Name"; "Field_ID"; "Field_Label"; "Option_Value";
           "Option_Text"; "Selected"; "Disabled"]%string.

(** The rows of [select_options_data], lines 988-1000. *)
Definition select_options_data (fields : list Field.t) : list (list Cell) :=
  flat_map (fun field =>
    if str_eqb (Field.element_type field) (lit "select")
    then match Field.options field with
         | Some options =>
             if is_empty options then []
             else
               map (fun opt =>
                 [ CStr (Field.name field);
                   CStr (Field.id field);
                   or_blank (Field.label field);
                   CStr (Option_.value opt);
                   CStr (Option_.text opt);
                   yes_no (Option_.selected opt);
                   yes_no (Option_.disabled opt) ]) options
         | None => []
         end
    else []) fields.

(** The number of options a field lists: those of a [select], none of any
    other field. *)
Definition options_listed (field : Field.t) : nat :=
  if str_eqb (Field.element_type field) (lit "select")
  then match Field.options field with
       | Some options => length options
       | None => 0
       end
  else 0.

(** [f'10_Form_{form_num}_{part}'] *)
Definition form_key (form_num : nat) (part : string) : string :=
  ("10_Form_" ++ NilEmpty.string_of_uint (Nat.to_uint form_num)
   ++ "_" ++ part)%string.

(** The sheets of one form, lines 927-1004. *)
Definition one_form_frames (form : Form.t)
    (data_frames : list (string * Sheet)) : list (string * Sheet) :=
  let form_num := Form.form_number form in
  let data_frames :=
    dict_set (form_key form_num "Overview")
      {| sheet_columns := form_overview_columns;
         sheet_rows := [form_overview form] |} data_frames in
  let fields := Form.fields form in
  let data_frames :=
    put (negb (is_empty fields)) (form_key form_num "Fields")
      {| sheet_columns := field_columns;
         sheet_rows := map field_row fields |} data_frames in
  let options := select_options_data fields in
  put (negb (is_empty options)) (form_key form_num "Options")
    {| sheet_columns := option_columns; sheet_rows := options |} data_frames.

(** The branch [category == 'forms'], lines 925-1004. *)
Definition form_frames (items : list Form.t)
    (data_frames : list (string * Sheet)) : list (string * Sheet) :=
  fold_left (fun data_frames form => one_form_frames form data_frames)
            items data_frames.

End FormSheets.

(** The test a category passes to be matched: it scored, and it scored at
    least 70% of the maximum. *)
Definition passes (tokens : list str) (entry : string * list string) : bool :=
  (0 <? score_of tokens (snd entry))
  && (7 * max_score tokens <=? 10 * score_of tokens (snd entry)).

(** A record of the first pass of [_extract_all_prices], lines 568-575. *)
Definition marked_price {U : Unicode} (elem : Loc) (price : str) : Price.t :=
  {| Price.price := price;
     Price.context := firstn 150 (clean_text (get_text elem)) |}.

(** A record of the second pass of [_extract_all_prices]. *)
Definition general_price (price : str) : Price.t :=
  {| Price.price := price; Price.context := lit "General page content" |}.

Definition video_page : Node :=
  page [el "video" [("src", "http://y.org/v.mp4")]%string [];
        el "iframe" [("src", "https://ads.example/banner")]%string [];
        el "iframe" [("src", "https://www.youtube.com/embed/x")]%string []].

(** The sheet of one table record: its name and its frame. *)
Definition frame_entry (record : Table.t) : string * DataFrame :=
  (table_key (Table.table_number record),
   {| columns := Table.headers record;
      values := map (normalize_row (length (Table.headers record)))
                    (Table.rows record) |}).

(** What the record of a form holds of the form element it was made from. *)
Definition form_record_of {U : Unicode} (record : Form.t) (form : Loc) : Prop :=
  Form.fields record = form_fields form
  /\ Form.total_fields record = length (Form.fields record)
  /\ Form.hidden_fields record
     = length (filter (fun f => truthy (Field.hidden f)) (Form.fields record))
  /\ Form.required_fields record
     = length (filter (fun f => truthy (Field.required f))
                      (Form.fields record))
  /\ Form.disabled_fields record
     = length (filter Field.disabled (Form.fields record)).

Definition csrf_form : Node :=
  page [el "form" [("action", "https://x.com/login")]%string
          [el "input" [("type", "hidden"); ("name", "csrf")]%string [];
           el "input" [("type", "text"); ("name", "user")]%string []]].

Definition one_option_form : Node :=
  page [el "form" []
          [el "select" [("name", "size")]%string
             [el "option" [("value", "s")]%string [txt "Small"]]]].

(** *** The categories of [scrape_full] *)

Section Categories.
Context {U : Unicode} {R : Regex}.
Variable urljoin : str -> str -> result str.
Variable list_of_set : list str -> list str.

(** The ten conditional statements of lines 374-402: the name that selects
    the category, the key its records are stored under, and its extractor. *)
Definition categories (self : WebScraper)
  : list (string * string * result Items) :=
  [ ("titles", "titles", Ok (TitleItems (_extract_all_titles self)));
    ("descriptions", "descriptions",
     Ok (DescriptionItems (_extract_all_descriptions self)));
    ("images", "images",
     l <- _extract_all_images urljoin self ;; Ok (ImageItems l));
    ("links", "links", l <- _extract_all_links urljoin self ;; Ok (LinkItems l));
    ("tables", "tables", Ok (TableItems (_extract_all_tables self)));
    ("contact", "contact_info",
     Ok (ContactItems (_extract_all_contact_info list_of_set self)));
    ("prices", "prices", Ok (PriceItems (_extract_all_prices self)));
    ("videos", "videos",
     l <- _extract_all_videos urljoin self ;; Ok (VideoItems l));
    ("forms", "forms", l <- _extract_all_forms urljoin self ;; Ok (FormItems l));
    ("meta", "meta", Ok (MetaItems (_extract_all_meta self))) ]%string.

(** No selected extractor raises. *)
Definition nothing_raises (self : WebScraper) (features : list str) : Prop :=
  Forall (fun '(feature, _, extractor) =>
            selected (or_all features) feature = false
            \/ exists items, extractor = Ok items)
         (categories self).

(** The entry a category leaves in [results['data']]. *)
Definition entry_of (features : list str)
    (category : string * string * result Items) : list (string * Items) :=
  let '(feature, key, extractor) := category in
  if selected (or_all features) feature
  then match extractor with
       | Ok items => [(key, items)]
       | Raise _ => []
       end
  else [].

End Categories.

(** The names [scrape_full] knows. *)
Definition feature_names : list string :=
  ["all"; "titles"; "descriptions"; "images"; "links"; "tables"; "contact";
   "prices"; "videos"; "forms"; "meta"]%string.

Definition bad_image_page : Node :=
  page [el "h1" [] [txt "News"]; el "img" [("src", "x://[")]%string []].

(** The count the analysis reports under a key, 0 when it has no such key. *)
Definition reported (analysis : list (string * Analysis.t)) (key : string)
  : nat :=
  match dict_get key analysis with
  | Some entry => Analysis.count entry
  | None => 0
  end.

(** 1 for a node with one of the tags, 0 otherwise. *)
Definition tagged (tags : list string) (n : Node) : nat :=
  if is_tag (map lit tags) n then 1 else 0.

(** ** Basic facts *)

Lemma str_eqb_eq (a b : str) : str_eqb a b = true <-> a = b.
Proof.
  unfold str_eqb. destruct (list_eq_dec N.eq_dec a b); split; congruence.
Qed.

Lemma str_eqb_refl (a : str) : str_eqb a a = true.
Proof. now apply str_eqb_eq. Qed.

Lemma dict_set_In {V : Type} (k k' : string) (v v' : V) (d : list (string * V)) :
  In (k', v') (dict_set k v d) -> (k' = k /\ v' = v) \/ In (k', v') d.
Proof.
  induction d as [| [k0 v0] d IH]; cbn.
  - intros [H | []]. inversion H. now left.
  - destruct (String.eqb k k0).
    + intros [H | H]; [inversion H; now left | right; now right].
    + intros [H | H]; [right; now left |].
      destruct (IH H) as [? | ?]; [now left | right; now right].
Qed.

Lemma dict_get_dict_set {V : Type} (k k' : string) (v : V)
    (d : list (string * V)) :
  dict_get k (dict_set k' v d)
  = if String.eqb k k' then Some v else dict_get k d.
Proof.
  induction d as [| [k0 v0] d IH]; cbn [dict_set dict_get]; [reflexivity |].
  destruct (String.eqb_spec k' k0) as [-> | Hne]; cbn [dict_get].
  - destruct (String.eqb k k0); reflexivity.
  - rewrite IH. destruct (String.eqb_spec k k0) as [-> | Hne'];
      [| reflexivity].
    destruct (String.eqb_spec k0 k'); [congruence | reflexivity].
Qed.

Lemma list_max_In (l : list nat) : l <> [] -> In (list_max l) l.
Proof.
  induction l as [| a l IH]; [congruence |]. intros _.
  change (list_max (a :: l)) with (Nat.max a (list_max l)).
  destruct l as [| b l].
  - left. cbn. lia.
  - destruct (Nat.max_spec a (list_max (b :: l))) as [[_ ->] | [_ ->]].
    + right. apply IH. discriminate.
    + now left.
Qed.

Lemma combine_seq_positions {A : Type} (l : list A) :
  forall k, map (fun '(idx, _) => idx + 1) (combine (seq k (length l)) l)
            = seq (k + 1) (length l).
Proof.
  induction l as [| a l IH]; intro k; [reflexivity |].
  cbn [length seq combine map]. rewrite IH. reflexivity.
Qed.

Lemma collect_ok {A B : Type} (f : A -> result (list B)) (l : list A) :
  (forall a, In a l -> exists bs, f a = Ok bs) ->
  exists r, collect f l = Ok r.
Proof.
  induction l as [| a l IH]; intro H; [now exists [] |].
  destruct (H a (or_introl eq_refl)) as [bs Hbs].
  destruct IH as [r Hr]; [intros a' Ha'; apply H; now right |].
  exists (bs ++ r). cbn [collect]. rewrite Hbs, Hr. reflexivity.
Qed.

Lemma collect_raises {A B : Type} (f : A -> result (list B))
    (before after : list A) (x : A) (e : str) :
  (forall a, In a before -> exists bs, f a = Ok bs) ->
  f x = Raise e ->
  collect f (before ++ x :: after) = Raise e.
Proof.
  intros Hbefore Hx.
  induction before as [| a before IH]; cbn [app collect].
  - rewrite Hx. reflexivity.
  - destruct (Hbefore a (or_introl eq_refl)) as [bs ->]. cbn [bind].
    rewrite IH; [reflexivity |].
    intros a' Ha'. apply Hbefore. now right.
Qed.

(** ** FieldCleaner *)

(** C7.  [clean_text] is not idempotent: the control characters go after the
    whitespace runs are collapsed, so a control character standing between
    two blanks leaves two blanks behind, and a second pass collapses them.
    On the string [a], blank, U+0000, blank, [b] the first pass gives [a],
    two blanks, [b], and the second pass gives [a], one blank, [b]. *)
Theorem clean_text_twice_differs :
  @clean_text ascii_tables spaced_control = lit "a  b"
  /\ @clean_text ascii_tables (@clean_text ascii_tables spaced_control)
     = lit "a b"
  /\ @clean_text ascii_tables (@clean_text ascii_tables spaced_control)
     <> @clean_text ascii_tables spaced_control.
Proof.
  repeat split; try reflexivity.
  vm_compute. discriminate.
Qed.

(** Where no plus sign stands after the first character, the code does what
    the specification describes. *)
Lemma standardize_phone_without_inner_plus {U : Unicode} (phone : str) :
  existsb (N.eqb 43) (tl phone) = false ->
  standardize_phone phone = standardize_phone_spec phone.
Proof.
  destruct phone as [| c r]; [reflexivity |]. cbn [tl]. intro Hplus.
  unfold standardize_phone, standardize_phone_spec, sub_non_digit_plus,
    strip_to_digits_spec.
  cbn [is_empty filter].
  assert (Hr : filter (fun c0 => is_decimal c0 || N.eqb c0 43) r
               = filter is_decimal r).
  { apply filter_ext_in. intros x Hx.
    destruct (N.eqb x 43) eqn:E; [| now rewrite orb_false_r].
    exfalso. apply N.eqb_eq in E. subst x.
    assert (existsb (N.eqb 43) r = true)
      by (apply existsb_exists; exists 43%N; split; [exact Hx | reflexivity]).
    congruence. }
  rewrite Hr.
  destruct (N.eqb c 43), (is_decimal c); reflexivity.
Qed.

(** C8.  [standardize_phone] keeps every plus sign, not only a leading one:
    on [555-123+4567] it returns [555123+4567], where removing all but the
    digits and a leading plus gives [5551234567].  The two examples of the
    specification hold. *)
Theorem standardize_phone_keeps_inner_plus :
  @standardize_phone ascii_tables (lit "555-123+4567") = lit "555123+4567"
  /\ @standardize_phone_spec ascii_tables (lit "555-123+4567")
     = lit "5551234567"
  /\ @standardize_phone ascii_tables (lit "(555) 123-4567") = lit "5551234567"
  /\ @standardize_phone ascii_tables (lit "12") = lit "12".
Proof. repeat split; reflexivity. Qed.

(** ** TableNormalizer *)

Lemma normalize_row_pad_trim (max_cols : nat) (row : list str) :
  normalize_row max_cols row
  = firstn max_cols (row ++ repeat [] (max_cols - length row)).
Proof.
  unfold normalize_row.
  destruct (Nat.ltb_spec (length row) max_cols) as [Hlt | Hge].
  - rewrite firstn_all2; [reflexivity |].
    rewrite length_app, repeat_length. lia.
  - replace (max_cols - length row) with 0 by lia. cbn [repeat].
    rewrite app_nil_r.
    destruct (Nat.ltb_spec max_cols (length row)) as [Hgt | Hle].
    + reflexivity.
    + symmetry. apply firstn_all2. lia.
Qed.

Lemma normalize_row_length (max_cols : nat) (row : list str) :
  length (normalize_row max_cols row) = max_cols.
Proof.
  rewrite normalize_row_pad_trim, length_firstn, length_app, repeat_length. lia.
Qed.

Example normalize_row_examples (v1 v2 v3 v4 : str) :
  normalize_row 3 [v1; v2] = [v1; v2; []]
  /\ normalize_row 3 [v1; v2; v3; v4] = [v1; v2; v3].
Proof. split; reflexivity. Qed.

Lemma table_frames_In (items : list Table.t) :
  forall (frames : list (string * DataFrame)) (name : string) (df : DataFrame),
    In (name, df) (table_frames items frames) ->
    In (name, df) frames
    \/ exists table, In table items
                     /\ name = table_key (Table.table_number table)
                     /\ frame_of table df.
Proof.
  unfold table_frames.
  induction items as [| table items IH]; intros frames name df H; cbn in H.
  - now left.
  - apply IH in H. destruct H as [H | (t & Hin & Hname & Hframe)].
    + destruct (negb (is_empty (Table.rows table))
                && negb (is_empty (Table.headers table))).
      * apply dict_set_In in H. destruct H as [[Hk Hv] | H]; [| now left].
        right. exists table. split; [now left |]. split; [exact Hk |].
        subst df. split; [reflexivity |]. cbn.
        apply map_ext. intro row. apply normalize_row_pad_trim.
      * now left.
    + right. exists t. split; [now right | now split].
Qed.

(** ** IntentClassifier *)

Section Scores.
Variable tokens : list str.

Lemma scored_In (taxonomy : list (string * list string)) (c : string) (v : nat) :
  In (c, v) (scored tokens taxonomy)
  <-> exists keywords, In (c, keywords) taxonomy
                       /\ v = score_of tokens keywords /\ 0 < v.
Proof.
  unfold scored. rewrite in_flat_map. split.
  - intros ([c' kws] & Hin & H). cbv beta iota zeta in H.
    destruct (Nat.ltb_spec 0 (score_of tokens kws)) as [Hpos | Hz].
    + destruct H as [H | []]. inversion H; subst. now exists kws.
    + destruct H.
  - intros (kws & Hin & -> & Hpos). exists (c, kws). split; [exact Hin |].
    cbv beta iota zeta. apply Nat.ltb_lt in Hpos. rewrite Hpos. now left.
Qed.

Lemma scored_max (taxonomy : list (string * list string)) :
  list_max (map snd (scored tokens taxonomy))
  = list_max (map (fun entry => score_of tokens (snd entry)) taxonomy).
Proof.
  unfold scored.
  induction taxonomy as [| [c kws] taxonomy IH]; [reflexivity |].
  cbn [flat_map map snd]. rewrite map_app, list_max_app, IH.
  cbv beta iota zeta.
  destruct (Nat.ltb_spec 0 (score_of tokens kws)) as [Hpos | Hz];
    cbn [map snd]; unfold list_max; cbn [fold_right]; lia.
Qed.

End Scores.

(** [match_tokens] by the scores: a category is returned exactly when it
    scored and scored at least 70% of the maximum, and [all] exactly when
    nothing scored. *)
Lemma match_tokens_In :
  forall (tokens : list str) (c : string),
    In c (match_tokens tokens)
    <-> (c = "all"%string /\ max_score tokens = 0)
        \/ (exists keywords,
               In (c, keywords) element_keywords
               /\ 0 < score_of tokens keywords
               /\ 7 * max_score tokens <= 10 * score_of tokens keywords).
Proof.
  intros tokens c. unfold match_tokens, max_score.
  rewrite <- (scored_max tokens element_keywords).
  change (scores_of tokens) with (scored tokens element_keywords).
  set (scores := scored tokens element_keywords).
  assert (Hin : forall c v, In (c, v) scores
                <-> exists kws, In (c, kws) element_keywords
                                /\ v = score_of tokens kws /\ 0 < v)
    by (intros; apply scored_In).
  clearbody scores.
  destruct scores as [| s0 scores'].
  - cbn. split.
    + intros [<- | []]. now left.
    + intros [[-> _] | (kws & Hk & Hpos & _)]; [now left |].
      exfalso. apply (Hin c (score_of tokens kws)). now exists kws.
  - set (scores := s0 :: scores') in *.
    set (m := list_max (map snd scores)).
    assert (Hm : In m (map snd scores))
      by (apply list_max_In; discriminate).
    apply in_map_iff in Hm. destruct Hm as ([cm vm] & Hvm & Hcm).
    cbn [snd] in Hvm.
    assert (Hmpos : 0 < m).
    { subst vm. apply Hin in Hcm. destruct Hcm as (? & _ & _ & ?). exact H. }
    set (matched := map fst (filter (fun '(_, v) => 7 * m <=? 10 * v) scores)).
    assert (Hmatched : forall c, In c matched
              <-> exists v, In (c, v) scores /\ 7 * m <= 10 * v).
    { intro c0. unfold matched. rewrite in_map_iff. split.
      - intros ([c1 v] & Hc & Hf). cbn in Hc. subst c1.
        apply filter_In in Hf. destruct Hf as [Hf Hle].
        apply Nat.leb_le in Hle. now exists v.
      - intros (v & Hv & Hle). exists (c0, v). split; [reflexivity |].
        apply filter_In. split; [exact Hv |]. now apply Nat.leb_le. }
    assert (Hne : In cm matched).
    { apply Hmatched. exists vm. split; [exact Hcm | lia]. }
    destruct matched as [| c0 matched'] eqn:E; [destruct Hne |].
    cbv iota. rewrite Hmatched. split.
    + intros (v & Hv & Hle). right.
      apply Hin in Hv. destruct Hv as (kws & Hk & -> & Hpos).
      now exists kws.
    + intros [[_ Hz] | (kws & Hk & Hpos & Hle)]; [lia |].
      exists (score_of tokens kws). split; [| exact Hle].
      apply Hin. now exists kws.
Qed.

(** ** scrape_full *)

Lemma try_block_clock_blind (body : list stmt) :
  Forall clock_blind body -> clock_blind (try_block body).
Proof.
  induction 1 as [| s body Hs _ IH]; intros now results; [reflexivity |].
  cbn [try_block]. rewrite Hs.
  destruct (s results) as [results' [e |]]; cbn [fst snd].
  - reflexivity.
  - apply IH.
Qed.

Lemma extract_into_clock_blind (features : list str) (feature key : string)
    (extractor : result Items) :
  clock_blind (extract_into features feature key extractor).
Proof.
  intros now results. unfold extract_into.
  destruct (selected features feature); [| reflexivity].
  destruct extractor; reflexivity.
Qed.

Section Runs.
Context {U : Unicode} {R : Regex}.
Variable urljoin : str -> str -> result str.
Variable list_of_set : list str -> list str.

Lemma scrape_body_clock_blind (self : WebScraper) (features : list str) :
  Forall clock_blind (scrape_body urljoin list_of_set self features).
Proof.
  unfold scrape_body.
  repeat (apply Forall_cons; [try apply extract_into_clock_blind |]);
    try apply Forall_nil.
  - intros now results. reflexivity.
  - intros now results.
    destruct (find_attr "meta" "name" (lit "description") (document self))
      as [meta_desc |]; [| reflexivity].
    destruct (is_empty (get meta_desc "content" [])); reflexivity.
Qed.

Lemma scrape_full_with_timestamp (now : str) (self : WebScraper)
    (features : list str) :
  scrape_full urljoin list_of_set now self features
  = (with_timestamp now
       (fst (scrape_full urljoin list_of_set [] self features)),
     snd (scrape_full urljoin list_of_set [] self features)).
Proof.
  unfold scrape_full.
  pose proof (try_block_clock_blind (scrape_body_clock_blind self features))
    as H.
  match goal with
  | |- context [try_block _ ?r0] =>
      change r0 with
        (with_timestamp now
           {| metadata := {| Metadata.url := url self;
                             Metadata.timestamp := [];
                             Metadata.title := [];
                             Metadata.description := [] |};
              data := [] |})
  end.
  rewrite H.
  match goal with
  | |- context [try_block ?b ?r] => destruct (try_block b r) as [res [e |]]
  end; reflexivity.
Qed.

Lemma images_raise_at (self : WebScraper) (before after : list (nat * Loc))
    (idx : nat) (img : Loc) (e : str) :
  enumerate (find_all ["img"%string] (document self))
  = before ++ (idx, img) :: after ->
  (forall i elem, In (i, elem) before -> image_extracts urljoin self elem) ->
  is_empty (image_src img) = false ->
  clean_url urljoin (image_src img) (base_url self) = Raise e ->
  _extract_all_images urljoin self = Raise e.
Proof.
  intros Hsplit Hbefore Hsrc Hraise. unfold _extract_all_images.
  rewrite Hsplit. apply collect_raises.
  - intros [i elem] Hin. destruct (Hbefore i elem Hin) as [He | [u Hu]].
    + rewrite He. eauto.
    + destruct (is_empty (image_src elem)); [eauto |]. rewrite Hu. cbn. eauto.
  - rewrite Hsrc, Hraise. reflexivity.
Qed.

Lemma description_stmt_keeps_data (self : WebScraper) (results : Results) :
  exists results',
    match find_attr "meta" "name" (lit "description") (document self) with
    | Some meta_desc =>
        let content := get meta_desc "content" [] in
        if is_empty content then (results, None)
        else set_description (clean_text content) results
    | None => (results, None)
    end = (results', None) /\ data results' = data results.
Proof.
  destruct (find_attr "meta" "name" (lit "description") (document self))
    as [meta_desc |]; [| eauto].
  cbv zeta. destruct (is_empty (get meta_desc "content" [])); [eauto |].
  eexists. split; reflexivity.
Qed.

(** C9, as the code has it.  No extractor guards a single element: when
    cleaning the address of one image raises, [_extract_all_images] raises as
    a whole, with no image returned.  [scrape_full] catches it, appends the
    error to the log and returns what the categories before it put into the
    results (titles and descriptions, as far as selected); the failing
    category and those after it are absent. *)
Theorem scrape_full_stops_at_failing_image (now : str) (self : WebScraper)
    (features : list str) (before after : list (nat * Loc)) (idx : nat)
    (img : Loc) (e : str)
    (Hselected : selected (or_all features) "images" = true)
    (Hsplit : enumerate (find_all ["img"%string] (document self))
              = before ++ (idx, img) :: after)
    (Hbefore : forall i elem,
        In (i, elem) before -> image_extracts urljoin self elem)
    (Hsrc : is_empty (image_src img) = false)
    (Hraise : clean_url urljoin (image_src img) (base_url self) = Raise e) :
  let run := scrape_full urljoin list_of_set now self features in
  _extract_all_images urljoin self = Raise e
  /\ errors (snd run) = errors self ++ [lit "Scraping error: " ++ e]
  /\ soup (snd run) = soup self
  /\ data (fst run)
     = (if selected (or_all features) "titles"
        then [("titles"%string, TitleItems (_extract_all_titles self))]
        else [])
       ++ (if selected (or_all features) "descriptions"
           then [("descriptions"%string,
                  DescriptionItems (_extract_all_descriptions self))]
           else []).
Proof.
  pose proof (@images_raise_at self before after idx img e
                Hsplit Hbefore Hsrc Hraise) as Himages.
  cbv zeta. split; [exact Himages |].
  unfold scrape_full, scrape_body. cbv zeta.
  cbn [try_block set_title].
  match goal with
  | |- context [set_description _ ?r] =>
      destruct (description_stmt_keeps_data self r) as (results' & H & Hdata)
  end.
  cbv zeta in H. rewrite H. clear H.
  cbn [data] in Hdata.
  unfold extract_into. rewrite Hselected, Himages. cbn [bind].
  destruct results' as [meta d]. cbn [data] in Hdata. subst d.
  destruct (selected (or_all features) "titles"),
           (selected (or_all features) "descriptions");
    cbn [fst snd errors soup data metadata dict_set String.eqb Ascii.eqb
         Bool.eqb app];
    repeat split; reflexivity.
Qed.

End Runs.

(** ** Two runs of scrape_full *)

Lemma same_entries_dict_set (rel : Items -> Items -> Prop) (key : string)
    (i1 i2 : Items) (d1 d2 : list (string * Items)) :
  same_entries rel d1 d2 -> rel i1 i2 ->
  same_entries rel (dict_set key i1 d1) (dict_set key i2 d2).
Proof.
  intros Hd Hi. induction Hd as [| [k1 v1] [k2 v2] d1 d2 [Hk Hv] Hd IH];
    cbn [dict_set].
  - constructor; [now split | constructor].
  - cbn [fst snd] in Hk, Hv. subst k2.
    destruct (String.eqb key k1); constructor; try assumption; now split.
Qed.

Lemma extract_into_alike (rel : Items -> Items -> Prop)
    (features : list str) (feature key : string) (e1 e2 : result Items) :
  match e1, e2 with
  | Ok i1, Ok i2 => rel i1 i2
  | Raise m1, Raise m2 => m1 = m2
  | _, _ => False
  end ->
  alike rel (extract_into features feature key e1)
            (extract_into features feature key e2).
Proof.
  intros He r1 r2 Hr. unfold extract_into.
  destruct (selected features feature); [| now split].
  destruct e1 as [i1 | m1], e2 as [i2 | m2]; try destruct He.
  - split; [| reflexivity]. destruct Hr as (Hu & Ht & Hd & Hdata).
    repeat split; try assumption.
    cbn [fst data]. now apply same_entries_dict_set.
  - now split.
Qed.

Lemma extract_into_alike_refl (rel : Items -> Items -> Prop)
    (Hrefl : forall i, rel i i)
    (features : list str) (feature key : string) (e : result Items) :
  alike rel (extract_into features feature key e)
            (extract_into features feature key e).
Proof.
  apply extract_into_alike. destruct e; [apply Hrefl | reflexivity].
Qed.

Lemma try_block_alike (rel : Items -> Items -> Prop) (b1 b2 : list stmt) :
  Forall2 (alike rel) b1 b2 -> alike rel (try_block b1) (try_block b2).
Proof.
  induction 1 as [| s1 s2 b1 b2 Hs _ IH]; intros r1 r2 Hr.
  - now split.
  - cbn [try_block]. destruct (Hs r1 r2 Hr) as [Hres Hexc].
    destruct (s1 r1) as [r1' [m1 |]], (s2 r2) as [r2' [m2 |]];
      cbn [fst snd] in *; try discriminate Hexc.
    + now split.
    + now apply IH.
Qed.

Section TwoRuns.
Context {U : Unicode} {R : Regex}.
Variable urljoin : str -> str -> result str.

(** The statements of [scrape_full] read the scraper for its document and
    its base address only. *)
Lemma scrape_body_reads_document (list_of_set : list str -> list str)
    (self1 self2 : WebScraper) (features : list str) :
  soup self1 = soup self2 ->
  base_url self1 = base_url self2 ->
  scrape_body urljoin list_of_set self1 features
  = scrape_body urljoin list_of_set self2 features.
Proof.
  destruct self1 as [u1 s1 b1 e1], self2 as [u2 s2 b2 e2].
  cbn [soup base_url]. intros -> ->. unfold scrape_body.
  set (self1 := {| url := u1; soup := s2; base_url := b2; errors := e1 |}).
  set (self2 := {| url := u2; soup := s2; base_url := b2; errors := e2 |}).
  assert (Hvideos : _extract_all_videos urljoin self1
                    = _extract_all_videos urljoin self2).
  { unfold _extract_all_videos.
    change (document self1) with (document self2).
    change (base_url self1) with (base_url self2).
    destruct (collect _ (enumerate (find_all ["video"%string]
                                             (document self2))))
      as [videos |]; [| reflexivity].
    cbn [bind]. generalize videos.
    induction (find_all ["iframe"%string] (document self2))
      as [| iframe rest IH]; intro found; [reflexivity |].
    cbn [iframe_videos]. cbv zeta.
    change (base_url self1) with (base_url self2).
    destruct (existsb _ _); [| apply IH].
    destruct (clean_url urljoin (get iframe "src" []) (base_url self2));
      [| reflexivity].
    cbn [bind]. apply IH. }
  rewrite Hvideos. reflexivity.
Qed.

Lemma contact_same_items (los1 los2 : list str -> list str)
    (self : WebScraper) :
  set_order los1 -> set_order los2 ->
  same_items (ContactItems (_extract_all_contact_info los1 self))
             (ContactItems (_extract_all_contact_info los2 self)).
Proof.
  intros H1 H2. unfold _extract_all_contact_info. cbv zeta.
  cbn [same_items Contact.emails Contact.phones Contact.total_contacts].
  set (found_emails := extract_pattern (get_text (document self)) "email").
  set (found_phones := extract_pattern (get_text (document self)) "phone").
  assert (Hperm : forall l, Permutation (los1 l) (los2 l)).
  { intro l. destruct (H1 l) as [Hnd1 Hin1], (H2 l) as [Hnd2 Hin2].
    apply NoDup_Permutation; [assumption | assumption |].
    intro x. now rewrite Hin1, Hin2. }
  assert (Hemails : Permutation (filter validate_email (los1 found_emails))
                                (filter validate_email (los2 found_emails))).
  { destruct (H1 found_emails) as [Hnd1 Hin1].
    destruct (H2 found_emails) as [Hnd2 Hin2].
    apply NoDup_Permutation; [now apply NoDup_filter | now apply NoDup_filter |].
    intro x. now rewrite !filter_In, Hin1, Hin2. }
  split; [exact Hemails |].
  split; [apply Permutation_map, Hperm |].
  rewrite !length_map.
  now rewrite (Permutation_length Hemails),
              (Permutation_length (Hperm found_phones)).
Qed.

Lemma same_items_refl (i : Items) : same_items i i.
Proof. destruct i; cbn; try reflexivity. now repeat split. Qed.

Lemma scrape_body_alike (rel : Items -> Items -> Prop)
    (Hrefl : forall i, rel i i)
    (los1 los2 : list str -> list str) (self : WebScraper)
    (features : list str) :
  rel (ContactItems (_extract_all_contact_info los1 self))
      (ContactItems (_extract_all_contact_info los2 self)) ->
  Forall2 (alike rel) (scrape_body urljoin los1 self features)
                      (scrape_body urljoin los2 self features).
Proof.
  intro Hcontact. unfold scrape_body. cbv zeta.
  repeat (apply Forall2_cons;
          [first [ now apply extract_into_alike_refl
                 | now apply extract_into_alike
                 | idtac ] |]);
    try apply Forall2_nil.
  - intros r1 r2 (Hu & Ht & Hd & Hdata). split; [| reflexivity].
    now repeat split.
  - intros r1 r2 (Hu & Ht & Hd & Hdata).
    destruct (find_attr "meta" "name" (lit "description") (document self))
      as [meta_desc |]; [| now repeat split].
    cbv zeta. destruct (is_empty (get meta_desc "content" []));
      now repeat split.
Qed.

Lemma same_entries_eq (d1 d2 : list (string * Items)) :
  same_entries eq d1 d2 -> d1 = d2.
Proof.
  induction 1 as [| [k1 v1] [k2 v2] d1 d2 [Hk Hv] _ IH]; [reflexivity |].
  cbn [fst snd] in Hk, Hv. now subst.
Qed.

(** Two runs whose results agree. *)
Lemma scrape_full_alike (rel : Items -> Items -> Prop)
    (Hrefl : forall i, rel i i)
    (now1 now2 : str) (los1 los2 : list str -> list str)
    (self1 self2 : WebScraper) (features : list str) :
  soup self1 = soup self2 ->
  base_url self1 = base_url self2 ->
  url self1 = url self2 ->
  rel (ContactItems (_extract_all_contact_info los1 self1))
      (ContactItems (_extract_all_contact_info los2 self1)) ->
  let run1 := scrape_full urljoin los1 now1 self1 features in
  let run2 := scrape_full urljoin los2 now2 self2 features in
  agree rel (fst run1) (fst run2)
  /\ exists logged,
       errors (snd run1) = errors self1 ++ logged
       /\ errors (snd run2) = errors self2 ++ logged
       /\ length logged <= 1.
Proof.
  intros Hsoup Hbase Hurl Hcontact. cbv zeta. unfold scrape_full.
  rewrite <- (@scrape_body_reads_document los2 self1 self2 features
                Hsoup Hbase).
  pose proof (@try_block_alike rel _ _
                (@scrape_body_alike rel Hrefl los1 los2 self1 features
                   Hcontact))
    as Hblock.
  match goal with
  | |- context [try_block _ ?r1] =>
      match goal with
      | |- context [try_block (scrape_body urljoin los2 _ _) ?r2] =>
          specialize (Hblock r1 r2)
      end
  end.
  destruct Hblock as [Hres Hexc].
  { cbn [agree metadata data Metadata.url Metadata.title Metadata.description].
    repeat split; [exact Hurl | constructor]. }
  match goal with
  | |- context [try_block (scrape_body urljoin los1 _ _) ?r] =>
      destruct (try_block (scrape_body urljoin los1 self1 features) r)
        as [res1 [m1 |]]
  end;
  match goal with
  | |- context [try_block (scrape_body urljoin los2 _ _) ?r] =>
      destruct (try_block (scrape_body urljoin los2 self1 features) r)
        as [res2 [m2 |]]
  end; cbn [fst snd] in *; try discriminate Hexc.
  - split; [exact Hres |]. inversion Hexc; subst m2.
    exists [lit "Scraping error: " ++ m1]. cbn [errors length].
    repeat split. lia.
  - split; [exact Hres |]. exists []. rewrite !app_nil_r.
    repeat split. cbn. lia.
Qed.

(** C1, as the code has it.  Two runs of [scrape_full] on one document with
    one selection, the second one possibly on the scraper the first one
    left, give the same categories with the same records, in the same order
    and with the same positions, the same page title, description and url,
    and add the same entries to the error log; neither changes the document.
    Two things are the run's own.  The time stamp of the metadata is that of
    the run's clock.  And the addresses and phone numbers of the contact
    record come in the iteration order of a set: the two runs hold the same
    values there, in the same order when the order of sets is the same in
    both, as it is within one process, and possibly in another order
    otherwise. *)
Theorem scrape_full_same_but_timestamp (now1 now2 : str)
    (los1 los2 : list str -> list str) (self1 self2 : WebScraper)
    (features : list str)
    (Horder1 : set_order los1) (Horder2 : set_order los2)
    (Hsoup : soup self1 = soup self2)
    (Hbase : base_url self1 = base_url self2)
    (Hurl : url self1 = url self2) :
  let run1 := scrape_full urljoin los1 now1 self1 features in
  let run2 := scrape_full urljoin los2 now2 self2 features in
  same_entries same_items (data (fst run1)) (data (fst run2))
  /\ ((forall l, los1 l = los2 l) -> data (fst run1) = data (fst run2))
  /\ Metadata.url (metadata (fst run1)) = Metadata.url (metadata (fst run2))
  /\ Metadata.title (metadata (fst run1))
     = Metadata.title (metadata (fst run2))
  /\ Metadata.description (metadata (fst run1))
     = Metadata.description (metadata (fst run2))
  /\ Metadata.timestamp (metadata (fst run1)) = now1
  /\ Metadata.timestamp (metadata (fst run2)) = now2
  /\ soup (snd run1) = soup self1 /\ soup (snd run2) = soup self2
  /\ base_url (snd run1) = base_url self1
  /\ base_url (snd run2) = base_url self2
  /\ exists logged,
       errors (snd run1) = errors self1 ++ logged
       /\ errors (snd run2) = errors self2 ++ logged
       /\ length logged <= 1.
Proof.
  cbv zeta.
  destruct (@scrape_full_alike same_items same_items_refl now1 now2 los1 los2
              self1 self2 features Hsoup Hbase Hurl
              (@contact_same_items los1 los2 self1 Horder1 Horder2))
    as [(Hu & Ht & Hd & Hdata) Hlog].
  split; [exact Hdata |]. split.
  { intro Hsame. apply same_entries_eq.
    refine (match @scrape_full_alike eq (fun i => eq_refl) now1 now2
                    los1 los2 self1 self2 features Hsoup Hbase Hurl _
            with conj (conj _ (conj _ (conj _ H))) _ => H end).
    unfold _extract_all_contact_info. cbv zeta. now rewrite !Hsame. }
  split; [exact Hu |]. split; [exact Ht |]. split; [exact Hd |].
  assert (Hstamp : forall los now self,
             Metadata.timestamp
               (metadata (fst (scrape_full urljoin los now self features)))
             = now).
  { intros los now self.
    now rewrite (@scrape_full_with_timestamp _ _ urljoin los now). }
  split; [apply Hstamp |]. split; [apply Hstamp |].
  assert (Hkept : forall los now self,
             soup (snd (scrape_full urljoin los now self features)) = soup self
             /\ base_url (snd (scrape_full urljoin los now self features))
                = base_url self).
  { intros los now self. unfold scrape_full.
    match goal with
    | |- context [try_block ?b ?r] => destruct (try_block b r) as [res [e |]]
    end; now split. }
  split; [apply Hkept |]. split; [apply Hkept |].
  split; [apply Hkept |]. split; [apply Hkept |].
  exact Hlog.
Qed.

End TwoRuns.

Lemma set_order_in_list_order : set_order in_list_order.
Proof.
  intro l. split; [apply NoDup_nodup | intro x; apply nodup_In].
Qed.

Lemma set_order_in_reverse_order : set_order in_reverse_order.
Proof.
  intro l. unfold in_reverse_order. split.
  - apply NoDup_rev, NoDup_nodup.
  - intro x. rewrite <- in_rev. apply nodup_In.
Qed.

(** C1, as stated, fails: the same page scraped at two clock readings gives
    two different results; and scraped under two iteration orders of sets,
    at one clock reading, it gives its two addresses in two orders. *)
Lemma scrape_full_results_differ_by_clock :
  fst (@scrape_full ascii_tables finds_nothing urljoin_examples (fun l => l)
         (lit "2024-05-01 10:00:00") (scraper_of one_heading) [lit "titles"])
  <> fst (@scrape_full ascii_tables finds_nothing urljoin_examples (fun l => l)
            (lit "2024-05-01 10:00:01") (scraper_of one_heading)
            [lit "titles"])
  /\ data (fst (@scrape_full ascii_tables finds_addresses urljoin_examples
                  in_list_order (lit "2024-05-01 10:00:00")
                  (scraper_of two_addresses) [lit "contact"]))
     = [("contact_info"%string,
         ContactItems {| Contact.emails := [lit "a@b.co"; lit "c@d.org"];
                         Contact.phones := [];
                         Contact.total_contacts := 2 |})]
  /\ data (fst (@scrape_full ascii_tables finds_addresses urljoin_examples
                  in_reverse_order (lit "2024-05-01 10:00:00")
                  (scraper_of two_addresses) [lit "contact"]))
     = [("contact_info"%string,
         ContactItems {| Contact.emails := [lit "c@d.org"; lit "a@b.co"];
                         Contact.phones := [];
                         Contact.total_contacts := 2 |})].
Proof.
  split; [vm_compute; discriminate |]. split; reflexivity.
Qed.

Lemma scrape_full_same_but_timestamp_witness :
  let first :=
    @scrape_full ascii_tables finds_addresses urljoin_examples in_list_order
      (lit "2024-05-01 10:00:00") (scraper_of two_addresses) [lit "contact"] in
  let second :=
    @scrape_full ascii_tables finds_addresses urljoin_examples
      in_reverse_order (lit "2024-05-01 10:00:01") (snd first)
      [lit "contact"] in
  same_entries same_items (data (fst first)) (data (fst second)).
Proof.
  exact (proj1 (@scrape_full_same_but_timestamp ascii_tables finds_addresses
                  urljoin_examples (lit "2024-05-01 10:00:00")
                  (lit "2024-05-01 10:00:01") in_list_order in_reverse_order
                  (scraper_of two_addresses)
                  (snd (@scrape_full ascii_tables finds_addresses
                          urljoin_examples in_list_order
                          (lit "2024-05-01 10:00:00")
                          (scraper_of two_addresses) [lit "contact"]))
                  [lit "contact"]
                  set_order_in_list_order set_order_in_reverse_order
                  eq_refl eq_refl eq_refl)).
Defined.

Lemma scrape_full_stops_at_failing_image_witness :
  let self := scraper_of two_images in
  let run := @scrape_full ascii_tables finds_nothing urljoin_examples
               (fun l => l) (lit "2024-05-01 10:00:00") self [lit "images"] in
  @_extract_all_images ascii_tables urljoin_examples self
  = Raise (lit "Invalid IPv6 URL")
  /\ errors (snd run) = [lit "Scraping error: Invalid IPv6 URL"]
  /\ data (fst run) = [].
Proof.
  cbv zeta.
  pose (B := fun (i : nat) (elem : Loc) (H : In (i, elem) []) =>
               match H return @image_extracts ascii_tables urljoin_examples
                                (scraper_of two_images) elem
               with end).
  destruct (@scrape_full_stops_at_failing_image ascii_tables finds_nothing
              urljoin_examples (fun l => l) (lit "2024-05-01 10:00:00")
              (scraper_of two_images) [lit "images"] []
              (tl (enumerate (find_all ["img"%string]
                                (document (scraper_of two_images)))))
              0
              {| node := el "img" [("src", "x://[")]%string [];
                 ancestors := [two_images]; before := [] |}
              (lit "Invalid IPv6 URL")
              eq_refl eq_refl B eq_refl eq_refl)
    as (H1 & H2 & _ & H4).
  split; [exact H1 |]. split; [exact H2 | exact H4].
Defined.

(** C9, as stated, fails: of two images the first raises, and the extractor
    raises instead of returning the record of the second, which it does
    return when the second stands alone. *)
Lemma images_abort_on_one_bad_element :
  @_extract_all_images ascii_tables urljoin_examples (scraper_of two_images)
  = Raise (lit "Invalid IPv6 URL")
  /\ (exists record,
        @_extract_all_images ascii_tables urljoin_examples
          (scraper_of second_image_only) = Ok [record])
  /\ ~ (exists images,
          @_extract_all_images ascii_tables urljoin_examples
            (scraper_of two_images) = Ok images).
Proof.
  split; [reflexivity |]. split.
  - eexists. reflexivity.
  - intros [images H]. vm_compute in H. discriminate H.
Qed.

(** ** CategoryExtractors *)

Lemma numbered_cons {A : Type} (k : nat) (b : nat -> A) (bs : list (nat -> A)) :
  numbered k (b :: bs) = b (k + 1) :: numbered (S k) bs.
Proof. reflexivity. Qed.

Lemma numbered_app {A : Type} (bs cs : list (nat -> A)) :
  forall k, numbered k (bs ++ cs) = numbered k bs ++ numbered (k + length bs) cs.
Proof.
  induction bs as [| b bs IH]; intro k.
  - cbn [app length]. now rewrite Nat.add_0_r.
  - cbn [app length]. rewrite !numbered_cons, IH. cbn [app].
    replace (k + S (length bs)) with (S k + length bs) by lia. reflexivity.
Qed.

Lemma numbered_length {A : Type} (bs : list (nat -> A)) (k : nat) :
  length (numbered k bs) = length bs.
Proof.
  unfold numbered. rewrite length_map, length_combine, length_seq. lia.
Qed.

Lemma numbered_In {A : Type} (b : nat -> A) (bs : list (nat -> A)) :
  In b bs -> forall k, exists i, In (b i) (numbered k bs).
Proof.
  induction bs as [| b0 bs IH]; intros Hin k; [destruct Hin |].
  rewrite numbered_cons. destruct Hin as [-> | Hin].
  - exists (k + 1). now left.
  - destruct (IH Hin (S k)) as [i Hi]. exists i. now right.
Qed.

Lemma numbered_positions {A : Type} (position : A -> nat)
    (bs : list (nat -> A)) :
  (forall b i, In b bs -> position (b i) = i) ->
  forall k, map position (numbered k bs) = seq (k + 1) (length bs).
Proof.
  induction bs as [| b bs IH]; intros Hpos k; [reflexivity |].
  rewrite numbered_cons. cbn [map length seq].
  rewrite (Hpos b (k + 1) (or_introl eq_refl)). f_equal.
  rewrite IH; [now rewrite Nat.add_1_r, Nat.add_1_r |].
  intros b' i Hb'. apply Hpos. now right.
Qed.



Section Order.
Context {U : Unicode}.

Lemma add_fields_numbered (build : Loc -> nat -> Field.t) (elements : list Loc) :
  forall (k : nat) (fields : list Field.t),
    add_fields build elements (k, fields)
    = (k + length elements, fields ++ numbered k (map build elements)).
Proof.
  unfold add_fields.
  induction elements as [| e elements IH]; intros k fields.
  - cbn. now rewrite Nat.add_0_r, app_nil_r.
  - cbn [fold_left map length]. rewrite IH, numbered_cons, <- app_assoc.
    cbn [app]. rewrite Nat.add_1_r. f_equal. lia.
Qed.

Lemma add_submit_fields_none (submits : list Loc) (k : nat)
    (fields : list Field.t) :
  (forall submit_btn, In submit_btn submits ->
     exists f, In f fields
               /\ Field.id f = get submit_btn "id" []
               /\ Field.name f = get submit_btn "name" []) ->
  add_submit_fields submits (k, fields) = (k, fields).
Proof.
  unfold add_submit_fields.
  induction submits as [| s submits IH]; intro Hdup; [reflexivity |].
  cbn [fold_left].
  destruct (Hdup s (or_introl eq_refl)) as (f & Hf & Hid & Hname).
  replace (existsb _ fields) with true.
  - apply IH. intros s' Hs'. apply Hdup. now right.
  - symmetry. apply existsb_exists. exists f. split; [exact Hf |].
    rewrite Hid, Hname, !str_eqb_refl. reflexivity.
Qed.

Lemma form_fields_numbered (form : Loc) :
  form_fields form = numbered 0 (field_builders form).
Proof.
  unfold form_fields, field_builders.
  rewrite !add_fields_numbered. cbn [app].
  rewrite add_submit_fields_none.
  - cbn [snd]. rewrite !numbered_app, !length_map, !Nat.add_0_l, !app_assoc.
    repeat f_equal; lia.
  - intros s Hs. unfold find_all_attr in Hs. apply filter_In in Hs.
    destruct Hs as [Hs _].
    destruct (numbered_In (input_field form s)
                (map (input_field form) (find_all ["input"%string] form))
                (in_map _ _ _ Hs) 0) as [i Hi].
    exists (input_field form s i). split; [| split; reflexivity].
    rewrite !in_app_iff. do 3 left. exact Hi.
Qed.

Lemma field_builders_position (form : Loc) (b : nat -> Field.t) (i : nat) :
  In b (field_builders form) -> Field.position (b i) = i.
Proof.
  unfold field_builders. rewrite !in_app_iff, !in_map_iff.
  intros [(e & <- & _) | [(e & <- & _) | [(e & <- & _) | (e & <- & _)]]];
    reflexivity.
Qed.

Lemma titles_of_tag_fields (self : WebScraper) (tag : string) :
  let kept :=
    filter (fun '(_, element) =>
              negb (is_empty (clean_text (get_text element))))
           (enumerate (find_all [tag] (document self))) in
  map Title.position (titles_of_tag self tag)
  = map (fun '(idx, _) => idx + 1) kept
  /\ map Title.text (titles_of_tag self tag)
     = map (fun '(_, element) => clean_text (get_text element)) kept
  /\ map Title.level (titles_of_tag self tag)
     = map (fun _ => str_upper (lit tag)) kept.
Proof.
  cbv zeta. unfold titles_of_tag.
  induction (enumerate (find_all [tag] (document self))) as [| [idx e] l IH];
    [repeat split |].
  cbn [flat_map filter]. cbv zeta.
  destruct IH as (IH1 & IH2 & IH3).
  destruct (is_empty (clean_text (get_text e))); cbn [negb app map].
  - repeat split; assumption.
  - rewrite IH1, IH2, IH3. repeat split.
Qed.

(** C5, as the code has it.  The heading records come level by level, h1
    first and h6 last; within a level they follow the document, and the
    position of a record is the 1-based index of its element among the
    elements of that level, the ones with empty text counted.  The fields of
    a form come kind by kind, inputs, text areas, selects, buttons, each kind
    in document order, and are numbered 1, 2, 3, ... in that order. *)
Theorem records_grouped_by_kind (self : WebScraper) :
  _extract_all_titles self = flat_map (titles_of_tag self) heading_tags
  /\ (forall tag : string,
        let kept :=
          filter (fun '(_, element) =>
                    negb (is_empty (clean_text (get_text element))))
                 (enumerate (find_all [tag] (document self))) in
        map Title.position (titles_of_tag self tag)
        = map (fun '(idx, _) => idx + 1) kept
        /\ map Title.text (titles_of_tag self tag)
           = map (fun '(_, element) => clean_text (get_text element)) kept
        /\ map Title.level (titles_of_tag self tag)
           = map (fun _ => str_upper (lit tag)) kept)
  /\ (forall form : Loc,
        form_fields form = numbered 0 (field_builders form)
        /\ map Field.position (form_fields form)
           = seq 1 (length (form_fields form))).
Proof.
  split; [reflexivity |]. split; [intro tag; apply titles_of_tag_fields |].
  intro form. split; [apply form_fields_numbered |].
  rewrite form_fields_numbered, numbered_length.
  apply (numbered_positions Field.position).
  intros b i Hb. now apply (field_builders_position form).
Qed.




End Order.

Section Completeness.
Context {U : Unicode}.
Variable urljoin : str -> str -> result str.

Lemma images_positions (self : WebScraper) (l : list (nat * Loc)) :
  forall images,
    collect (fun '(idx, img) =>
      let src := image_src img in
      if is_empty src then Ok []
      else
        full_url <- clean_url urljoin src (base_url self) ;;
        Ok [ {| Image.position := idx + 1;
                Image.url := full_url;
                Image.alt := clean_text (get img "alt" []);
                Image.title := clean_text (get img "title" []);
                Image.width := get img "width" [];
                Image.height := get img "height" [];
                Image.loading := get img "loading" [] |} ]) l = Ok images ->
    map Image.position images
    = map (fun '(idx, _) => idx + 1)
          (filter (fun '(_, img) => negb (is_empty (image_src img))) l).
Proof.
  induction l as [| [idx img] l IH]; intros images H; cbn [collect] in H.
  - inversion H. reflexivity.
  - cbv zeta in H. cbn [filter].
    destruct (is_empty (image_src img)); cbn [negb].
    + cbn [bind] in H. destruct (collect _ l) as [rest |]; [| discriminate H].
      inversion H. cbn [app]. now apply IH.
    + destruct (clean_url urljoin (image_src img) (base_url self));
        [| discriminate H].
      cbn [bind] in H. destruct (collect _ l) as [rest |]; [| discriminate H].
      inversion H. cbn [app map Image.position]. f_equal. now apply IH.
Qed.

Lemma links_positions (self : WebScraper) (l : list (nat * Loc)) :
  forall links,
    collect (fun '(idx, a) =>
      let href := get a "href" [] in
      full_url <- clean_url urljoin href (base_url self) ;;
      let link_text := clean_text (get_text a) in
      Ok [ {| Link.position := idx + 1;
              Link.url := full_url;
              Link.text := link_text;
              Link.title := clean_text (get a "title" []);
              Link.is_external := negb (contains full_url (base_url self));
              Link.rel := joined a "rel";
              Link.target := get a "target" [] |} ]) l = Ok links ->
    map Link.position links = map (fun '(idx, _) => idx + 1) l.
Proof.
  induction l as [| [idx a] l IH]; intros links H; cbn [collect] in H.
  - inversion H. reflexivity.
  - cbv zeta in H.
    destruct (clean_url urljoin (get a "href" []) (base_url self));
      [| discriminate H].
    cbn [bind] in H. destruct (collect _ l) as [rest |]; [| discriminate H].
    inversion H. cbn [app map Link.position]. f_equal. now apply IH.
Qed.

Lemma paragraphs_positions (self : WebScraper) :
  map Description.position (paragraph_descriptions self)
  = map (fun '(idx, _) => idx + 1)
        (filter (fun '(_, p) => negb (is_empty (clean_text (get_text p))))
                (enumerate (find_all ["p"%string] (document self)))).
Proof.
  unfold paragraph_descriptions.
  induction (enumerate (find_all ["p"%string] (document self)))
    as [| [idx p] l IH]; [reflexivity |].
  cbn [flat_map filter]. cbv zeta.
  destruct (is_empty (clean_text (get_text p))); cbn [negb app map].
  - exact IH.
  - now rewrite IH.
Qed.

End Completeness.

(** C5, as stated, fails: with an h2 before an h1 the records are not in
    document order and their positions are 1, 1, 2; and a button standing
    before an input in a form comes after it in the fields. *)
Lemma records_not_in_document_order :
  ~ @titles_in_document_order ascii_tables (scraper_of shuffled_headings)
  /\ map Title.text
       (@_extract_all_titles ascii_tables (scraper_of shuffled_headings))
     = [lit "Beta"; lit "Alpha"; lit "Gamma"]
  /\ map Title.position
       (@_extract_all_titles ascii_tables (scraper_of shuffled_headings))
     = [1; 1; 2]
  /\ ~ @fields_in_document_order ascii_tables (first_form button_first_form)
  /\ map Field.element_type
       (@form_fields ascii_tables (first_form button_first_form))
     = [lit "input"; lit "select"; lit "button"].
Proof.
  split; [| split; [reflexivity | split; [reflexivity | split]]].
  - intros [H _]. vm_compute in H. discriminate H.
  - intro H. vm_compute in H. discriminate H.
  - reflexivity.
Qed.

Example empty_thead_gets_column_names :
  @_extract_all_tables ascii_tables (scraper_of empty_thead_table)
  = [ {| Table.table_number := 1;
         Table.headers := [lit "Column_1"; lit "Column_2"];
         Table.rows := [[lit "x"; lit "y"]];
         Table.row_count := 1;
         Table.column_count := 2 |} ].
Proof. reflexivity. Qed.


(** A header row that stands before the [tbody]: line 523 leaves out the
    first row to process, which is then the first row of the [tbody], not
    the row the header was read from; the data row [a] is lost. *)
Example header_row_outside_tbody :
  @_extract_all_tables ascii_tables (scraper_of header_outside_tbody)
  = [ {| Table.table_number := 1;
         Table.headers := [lit "H"];
         Table.rows := [[lit "b"]];
         Table.row_count := 1;
         Table.column_count := 1 |} ].
Proof. reflexivity. Qed.

Lemma combine_seq_nth {A : Type} (l : list A) :
  forall (k i : nat) (x : A),
    In (i, x) (combine (seq k (length l)) l) ->
    k <= i /\ nth_error l (i - k) = Some x.
Proof.
  induction l as [| a l IH]; intros k i x H; [destruct H |].
  cbn [length seq combine] in H. destruct H as [H | H].
  - inversion H; subst. rewrite Nat.sub_diag. now split.
  - apply IH in H. destruct H as [Hle Hnth]. split; [lia |].
    replace (i - k) with (S (i - S k)) by lia. exact Hnth.
Qed.

(** C10.  The guard of line 530 holds: a record is emitted only for a table
    with a non-empty header list and a kept data row, under the number of
    the table in the document.  But a table that has only a header row, in a
    [thead] and without a [tbody], does get a record: the rows to process
    are then all the rows of the table, the header row among them, and none
    is skipped.  The record carries the header row as its one data row, and
    the normalizer makes the frame [6_Table_1] from it. *)
Theorem thead_row_counted_as_data :
  (forall (U : Unicode) (self : WebScraper) (record : Table.t),
      In record (_extract_all_tables self) ->
      Table.headers record <> [] /\ Table.rows record <> []
      /\ exists table,
           nth_error (find_all ["table"%string] (document self))
                     (Table.table_number record - 1) = Some table
           /\ Table.headers record = table_headers table
           /\ Table.rows record = table_rows table (table_headers table))
  /\ @_extract_all_tables ascii_tables (scraper_of thead_only_table)
     = [ {| Table.table_number := 1;
            Table.headers := [lit "Name"];
            Table.rows := [[lit "Name"]];
            Table.row_count := 1;
            Table.column_count := 1 |} ]
  /\ table_frames
       (@_extract_all_tables ascii_tables (scraper_of thead_only_table)) []
     = [("6_Table_1"%string,
         {| columns := [lit "Name"]; values := [[lit "Name"]] |})].
Proof.
  split; [| split; reflexivity].
  intros U self record H. unfold _extract_all_tables in H.
  apply in_flat_map in H. destruct H as ([idx table] & Hin & H).
  cbv zeta in H.
  destruct (table_rows table (table_headers table)) as [| row rows] eqn:Hrows;
    [destruct H |].
  destruct (table_headers table) as [| h hs] eqn:Hheaders; [destruct H |].
  destruct H as [<- | []]. cbn [Table.headers Table.rows Table.table_number].
  split; [discriminate |]. split; [discriminate |].
  exists table. apply combine_seq_nth in Hin. destruct Hin as [_ Hnth].
  rewrite Nat.sub_0_r in Hnth.
  replace (idx + 1 - 1) with idx by lia.
  rewrite Hheaders. now repeat split.
Qed.


(** ** More on the field cleaners *)

Section CleanerFacts.
Context {U : Unicode}.

Lemma lstrip_suffix (s : str) :
  exists blanks, s = blanks ++ lstrip s /\ forallb isspace blanks = true.
Proof.
  induction s as [| c r IH]; [now exists [] |].
  cbn [lstrip]. destruct (isspace c) eqn:Hc.
  - destruct IH as (blanks & Heq & Hall). exists (c :: blanks).
    cbn [app forallb]. rewrite Hc, Hall. split; [now f_equal | reflexivity].
  - now exists [].
Qed.

Lemma lstrip_head (s : str) (c : char) :
  hd_error (lstrip s) = Some c -> isspace c = false.
Proof.
  induction s as [| a r IH]; [discriminate |].
  cbn [lstrip]. destruct (isspace a) eqn:Ha; [exact IH |].
  cbn. intro H. inversion H; subst. exact Ha.
Qed.

Lemma rstrip_prefix (s : str) :
  exists blanks, s = rstrip s ++ blanks /\ forallb isspace blanks = true.
Proof.
  unfold rstrip. destruct (lstrip_suffix (rev s)) as (blanks & Heq & Hall).
  exists (rev blanks). split.
  - rewrite <- rev_app_distr, <- Heq. now rewrite rev_involutive.
  - rewrite forallb_forall in *. intros x Hx. apply Hall. now apply in_rev.
Qed.

Lemma strip_incl (s : str) (c : char) : In c (strip s) -> In c s.
Proof.
  unfold strip. intro H.
  destruct (rstrip_prefix (lstrip s)) as (b1 & H1 & _).
  destruct (lstrip_suffix s) as (b2 & H2 & _).
  rewrite H2, H1. rewrite !in_app_iff. right. now left.
Qed.

(** X1.  The text [clean_text] returns holds no control character, that is
    no character of a category C, other than a line feed, a carriage return
    or a tab. *)
Theorem clean_text_no_control (text : str) :
  forallb (fun c => negb (is_control c) || existsb (N.eqb c) [10; 13; 9]%N)
          (clean_text text) = true.
Proof.
  apply forallb_forall. intros c H.
  unfold clean_text in H. destruct (is_empty text); [destruct H |].
  apply strip_incl in H. apply filter_In in H. tauto.
Qed.

(** X2.  The text [clean_text] returns neither begins nor ends with a
    whitespace character. *)
Theorem clean_text_no_outer_blank (text : str) :
  forallb (fun c => negb (isspace c))
          (firstn 1 (clean_text text) ++ firstn 1 (rev (clean_text text)))
  = true.
Proof.
  assert (Hhead : forall s c, hd_error (strip s) = Some c -> isspace c = false).
  { intros s c H. unfold strip in H.
    destruct (rstrip_prefix (lstrip s)) as (blanks & Heq & _).
    apply (@lstrip_head s). rewrite Heq.
    destruct (rstrip (lstrip s)); [discriminate H | exact H]. }
  assert (Hlast : forall s c,
             hd_error (rev (strip s)) = Some c -> isspace c = false).
  { intros s c H. unfold strip, rstrip in H. rewrite rev_involutive in H.
    now apply lstrip_head in H. }
  unfold clean_text. destruct (is_empty text); [reflexivity |].
  set (t := filter _ _). specialize (Hhead t). specialize (Hlast t).
  rewrite forallb_app.
  destruct (strip t) as [| a r]; [reflexivity |].
  cbn [firstn forallb]. rewrite (Hhead a eq_refl). cbn [negb andb].
  destruct (rev (a :: r)) as [| z w]; [reflexivity |].
  cbn [firstn forallb]. now rewrite (Hlast z eq_refl).
Qed.

Lemma sub_non_digit_plus_idem (s : str) :
  sub_non_digit_plus (sub_non_digit_plus s) = sub_non_digit_plus s.
Proof.
  unfold sub_non_digit_plus. induction s as [| c r IH]; [reflexivity |].
  cbn [filter]. destruct (is_decimal c || N.eqb c 43) eqn:Hc; [| exact IH].
  cbn [filter]. rewrite Hc. now f_equal.
Qed.

(** X3.  [standardize_phone] is idempotent: standardizing a standardized
    number changes nothing. *)
Theorem standardize_phone_idempotent (phone : str) :
  standardize_phone (standardize_phone phone) = standardize_phone phone.
Proof.
  destruct phone as [| c r]; [reflexivity |].
  unfold standardize_phone at 2. cbn [is_empty].
  destruct (10 <=? length (sub_non_digit_plus (c :: r))) eqn:Hlen.
  - unfold standardize_phone.
    destruct (sub_non_digit_plus (c :: r)) as [| d ds] eqn:Hd;
      [discriminate Hlen |].
    cbn [is_empty]. rewrite <- Hd, sub_non_digit_plus_idem, Hd, Hlen.
    reflexivity.
  - unfold standardize_phone. cbn [is_empty]. rewrite Hlen. reflexivity.
Qed.

(** X4.  [standardize_phone] returns either its argument as it is, or a
    string of at least ten characters, all of them digits or plus signs, that
    is not longer than its argument. *)
Theorem standardize_phone_shape (phone : str) :
  standardize_phone phone = phone
  \/ (10 <= length (standardize_phone phone) <= length phone
      /\ forallb (fun c => is_decimal c || N.eqb c 43) (standardize_phone phone)
         = true).
Proof.
  unfold standardize_phone. destruct phone as [| c r]; [now left |].
  cbn [is_empty].
  destruct (10 <=? length (sub_non_digit_plus (c :: r))) eqn:Hlen; [| now left].
  right. apply Nat.leb_le in Hlen. split.
  - split; [exact Hlen |]. unfold sub_non_digit_plus. apply filter_length_le.
  - apply forallb_forall. intros x Hx. unfold sub_non_digit_plus in Hx.
    apply filter_In in Hx. tauto.
Qed.

Section Url.
Variable urljoin : str -> str -> result str.

(** X5.  A URL that [clean_url] returns never begins with two slashes, and
    when [clean_url] raises, it is [urljoin] that raised, on the stripped
    reference. *)
Theorem clean_url_never_scheme_relative (url base_url : str) :
  (forall cleaned, clean_url urljoin url base_url = Ok cleaned ->
                   startswith (lit "//") cleaned = false)
  /\ (forall e, clean_url urljoin url base_url = Raise e ->
                urljoin base_url (strip url) = Raise e).
Proof.
  unfold clean_url. destruct (is_empty url).
  - split; [| discriminate]. intros cleaned H. inversion H. reflexivity.
  - destruct (negb _).
    + destruct (urljoin base_url (strip url)) as [joined |]; cbn [bind].
      * split; [| discriminate]. intros cleaned H.
        destruct (startswith (lit "//") joined) eqn:Hs; inversion H; subst;
          [reflexivity | exact Hs].
      * split; [discriminate |]. intros e H. exact H.
    + cbn [bind]. split; [| discriminate]. intros cleaned H.
      destruct (startswith (lit "//") (strip url)) eqn:Hs; inversion H; subst;
        [reflexivity | exact Hs].
Qed.

(** X6.  A non-empty reference that, once stripped, begins with [http://] or
    [https://] is returned stripped and otherwise unchanged, whatever the
    base and without [urljoin]. *)
Theorem clean_url_keeps_absolute (url base_url : str)
    (Hurl : is_empty url = false)
    (Habs : startswith (lit "http://") (strip url)
            || startswith (lit "https://") (strip url) = true) :
  clean_url urljoin url base_url = Ok (strip url).
Proof.
  unfold clean_url. rewrite Hurl.
  assert (Hs : startswith (lit "//") (strip url) = false).
  { destruct (strip url) as [| a r]; [reflexivity |].
    change (startswith (lit "//") (a :: r))
      with (N.eqb 47 a && startswith (lit "/") r).
    destruct (N.eqb 47 a) eqn:Ha; [| reflexivity].
    apply N.eqb_eq in Ha. subst a. discriminate Habs. }
  destruct (startswith (lit "http://") (strip url)),
           (startswith (lit "https://") (strip url));
    try discriminate Habs; cbn [orb negb bind]; rewrite Hs; reflexivity.
Qed.

End Url.
End CleanerFacts.

Lemma clean_url_keeps_absolute_witness :
  @clean_url ascii_tables urljoin_examples (lit "  https://y.org/p ")
    (lit "https://x.com")
  = Ok (lit "https://y.org/p").
Proof.
  exact (@clean_url_keeps_absolute ascii_tables urljoin_examples
           (lit "  https://y.org/p ") (lit "https://x.com") eq_refl eq_refl).
Defined.


Lemma startswith_app (p rest : str) : startswith p (p ++ rest) = true.
Proof.
  induction p as [| a p IH]; [reflexivity |].
  cbn [app startswith]. now rewrite N.eqb_refl, IH.
Qed.

Lemma contains_startswith (s p : str) : startswith p s = true -> contains s p = true.
Proof. intro H. destruct s; cbn [contains]; now rewrite H. Qed.

Lemma contains_cons (c : char) (s p : str) :
  contains s p = true -> contains (c :: s) p = true.
Proof. intro H. cbn [contains]. rewrite H. apply orb_true_r. Qed.

Section NumericFacts.
Context {U : Unicode}.

Lemma span_digits_spec (s : str) :
  s = fst (span_digits s) ++ snd (span_digits s)
  /\ forallb is_decimal (fst (span_digits s)) = true
  /\ stops (snd (span_digits s)).
Proof.
  induction s as [| c r IH]; [now repeat split |].
  cbn [span_digits]. destruct (is_decimal c) eqn:Hc.
  - destruct (span_digits r) as [d rest]. cbn [fst snd] in *.
    destruct IH as (Heq & Hall & Hstop). repeat split.
    + cbn [app]. now f_equal.
    + cbn [forallb]. now rewrite Hc.
    + exact Hstop.
  - cbn [fst snd]. now repeat split.
Qed.

Lemma span_digits_of (d rest : str) :
  forallb is_decimal d = true -> stops rest ->
  span_digits (d ++ rest) = (d, rest).
Proof.
  intros Hall Hstop. induction d as [| c d IH].
  - cbn [app]. destruct rest as [| c r]; [reflexivity |].
    cbn [span_digits]. cbn in Hstop. now rewrite Hstop.
  - cbn [forallb] in Hall. apply andb_true_iff in Hall. destruct Hall as [Hc Hd].
    cbn [app span_digits]. rewrite Hc, (IH Hd). reflexivity.
Qed.

Lemma numeral_fixed (n : str) : numeral n -> number_at n = Some n.
Proof.
  intros (whole & frac & Hne & Hw & Hf & [-> | [Hdot ->]]); unfold number_at.
  - rewrite <- (app_nil_r whole) at 1.
    rewrite (span_digits_of whole [] Hw I).
    destruct whole; [congruence | reflexivity].
  - rewrite (span_digits_of whole (46%N :: frac) Hw Hdot).
    destruct whole as [| a w]; [congruence |].
    rewrite N.eqb_refl.
    rewrite <- (app_nil_r frac) at 1.
    rewrite (span_digits_of frac [] Hf I). reflexivity.
Qed.

Lemma number_at_numeral (s n : str) :
  number_at s = Some n ->
  numeral n /\ startswith n s = true /\ existsb is_decimal (firstn 1 s) = true.
Proof.
  unfold number_at. intro H.
  destruct (span_digits_spec s) as (Heq & Hall & Hstop).
  destruct (span_digits s) as [whole rest]. cbn [fst snd] in *.
  destruct whole as [| a w]; [discriminate H |].
  assert (Hhead : existsb is_decimal (firstn 1 s) = true).
  { rewrite Heq. cbn [app firstn existsb]. cbn [forallb] in Hall.
    apply andb_true_iff in Hall. now rewrite (proj1 Hall). }
  destruct rest as [| c rest].
  - inversion H; subst n. split; [| split; [| exact Hhead]].
    + exists (a :: w), []. split; [discriminate |]. split; [exact Hall |].
      split; [reflexivity | now left].
    + rewrite Heq. apply startswith_app.
  - destruct (N.eqb c 46) eqn:Hc.
    + apply N.eqb_eq in Hc. subst c. inversion H; subst n.
      destruct (span_digits_spec rest) as (Heq2 & Hall2 & _).
      split; [| split; [| exact Hhead]].
      * exists (a :: w), (fst (span_digits rest)).
        split; [discriminate |]. split; [exact Hall |]. split; [exact Hall2 |].
        right. split; [exact Hstop | reflexivity].
      * rewrite Heq. rewrite Heq2 at 2.
        change ((a :: w) ++ 46%N :: fst (span_digits rest) ++ snd (span_digits rest))
          with ((a :: w) ++ (46%N :: fst (span_digits rest)) ++ snd (span_digits rest)).
        rewrite app_assoc. apply startswith_app.
    + inversion H; subst n. split; [| split; [| exact Hhead]].
      * exists (a :: w), []. split; [discriminate |]. split; [exact Hall |].
        split; [reflexivity | now left].
      * rewrite Heq. apply startswith_app.
Qed.

Lemma numeral_tail (c : char) (n : str) :
  numeral (c :: n) -> forall m, number_at n = Some m -> m = n.
Proof.
  intros (whole & frac & Hne & Hw & Hf & Hshape) m Hm.
  destruct whole as [| a w]; [congruence |].
  cbn [forallb] in Hw. apply andb_true_iff in Hw. destruct Hw as [_ Hw].
  assert (Hn : numeral n \/ number_at n = None).
  { destruct w as [| b w'].
    - right. destruct Hshape as [H | [Hdot H]]; inversion H; subst.
      + reflexivity.
      + unfold number_at. cbn [span_digits]. now rewrite Hdot.
    - left. exists (b :: w'), frac. repeat split; auto; [discriminate |].
      destruct Hshape as [H | [Hdot H]]; inversion H; subst; auto. }
  destruct Hn as [Hn | Hn]; [| congruence].
  rewrite (numeral_fixed Hn) in Hm. now inversion Hm.
Qed.

Lemma signed_number_at_fixed (s n : str) :
  signed_number_at s = Some n ->
  signed_number_at n = Some n /\ startswith n s = true
  /\ n <> [] /\ existsb is_decimal s = true.
Proof.
  assert (Hplain : forall s n, number_at s = Some n ->
            signed_number_at n = Some n /\ startswith n s = true
            /\ n <> [] /\ existsb is_decimal s = true).
  { clear s n. intros s n H.
    destruct (number_at_numeral s H) as (Hnum & Hstart & Hdigit).
    assert (Hne : n <> []).
    { destruct Hnum as (w & f & Hw & _ & _ & [-> | [_ ->]]);
        [exact Hw | destruct w; [congruence | discriminate]]. }
    repeat split; auto.
    - unfold signed_number_at. destruct n as [| c n']; [congruence |].
      rewrite (numeral_fixed Hnum).
      destruct (N.eqb c 45); [| reflexivity].
      destruct (number_at n') as [m |] eqn:Hm; [| reflexivity].
      now rewrite (numeral_tail Hnum Hm).
    - destruct s as [| c r]; [discriminate Hdigit |].
      cbn [firstn existsb] in Hdigit. cbn [existsb].
      rewrite orb_false_r in Hdigit. now rewrite Hdigit. }
  unfold signed_number_at at 1. destruct s as [| c r]; [apply Hplain |].
  destruct (N.eqb c 45) eqn:Hc; [| apply Hplain].
  destruct (number_at r) as [m |] eqn:Hm; [| apply Hplain].
  intro H. inversion H; subst n.
  destruct (number_at_numeral r Hm) as (Hnum & Hstart & Hdigit).
  repeat split.
  - unfold signed_number_at. rewrite Hc, (numeral_fixed Hnum). reflexivity.
  - cbn [startswith]. now rewrite N.eqb_refl, Hstart.
  - discriminate.
  - cbn [existsb]. destruct r as [| b r']; [discriminate Hdigit |].
    cbn [firstn existsb] in Hdigit. rewrite orb_false_r in Hdigit.
    cbn [existsb]. rewrite Hdigit. now rewrite orb_true_r.
Qed.

Lemma first_number_spec (s n : str) :
  first_number s = Some n ->
  signed_number_at n = Some n /\ contains s n = true
  /\ n <> [] /\ existsb is_decimal s = true.
Proof.
  induction s as [| c r IH]; [discriminate |].
  cbn [first_number].
  destruct (signed_number_at (c :: r)) as [m |] eqn:Hm.
  - intro H. inversion H; subst m.
    destruct (signed_number_at_fixed _ Hm) as (Hfix & Hstart & Hne & Hdigit).
    repeat split; auto. now apply contains_startswith.
  - intro H. destruct (IH H) as (Hfix & Hin & Hne & Hdigit).
    repeat split; auto.
    + now apply contains_cons.
    + cbn [existsb]. rewrite Hdigit. apply orb_true_r.
Qed.

Lemma first_number_finds (s : str) :
  existsb is_decimal s = true -> exists n, first_number s = Some n.
Proof.
  induction s as [| c r IH]; [discriminate |].
  intro H. cbn [first_number].
  destruct (signed_number_at (c :: r)) as [m |] eqn:Hm; [eauto |].
  apply IH. cbn [existsb] in H.
  destruct (is_decimal c) eqn:Hc; [| exact H].
  exfalso.
  assert (Hnum : exists n, number_at (c :: r) = Some n).
  { unfold number_at. cbn [span_digits]. rewrite Hc.
    destruct (span_digits r) as [d rest].
    destruct rest as [| x rest]; [eauto |]. destruct (N.eqb x 46); eauto. }
  destruct Hnum as [n Hn].
  unfold signed_number_at in Hm.
  destruct (N.eqb c 45); [| congruence].
  destruct (number_at r); congruence.
Qed.

(** X7.  What [clean_numeric] returns is a contiguous part of its argument,
    and it is empty exactly when the argument holds no digit. *)
Theorem clean_numeric_part_of_input (value : str) :
  contains value (clean_numeric value) = true
  /\ (clean_numeric value = [] <-> existsb is_decimal value = false).
Proof.
  unfold clean_numeric. destruct value as [| c r]; [now repeat split |].
  cbn [is_empty].
  destruct (first_number (c :: r)) as [n |] eqn:Hn.
  - destruct (first_number_spec _ Hn) as (_ & Hin & Hne & Hdigit).
    split; [exact Hin |]. split; [congruence |]. intro H. congruence.
  - split; [reflexivity |]. split; [| reflexivity]. intros _.
    destruct (existsb is_decimal (c :: r)) eqn:Hd; [| reflexivity].
    destruct (first_number_finds _ Hd) as [n Hn']. congruence.
Qed.

(** X8.  [clean_numeric] is idempotent: the number it extracts is extracted
    from itself unchanged. *)
Theorem clean_numeric_idempotent (value : str) :
  clean_numeric (clean_numeric value) = clean_numeric value.
Proof.
  destruct value as [| c r]; [reflexivity |].
  assert (H : clean_numeric (c :: r)
              = match first_number (c :: r) with Some n => n | None => [] end)
    by reflexivity.
  rewrite H. destruct (first_number (c :: r)) as [n |] eqn:Hn; [| reflexivity].
  destruct (first_number_spec _ Hn) as (Hfix & _ & Hne & _).
  unfold clean_numeric. destruct n as [| d n']; [congruence |].
  cbn [is_empty first_number]. now rewrite Hfix.
Qed.

End NumericFacts.


(** ** More on intent matching *)

Lemma score_keywords_shift (token : str) (keywords : list string) (acc : nat) :
  fold_left (fun score keyword =>
      if contains (lit keyword) token || contains token (lit keyword)
      then score + 1 else score) keywords acc
  = acc + fold_left (fun score keyword =>
      if contains (lit keyword) token || contains token (lit keyword)
      then score + 1 else score) keywords 0.
Proof.
  revert acc. induction keywords as [| k ks IH]; intro acc; cbn [fold_left].
  - lia.
  - destruct (contains (lit k) token || contains token (lit k)).
    + rewrite (IH (acc + 1)), (IH (0 + 1)). lia.
    + apply IH.
Qed.

Lemma score_keywords_bound (token : str) (keywords : list string) :
  fold_left (fun score keyword =>
      if contains (lit keyword) token || contains token (lit keyword)
      then score + 1 else score) keywords 0
  <= length keywords.
Proof.
  induction keywords as [| k ks IH]; cbn [fold_left length]; [lia |].
  destruct (contains (lit k) token || contains token (lit k)).
  - rewrite score_keywords_shift. lia.
  - lia.
Qed.

Lemma score_of_shift (tokens : list str) (keywords : list string) (acc : nat) :
  fold_left (fun score token =>
    fold_left (fun score keyword =>
      if contains (lit keyword) token || contains token (lit keyword)
      then score + 1 else score) keywords score) tokens acc
  = acc + score_of tokens keywords.
Proof.
  unfold score_of. revert acc.
  induction tokens as [| t ts IH]; intro acc; cbn [fold_left]; [lia |].
  rewrite (IH (fold_left _ keywords acc)), (IH (fold_left _ keywords 0)).
  rewrite (score_keywords_shift t keywords acc). lia.
Qed.

(** X9.  The score of a category adds up over the tokens: the score of two
    token lists put together is the sum of their scores, whatever the order;
    and a list of n tokens scores at most n times the number of keywords. *)
Theorem score_of_additive (tokens more : list str) (keywords : list string) :
  score_of (tokens ++ more) keywords
  = score_of tokens keywords + score_of more keywords
  /\ score_of (more ++ tokens) keywords = score_of (tokens ++ more) keywords
  /\ score_of tokens keywords <= length tokens * length keywords.
Proof.
  assert (Hadd : forall a b, score_of (a ++ b) keywords
                             = score_of a keywords + score_of b keywords).
  { intros a b. unfold score_of at 1. rewrite fold_left_app.
    fold (score_of a keywords). apply score_of_shift. }
  split; [apply Hadd |]. split; [rewrite !Hadd; lia |].
  induction tokens as [| t ts IH]; [reflexivity |].
  change (t :: ts) with ([t] ++ ts). rewrite Hadd.
  cbn [app length]. unfold score_of at 1. cbn [fold_left].
  pose proof (score_keywords_bound t keywords). lia.
Qed.

Lemma score_keywords_pairs (token : str) (keywords : list string) :
  fold_left (fun score keyword =>
      if contains (lit keyword) token || contains token (lit keyword)
      then score + 1 else score) keywords 0
  = length (filter (fun '(token, keyword) => overlaps token keyword)
                   (map (fun keyword => (token, keyword)) keywords)).
Proof.
  induction keywords as [| k ks IH]; [reflexivity |].
  cbn [fold_left map filter]. unfold overlaps at 1.
  destruct (contains (lit k) token || contains token (lit k)).
  - rewrite score_keywords_shift, IH. reflexivity.
  - exact IH.
Qed.

Lemma score_of_pairs (tokens : list str) (keywords : list string) :
  score_of tokens keywords = length (overlap_pairs tokens keywords).
Proof.
  unfold overlap_pairs.
  induction tokens as [| t ts IH]; [reflexivity |].
  cbn [list_prod]. rewrite filter_app, length_app, <- IH.
  unfold score_of at 1. cbn [fold_left].
  rewrite score_of_shift. f_equal. apply score_keywords_pairs.
Qed.

Lemma max_score_pairs (tokens : list str) :
  max_score tokens = max_pairs tokens.
Proof.
  unfold max_score, max_pairs. f_equal. apply map_ext.
  intro entry. apply score_of_pairs.
Qed.

(** C4, as the code has it.  The score of a category is the number of pairs
    of a token and a keyword of the category of which one occurs in the
    other, so a token counts once for every keyword it overlaps.  Intent
    matching selects exactly the categories whose score is positive and at
    least 70% of the maximum observed score, and [all] when no category
    scores; the empty token list gives [all], and the tokens [price], [cost]
    select the category [price]. *)
Theorem match_tokens_threshold :
  (forall tokens keywords,
      score_of tokens keywords = length (overlap_pairs tokens keywords))
  /\ (forall (tokens : list str) (c : string),
         In c (match_tokens tokens)
         <-> (c = "all"%string /\ max_pairs tokens = 0)
             \/ (exists keywords,
                    In (c, keywords) element_keywords
                    /\ 0 < length (overlap_pairs tokens keywords)
                    /\ 7 * max_pairs tokens
                       <= 10 * length (overlap_pairs tokens keywords)))
  /\ match_tokens [] = ["all"%string]
  /\ match_tokens [lit "price"; lit "cost"] = ["price"%string].
Proof.
  split; [exact score_of_pairs |]. split; [| split; reflexivity].
  intros tokens c. rewrite match_tokens_In, max_score_pairs.
  split; (intros [H | (keywords & Hin & Hpos & Hle)]; [now left | right]);
    exists keywords; (split; [exact Hin |]).
  - now rewrite <- score_of_pairs.
  - now rewrite score_of_pairs.
Qed.

(** C4, as stated, fails when the score is the one of the specification, a
    point per overlapping token: the tokens [tel], [price] then give the
    categories [contact] and [price] one point each, so both reach 70% of
    the maximum; the code counts [tel] twice for [contact], under the
    keywords [tel] and [telephone], and selects [contact] alone. *)
Lemma tel_counted_twice_leaves_price_out :
  match_tokens [lit "tel"; lit "price"] = ["contact"%string]
  /\ map (fun entry =>
            (fst entry,
             length (overlap_pairs [lit "tel"; lit "price"] (snd entry)),
             @token_score_spec ascii_tables [lit "tel"; lit "price"]
                               (snd entry)))
         (filter (fun entry =>
                    0 <? length (overlap_pairs [lit "tel"; lit "price"]
                                               (snd entry)))
                 element_keywords)
     = [("contact"%string, 2, 1); ("price"%string, 1, 1)]
  /\ ~ @selects_by_token_score ascii_tables [lit "tel"; lit "price"].
Proof.
  split; [reflexivity |]. split; [reflexivity |].
  intro H.
  specialize (H "price"%string
                ["price"; "cost"; "amount"; "value"; "$"; "fee"; "rate";
                 "charge"; "payment"]%string).
  destruct H as [_ H].
  - cbn. tauto.
  - assert (Hin : In "price"%string (match_tokens [lit "tel"; lit "price"])).
    { apply H. vm_compute. split; lia. }
    vm_compute in Hin. destruct Hin as [Hin | []]. discriminate Hin.
Qed.

Lemma matched_as_filter (tokens : list str) (m : nat)
    (taxonomy : list (string * list string)) :
  map fst (filter (fun '(_, v) => 7 * m <=? 10 * v) (scored tokens taxonomy))
  = map fst (filter (fun entry =>
               (0 <? score_of tokens (snd entry))
               && (7 * m <=? 10 * score_of tokens (snd entry))) taxonomy).
Proof.
  unfold scored. induction taxonomy as [| [c kws] tax IH]; [reflexivity |].
  cbn [flat_map filter snd]. cbv zeta. rewrite filter_app, map_app, IH.
  destruct (0 <? score_of tokens kws); cbn [filter andb app map].
  - destruct (7 * m <=? 10 * score_of tokens kws); reflexivity.
  - reflexivity.
Qed.

Lemma NoDup_map_filter (K V : Type) (keep : K * V -> bool)
    (table : list (K * V)) (Hkeys : NoDup (map fst table)) :
  NoDup (map fst (filter keep table)).
Proof.
  induction table as [| row table IH]; [constructor |].
  cbn [map] in Hkeys. inversion Hkeys as [| ? ? Hnew Hrest]; subst.
  cbn [filter]. destruct (keep row); [| now apply IH].
  cbn [map]. constructor; [| now apply IH].
  intro Hin. apply Hnew. apply in_map_iff in Hin.
  destruct Hin as (x & Hx & Hf). apply filter_In in Hf.
  apply in_map_iff. exists x. tauto.
Qed.

Lemma element_keywords_distinct : NoDup (map fst element_keywords).
Proof.
  cbn [map fst element_keywords].
  repeat (constructor; [cbn [In]; intuition discriminate |]). constructor.
Qed.

(** X10.  [match_intent] never returns an empty list, and never a category
    twice: from the token list on it returns either [all] alone, or the
    categories that pass the threshold, in the order of the keyword table. *)
Theorem match_tokens_in_table_order (tokens : list str) :
  match_tokens tokens <> []
  /\ NoDup (match_tokens tokens)
  /\ (match_tokens tokens = ["all"%string]
      \/ match_tokens tokens
         = map fst (filter (passes tokens) element_keywords))
  /\ (forall (U : Unicode) (word_tokenize : str -> result (list str))
             (self : IntelligentElementMatcher) (user_query : str),
         match_intent word_tokenize self user_query <> []).
Proof.
  assert (Hmain : match_tokens tokens <> []
    /\ NoDup (match_tokens tokens)
    /\ (match_tokens tokens = ["all"%string]
        \/ match_tokens tokens
           = map fst (filter (passes tokens) element_keywords))).
  2: { destruct Hmain as (H1 & H2 & H3). repeat split; auto.
       intros U word_tokenize self user_query. unfold match_intent.
       destruct (is_empty user_query); [discriminate |].
       clear. unfold match_tokens.
       destruct (scores_of _); [discriminate |].
       destruct (map fst _); discriminate. }
  assert (H : match_tokens tokens = ["all"%string]
              \/ (match_tokens tokens <> []
                  /\ match_tokens tokens
                     = map fst (filter (passes tokens) element_keywords))).
  { unfold match_tokens.
    change (scores_of tokens) with (scored tokens element_keywords).
    destruct (scored tokens element_keywords) as [| s0 sc] eqn:Hsc;
      [now left |].
    rewrite <- Hsc, scored_max, matched_as_filter.
    fold (max_score tokens).
    change (fun entry : string * list string =>
              (0 <? score_of tokens (snd entry))
              && (7 * max_score tokens <=? 10 * score_of tokens (snd entry)))
      with (passes tokens).
    destruct (map fst (filter (passes tokens) element_keywords));
      [now left | right; split; [discriminate | reflexivity]]. }
  destruct H as [H | [Hne H]].
  - rewrite H. split; [discriminate |]. split; [| now left].
    constructor; [intros [] | constructor].
  - split; [exact Hne |]. split; [| now right].
    rewrite H. apply NoDup_map_filter, element_keywords_distinct.
Qed.


(** ** More on the extractors *)

Lemma general_prices_spec (found : list str) :
  forall prices : list Price.t,
  exists extra,
    fold_left (fun prices price =>
      if existsb (fun p => str_eqb (Price.price p) price) prices
      then prices
      else prices ++ [ {| Price.price := price;
                          Price.context := lit "General page content" |} ])
      found prices = prices ++ map general_price extra
    /\ NoDup extra
    /\ (forall p, In p extra -> In p found /\ ~ In p (map Price.price prices))
    /\ (forall p, In p found ->
                  In p (map Price.price prices) \/ In p extra).
Proof.
  induction found as [| price found IH]; intro prices.
  - exists []. cbn. rewrite app_nil_r. repeat split; try constructor; tauto.
  - cbn [fold_left].
    destruct (existsb _ prices) eqn:Hex.
    + destruct (IH prices) as (extra & Heq & Hnd & Hnew & Hall).
      exists extra. split; [exact Heq |]. split; [exact Hnd |]. split.
      * intros p Hp. destruct (Hnew p Hp). split; [now right | assumption].
      * intros p [<- | Hp]; [| now apply Hall].
        left. apply existsb_exists in Hex. destruct Hex as (r & Hr & Hrp).
        apply str_eqb_eq in Hrp. subst. now apply in_map.
    + destruct (IH (prices ++ [general_price price]))
        as (extra & Heq & Hnd & Hnew & Hall).
      exists (price :: extra). split; [| split; [| split]].
      * unfold general_price in *. rewrite Heq, <- app_assoc. reflexivity.
      * constructor; [| exact Hnd]. intro Hin. destruct (Hnew _ Hin) as [_ Hn].
        apply Hn. rewrite map_app, in_app_iff. right. now left.
      * intros p [<- | Hp].
        -- split; [now left |]. intro Hin. apply in_map_iff in Hin.
           destruct Hin as (r & Hr & Hin).
           assert (existsb (fun p0 => str_eqb (Price.price p0) (Price.price r))
                           prices = true).
           { apply existsb_exists. exists r. split; [exact Hin |].
             apply str_eqb_refl. }
           rewrite Hr in H. congruence.
        -- destruct (Hnew p Hp) as [Hf Hn]. split; [now right |].
           intro Hin. apply Hn. rewrite map_app, in_app_iff. now left.
      * intros p [<- | Hp]; [right; now left |].
        destruct (Hall p Hp) as [Hin | Hin]; [| right; now right].
        rewrite map_app, in_app_iff in Hin. destruct Hin as [Hin | Hin];
          [now left |].
        right. left. cbn in Hin. destruct Hin as [Hin | []]. exact Hin.
Qed.

Section ExtractorFacts.
Context {U : Unicode} {R : Regex}.

(** X11.  [_extract_all_prices] keeps every record found in the price
    elements: one for every price found in the cleaned text of every such
    element, in order, repeats included, with the first 150 characters of
    that text as context.  It puts after them one record for every other
    price found in the page text: each such price once, under the context
    [General page content].  No price found in the page text is missing from
    the result. *)
Theorem prices_complete_without_repeats (self : WebScraper) :
  exists extra,
    _extract_all_prices self
    = flat_map (fun elem =>
                  map (marked_price elem)
                      (extract_pattern (clean_text (get_text elem)) "price"))
               (price_elements self)
      ++ map general_price extra
    /\ (forall elem price,
           In elem (price_elements self) ->
           In price (extract_pattern (clean_text (get_text elem)) "price") ->
           In (marked_price elem price) (_extract_all_prices self)
           /\ Price.price (marked_price elem price) = price
           /\ Price.context (marked_price elem price)
              = firstn 150 (clean_text (get_text elem))
           /\ length (Price.context (marked_price elem price)) <= 150)
    /\ NoDup extra
    /\ (forall p, In p extra ->
                  In p (extract_pattern (get_text (document self)) "price")
                  /\ forall elem,
                       In elem (price_elements self) ->
                       ~ In p (extract_pattern (clean_text (get_text elem))
                                               "price"))
    /\ (forall p, In p (extract_pattern (get_text (document self)) "price") ->
                  In p (map Price.price (_extract_all_prices self))).
Proof.
  unfold _extract_all_prices.
  change (flat_map _ (price_elements self))
    with (flat_map (fun elem =>
                      map (marked_price elem)
                          (extract_pattern (clean_text (get_text elem))
                                           "price"))
                   (price_elements self)).
  set (marked := flat_map _ (price_elements self)).
  assert (Hmarked : forall elem price,
             In elem (price_elements self) ->
             In price (extract_pattern (clean_text (get_text elem)) "price") ->
             In (marked_price elem price) marked).
  { intros elem price He Hp. unfold marked. apply in_flat_map.
    exists elem. split; [exact He |]. now apply in_map. }
  destruct (general_prices_spec
              (extract_pattern (get_text (document self)) "price") marked)
    as (extra & Heq & Hnd & Hnew & Hall).
  exists extra. rewrite Heq.
  split; [reflexivity |]. split; [| split; [exact Hnd | split]].
  - intros elem price He Hp. split; [| split; [| split]].
    + apply in_or_app. left. now apply Hmarked.
    + reflexivity.
    + reflexivity.
    + cbn [marked_price Price.context]. rewrite length_firstn. lia.
  - intros p Hp. destruct (Hnew p Hp) as [Hfound Hfresh].
    split; [exact Hfound |]. intros elem He Hin. apply Hfresh.
    apply in_map_iff. exists (marked_price elem p).
    split; [reflexivity | now apply Hmarked].
  - intros p Hp. rewrite map_app, in_app_iff.
    destruct (Hall p Hp) as [Hin | Hin]; [now left |].
    right. rewrite map_map. cbn [general_price Price.price]. now rewrite map_id.
Qed.

Section Videos.
Variable urljoin : str -> str -> result str.

Lemma video_tags_positions (self : WebScraper) (l : list (nat * Loc)) :
  forall videos,
    collect (fun '(idx, video) =>
      src <- clean_url urljoin (get video "src" []) (base_url self) ;;
      poster <- clean_url urljoin (get video "poster" []) (base_url self) ;;
      Ok [ {| Video.position := idx + 1;
              Video.type := lit "video";
              Video.src := src;
              Video.poster := Some poster;
              Video.title := None;
              Video.width := get video "width" [];
              Video.height := get video "height" [] |} ]) l = Ok videos ->
    map Video.position videos = map (fun '(idx, _) => idx + 1) l
    /\ Forall (fun v => Video.type v = lit "video") videos.
Proof.
  induction l as [| [idx video] l IH]; intros videos H; cbn [collect] in H.
  - inversion H. split; [reflexivity | constructor].
  - destruct (clean_url urljoin (get video "src" []) (base_url self));
      [| discriminate H].
    cbn [bind] in H.
    destruct (clean_url urljoin (get video "poster" []) (base_url self));
      [| discriminate H].
    cbn [bind] in H. destruct (collect _ l) as [rest |]; [| discriminate H].
    inversion H. destruct (IH rest eq_refl) as [IH1 IH2].
    cbn [app map Video.position]. split; [now f_equal |].
    constructor; [reflexivity | exact IH2].
Qed.

Lemma iframe_videos_positions (self : WebScraper) (iframes : list Loc) :
  forall videos out,
    iframe_videos urljoin self videos iframes = Ok out ->
    exists added,
      out = videos ++ added
      /\ map Video.position added = seq (length videos + 1) (length added)
      /\ Forall (fun v => Video.type v = lit "iframe") added.
Proof.
  induction iframes as [| iframe rest IH]; intros videos out H;
    cbn [iframe_videos] in H.
  - inversion H. exists []. rewrite app_nil_r. repeat split. constructor.
  - cbv zeta in H. destruct (existsb _ _).
    + destruct (clean_url urljoin (get iframe "src" []) (base_url self))
        as [full |]; [| discriminate H].
      cbn [bind] in H. apply IH in H. destruct H as (added & -> & Hpos & Hty).
      eexists (_ :: added). rewrite <- app_assoc. split; [reflexivity |].
      rewrite length_app in Hpos. cbn [length] in Hpos.
      cbn [map Video.position length seq]. split.
      * f_equal. rewrite Hpos. f_equal. lia.
      * constructor; [reflexivity | exact Hty].
    + now apply IH.
Qed.

(** X12.  When [_extract_all_videos] returns, the positions of its records
    are 1, 2, 3, ... without a gap, the records of the [video] tags first and
    those of the matching [iframe]s after them. *)
Theorem videos_numbered_through (self : WebScraper) (videos : list Video.t)
    (H : _extract_all_videos urljoin self = Ok videos) :
  map Video.position videos = seq 1 (length videos)
  /\ exists tags frames,
       videos = tags ++ frames
       /\ length tags = length (find_all ["video"%string] (document self))
       /\ Forall (fun v => Video.type v = lit "video") tags
       /\ Forall (fun v => Video.type v = lit "iframe") frames.
Proof.
  unfold _extract_all_videos in H.
  destruct (collect _ (enumerate (find_all ["video"%string] (document self))))
    as [tags |] eqn:Htags; [| discriminate H].
  cbn [bind] in H.
  apply video_tags_positions in Htags. destruct Htags as [Hpos Hty].
  unfold enumerate in Hpos. rewrite (combine_seq_positions _ 0) in Hpos.
  apply iframe_videos_positions in H. destruct H as (frames & -> & Hfpos & Hfty).
  assert (Hlen : length tags
                 = length (find_all ["video"%string] (document self))).
  { rewrite <- (length_map Video.position), Hpos. apply length_seq. }
  split.
  - rewrite map_app, Hpos, Hfpos, length_app, seq_app, Hlen.
    cbn [Nat.add]. f_equal. f_equal. lia.
  - exists tags, frames. repeat split; assumption.
Qed.

End Videos.
End ExtractorFacts.

Lemma videos_numbered_through_witness :
  exists videos,
    @_extract_all_videos ascii_tables urljoin_examples (scraper_of video_page)
    = Ok videos
    /\ map Video.position videos = [1; 2].
Proof.
  eexists. split; [reflexivity |].
  exact (proj1 (@videos_numbered_through ascii_tables urljoin_examples
                  (scraper_of video_page) _ eq_refl)).
Defined.


(** ** From the extracted tables to their sheets *)

Lemma string_append_cancel (p a b : string) :
  (p ++ a)%string = (p ++ b)%string -> a = b.
Proof.
  induction p as [| c p IH]; cbn [String.append]; intro H; [exact H |].
  inversion H. now apply IH.
Qed.

Lemma table_key_injective (n m : nat) : table_key n = table_key m -> n = m.
Proof.
  unfold table_key. intro H. apply string_append_cancel in H.
  apply (f_equal NilEmpty.uint_of_string) in H.
  rewrite !NilEmpty.usu in H. inversion H as [Hu].
  apply (f_equal Nat.of_uint) in Hu. now rewrite !Unsigned.of_to in Hu.
Qed.

Lemma dict_set_fresh {V : Type} (k : string) (v : V) (d : list (string * V)) :
  ~ In k (map fst d) -> dict_set k v d = d ++ [(k, v)].
Proof.
  induction d as [| [k' v'] d IH]; intro H; [reflexivity |].
  cbn [dict_set]. destruct (String.eqb_spec k k') as [-> | Hne].
  - exfalso. apply H. now left.
  - cbn [app]. f_equal. apply IH. intro Hin. apply H. now right.
Qed.

Lemma table_frames_fresh (items : list Table.t) :
  forall acc : list (string * DataFrame),
    Forall (fun r => Table.rows r <> [] /\ Table.headers r <> []) items ->
    NoDup (map Table.table_number items) ->
    (forall r, In r items ->
               ~ In (table_key (Table.table_number r)) (map fst acc)) ->
    table_frames items acc = acc ++ map frame_entry items.
Proof.
  unfold table_frames.
  induction items as [| r items IH]; intros acc Hguard Hnd Hfresh.
  - cbn. now rewrite app_nil_r.
  - cbn [fold_left map]. inversion Hguard as [| ? ? [Hrows Hheaders] Hguard'].
    inversion Hnd as [| ? ? Hnotin Hnd']. subst.
    destruct (Table.rows r) as [| row rows] eqn:Er; [congruence |].
    destruct (Table.headers r) as [| h hs] eqn:Eh; [congruence |].
    cbn [is_empty negb andb]. rewrite <- Er, <- Eh.
    rewrite dict_set_fresh by (apply Hfresh; now left).
    rewrite IH; [now rewrite <- app_assoc | exact Hguard' | exact Hnd' |].
    intros r' Hr' Hin. rewrite map_app, in_app_iff in Hin.
    destruct Hin as [Hin | [Hin | []]].
    + apply (Hfresh r'); [now right | exact Hin].
    + cbn [fst] in Hin. apply table_key_injective in Hin.
      apply Hnotin. rewrite Hin. now apply in_map.
Qed.

Section TableSheets.
Context {U : Unicode}.

Lemma tables_records_guard (self : WebScraper) :
  Forall (fun r => Table.rows r <> [] /\ Table.headers r <> []
                   /\ Table.row_count r = length (Table.rows r)
                   /\ Table.column_count r = length (Table.headers r)
                   /\ Forall (fun row => existsb (fun c => negb (is_empty c)) row
                                         = true) (Table.rows r))
         (_extract_all_tables self)
  /\ NoDup (map Table.table_number (_extract_all_tables self)).
Proof.
  unfold _extract_all_tables.
  assert (Hnd : NoDup (map (fun '(idx, _) => idx + 1)
                 (enumerate (find_all ["table"%string] (document self))))).
  { unfold enumerate. rewrite (combine_seq_positions _ 0). apply seq_NoDup. }
  induction (enumerate (find_all ["table"%string] (document self)))
    as [| [idx table] l IH]; [split; constructor |].
  cbn [map] in Hnd. inversion Hnd as [| ? ? Hnotin Hnd']. subst.
  destruct (IH Hnd') as [IH1 IH2]. clear IH.
  cbn [flat_map]. cbv zeta.
  destruct (table_rows table (table_headers table)) as [| row rows] eqn:Hrows;
    [now split |].
  destruct (table_headers table) as [| h hs] eqn:Hheaders; [now split |].
  cbn [is_empty negb andb app map Table.table_number]. split.
  - constructor; [| exact IH1].
    cbn [Table.rows Table.headers Table.row_count Table.column_count].
    repeat split; try discriminate.
    rewrite <- Hrows. unfold table_rows. apply Forall_forall.
    intros cells Hin. apply in_flat_map in Hin. destruct Hin as (r & _ & Hin).
    cbv zeta in Hin.
    destruct (negb (is_empty _) && existsb _ _) eqn:Hkeep; [| destruct Hin].
    destruct Hin as [<- | []]. apply andb_true_iff in Hkeep. tauto.
  - constructor; [| exact IH2].
    intro Hin. apply Hnotin. clear - Hin.
    induction l as [| [i t] l IHl]; [destruct Hin |].
    cbn [flat_map] in Hin. cbv zeta in Hin. cbn [map].
    destruct (negb (is_empty (table_rows t (table_headers t)))
              && negb (is_empty (table_headers t))).
    + destruct Hin as [Hin | Hin]; [now left | right; now apply IHl].
    + right. now apply IHl.
Qed.

(** X13.  Every extracted table gets a sheet of its own: the normalizer
    turns the records of [_extract_all_tables] into as many sheets, in the
    same order, each named [6_Table_] followed by the number of the table in
    the document, and none overwrites another.  Every record holds a header,
    at least one row, its true row and column counts, and no row without a
    non-empty cell. *)
Theorem extracted_tables_one_sheet_each (self : WebScraper) :
  table_frames (_extract_all_tables self) []
  = map frame_entry (_extract_all_tables self)
  /\ NoDup (map fst (table_frames (_extract_all_tables self) []))
  /\ Forall (fun r => Table.rows r <> [] /\ Table.headers r <> []
                      /\ Table.row_count r = length (Table.rows r)
                      /\ Table.column_count r = length (Table.headers r)
                      /\ Forall (fun row =>
                                   existsb (fun c => negb (is_empty c)) row
                                   = true) (Table.rows r))
            (_extract_all_tables self).
Proof.
  destruct (tables_records_guard self) as [Hguard Hnd].
  assert (Heq : table_frames (_extract_all_tables self) []
                = map frame_entry (_extract_all_tables self)).
  { rewrite table_frames_fresh; [reflexivity | | exact Hnd | intros ? ? []].
    eapply Forall_impl; [| exact Hguard]. cbn. tauto. }
  split; [exact Heq |]. split; [| exact Hguard].
  rewrite Heq, map_map. cbn [frame_entry fst].
  clear - Hnd. induction (_extract_all_tables self) as [| r l IH];
    [constructor |].
  cbn [map] in *. inversion Hnd; subst. constructor; [| now apply IH].
  intro Hin. apply in_map_iff in Hin. destruct Hin as (r' & Hk & Hr').
  apply table_key_injective in Hk. apply H1. rewrite <- Hk. now apply in_map.
Qed.

End TableSheets.

(** ** The frames of the tables handed in *)

Lemma find_last {A : Type} (p : A -> bool) (l : list A) (a : A) :
  List.find p (l ++ [a])
  = match List.find p l with
    | Some x => Some x
    | None => if p a then Some a else None
    end.
Proof.
  induction l as [| x l IH]; cbn [app List.find]; [reflexivity |].
  destruct (p x); [reflexivity | exact IH].
Qed.

(** The frame found under a name is that of the last table handed in that
    has a header and a row and is numbered so. *)
Lemma table_frames_get (items : list Table.t) :
  forall (frames : list (string * DataFrame)) (name : string),
    dict_get name (table_frames items frames)
    = match List.find (framed_as name) (rev items) with
      | Some table => Some (snd (frame_entry table))
      | None => dict_get name frames
      end.
Proof.
  unfold table_frames.
  induction items as [| table items IH]; intros frames name; [reflexivity |].
  cbn [fold_left rev]. rewrite IH, find_last.
  destruct (List.find (framed_as name) (rev items)); [reflexivity |].
  unfold framed_as.
  destruct (negb (is_empty (Table.rows table))
            && negb (is_empty (Table.headers table))) eqn:Hkept.
  - rewrite dict_get_dict_set, <- andb_assoc, Hkept, andb_true_r.
    destruct (String.eqb name (table_key (Table.table_number table)));
      reflexivity.
  - now rewrite <- andb_assoc, Hkept, andb_false_r.
Qed.

Lemma find_none_app {A : Type} (p : A -> bool) (l r : list A) :
  Forall (fun x => p x = false) l -> List.find p (l ++ r) = List.find p r.
Proof.
  induction 1 as [| x l Hx _ IH]; [reflexivity |].
  cbn [app List.find]. now rewrite Hx.
Qed.

(** C2.  Every table handed to the normalizer with a header and a row gets
    its frame, under the name made of its number, unless a later table of
    the same number takes the name.  The frame has the header of the table
    as columns and one row for every row of the table, in order: the row
    itself when it is as long as the header, the row followed by empty
    strings up to the header length when it is shorter, its first cells up
    to the header length when it is longer.  And every frame that comes out
    is rectangular and made so from one of the tables. *)
Theorem table_frames_rectangular (before after : list Table.t)
    (table : Table.t)
    (Hrows : Table.rows table <> [])
    (Hheaders : Table.headers table <> [])
    (Hlast : Forall (fun later => Table.table_number later
                                  <> Table.table_number table) after) :
  let frames := table_frames (before ++ table :: after) [] in
  let max_cols := length (Table.headers table) in
  (exists df,
      dict_get (table_key (Table.table_number table)) frames = Some df
      /\ columns df = Table.headers table
      /\ length (values df) = length (Table.rows table)
      /\ forall i row,
           nth_error (Table.rows table) i = Some row ->
           exists normalized,
             nth_error (values df) i = Some normalized
             /\ length normalized = max_cols
             /\ (length row < max_cols ->
                 normalized = row ++ repeat [] (max_cols - length row))
             /\ (max_cols < length row -> normalized = firstn max_cols row)
             /\ (length row = max_cols -> normalized = row))
  /\ (forall name df,
         In (name, df) frames ->
         Forall (fun row => length row = length (columns df)) (values df)
         /\ exists made_of,
              In made_of (before ++ table :: after)
              /\ name = table_key (Table.table_number made_of)
              /\ frame_of made_of df)
  /\ (forall (U : Unicode) (self : WebScraper)
             (found_before found_after : list Table.t) (found : Table.t),
         _extract_all_tables self = found_before ++ found :: found_after ->
         Table.rows found <> [] /\ Table.headers found <> []
         /\ Forall (fun later => Table.table_number later
                                 <> Table.table_number found) found_after).
Proof.
  cbv zeta. split; [| split].
  - exists (snd (frame_entry table)).
    rewrite table_frames_get, rev_app_distr. cbn [rev].
    rewrite <- app_assoc. cbn [app]. rewrite find_none_app.
    + cbn [List.find]. unfold framed_as. rewrite String.eqb_refl.
      destruct (Table.rows table) as [| r rs] eqn:Er; [congruence |].
      destruct (Table.headers table) as [| h hs] eqn:Eh; [congruence |].
      cbn [is_empty negb andb frame_entry snd columns values].
      rewrite Er, Eh.
      split; [reflexivity |]. split; [reflexivity |].
      split; [apply length_map |].
      intros i row Hrow. exists (normalize_row (length (h :: hs)) row).
      split; [now apply map_nth_error |].
      split; [apply normalize_row_length |].
      unfold normalize_row.
      destruct (Nat.ltb_spec (length row) (length (h :: hs)));
        [repeat split; intros; (reflexivity || lia) |].
      destruct (Nat.ltb_spec (length (h :: hs)) (length row));
        repeat split; intros; (reflexivity || lia).
    + apply Forall_forall. intros later Hlater. apply in_rev in Hlater.
      rewrite Forall_forall in Hlast. specialize (Hlast later Hlater).
      unfold framed_as.
      destruct (String.eqb_spec (table_key (Table.table_number table))
                                (table_key (Table.table_number later)))
        as [Heq | Hne]; [| reflexivity].
      apply table_key_injective in Heq. congruence.
  - intros name df H.
    apply table_frames_In in H.
    destruct H as [[] | (made_of & Hin & Hname & Hframe)].
    split; [| now exists made_of].
    destruct Hframe as [Hc Hv]. rewrite Hc, Hv.
    apply Forall_forall. intros row Hrow.
    apply in_map_iff in Hrow. destruct Hrow as (r & <- & _).
    rewrite length_firstn, length_app, repeat_length. lia.
  - intros U self found_before found_after found Hfound.
    destruct (tables_records_guard self) as [Hguard Hnd].
    rewrite Hfound in Hguard, Hnd.
    apply Forall_app in Hguard. destruct Hguard as [_ Hguard].
    inversion Hguard as [| ? ? (Hr & Hh & _) _]. subst.
    split; [exact Hr |]. split; [exact Hh |].
    rewrite map_app in Hnd. apply NoDup_app_remove_l in Hnd.
    cbn [map] in Hnd. inversion Hnd as [| ? ? Hnotin _]. subst.
    apply Forall_forall. intros later Hlater Heq. apply Hnotin.
    rewrite <- Heq. now apply in_map.
Qed.

Lemma table_frames_rectangular_witness :
  exists df,
    dict_get "6_Table_1"%string
      (table_frames [short_row_table; two_row_table; short_row_table] [])
    = Some df
    /\ columns df = [lit "a"; lit "b"; lit "c"]
    /\ nth_error (values df) 0 = Some [lit "v1"; lit "v2"; []]
    /\ nth_error (values df) 1 = Some [lit "w1"; lit "w2"; lit "w3"].
Proof.
  destruct (@table_frames_rectangular [short_row_table] [short_row_table]
              two_row_table ltac:(discriminate) ltac:(discriminate)
              ltac:(repeat constructor; discriminate))
    as [(df & Hget & Hcolumns & _ & Hrows) _].
  exists df. split; [exact Hget |]. split; [exact Hcolumns |].
  destruct (Hrows 0 _ eq_refl) as (short & Hshort & _ & Hpad & _).
  destruct (Hrows 1 _ eq_refl) as (long & Hlong & _ & _ & Hcut & _).
  rewrite Hshort, Hlong, Hpad, Hcut; [now split | cbn; lia | cbn; lia].
Defined.


(** ** More on forms *)

Lemma combine_seq_snd {A : Type} (l : list A) :
  forall k, map snd (combine (seq k (length l)) l) = l.
Proof.
  induction l as [| a l IH]; intro k; [reflexivity |].
  cbn [length seq combine map snd]. now rewrite IH.
Qed.

Lemma filter_length_pos {A : Type} (p : A -> bool) (l : list A) (a : A) :
  In a l -> p a = true -> 1 <= length (filter p l).
Proof.
  intros Hin Hp.
  assert (H : In a (filter p l)) by (apply filter_In; now split).
  destruct (filter p l); [destruct H | cbn; lia].
Qed.

Section FormFacts.
Context {U : Unicode}.
Variable urljoin : str -> str -> result str.

Lemma forms_records (self : WebScraper) (l : list (nat * Loc)) :
  forall forms,
    collect (fun '(form_idx, form) =>
      action <- clean_url urljoin (get form "action" []) (base_url self) ;;
      let fields := form_fields form in
      Ok [ {| Form.form_number := form_idx + 1;
              Form.form_id := get form "id" [];
              Form.form_name := get form "name" [];
              Form.form_class := joined form "class";
              Form.action := action;
              Form.method := str_upper (get form "method" (lit "GET"));
              Form.enctype := get form "enctype" [];
              Form.autocomplete := get form "autocomplete" [];
              Form.target := get form "target" [];
              Form.fields := fields;
              Form.total_fields := length fields;
              Form.hidden_fields :=
                length (filter (fun f => truthy (Field.hidden f)) fields);
              Form.required_fields :=
                length (filter (fun f => truthy (Field.required f)) fields);
              Form.disabled_fields :=
                length (filter Field.disabled fields) |} ]) l = Ok forms ->
    map Form.form_number forms = map (fun '(idx, _) => idx + 1) l
    /\ Forall2 form_record_of forms (map snd l).
Proof.
  induction l as [| [idx form] l IH]; intros forms H; cbn [collect] in H.
  - inversion H. split; [reflexivity | constructor].
  - destruct (clean_url urljoin (get form "action" []) (base_url self));
      [| discriminate H].
    cbn [bind] in H. cbv zeta in H.
    destruct (collect _ l) as [rest |]; [| discriminate H].
    inversion H. destruct (IH rest eq_refl) as [IH1 IH2].
    cbn [app map Form.form_number snd]. split; [now f_equal |].
    constructor; [| exact IH2]. repeat split.
Qed.

(** X14.  When [_extract_all_forms] returns, there is one record for every
    [form] element, numbered 1, 2, 3, ... in document order.  The fields of a
    record are numbered 1 to [total_fields]; [total_fields] is the number of
    [input], [textarea], [select] and [button] elements of the form, a
    submit input counted once; and none of the three other counts is above
    it. *)
Theorem forms_counted (self : WebScraper) (forms : list Form.t)
    (H : _extract_all_forms urljoin self = Ok forms) :
  map Form.form_number forms
  = seq 1 (length (find_all ["form"%string] (document self)))
  /\ Forall2 (fun record form =>
       map Field.position (Form.fields record)
       = seq 1 (Form.total_fields record)
       /\ Form.total_fields record
          = length (find_all ["input"%string] form)
            + length (find_all ["textarea"%string] form)
            + length (find_all ["select"%string] form)
            + length (find_all ["button"%string] form)
       /\ Form.hidden_fields record <= Form.total_fields record
       /\ Form.required_fields record <= Form.total_fields record
       /\ Form.disabled_fields record <= Form.total_fields record)
     forms (find_all ["form"%string] (document self)).
Proof.
  apply forms_records in H. destruct H as [Hnum Hrec].
  unfold enumerate in Hnum, Hrec.
  rewrite (combine_seq_positions _ 0) in Hnum. rewrite combine_seq_snd in Hrec.
  split; [exact Hnum |].
  eapply Forall2_impl; [| exact Hrec].
  intros record form (Hf & Ht & Hh & Hr & Hd).
  rewrite Hh, Hr, Hd, Ht.
  split; [| split; [| repeat split; apply filter_length_le]].
  - rewrite Hf, form_fields_numbered, numbered_length.
    apply (numbered_positions Field.position (field_builders form)).
    intros b i Hb. now apply (field_builders_position form).
  - rewrite Hf, form_fields_numbered, numbered_length.
    unfold field_builders. rewrite !length_app, !length_map. lia.
Qed.

Section Sheets.
Variable json_dumps : list (str * str) -> str.

(** X15.  An input whose type, in lower case, is [hidden] is reported as
    hidden: the record of its form counts it in [hidden_fields], and the
    fields sheet of the form has a row with the name of the input and [Yes]
    in the column [Hidden]. *)
Theorem hidden_input_reported (self : WebScraper) (forms : list Form.t)
    (H : _extract_all_forms urljoin self = Ok forms) :
  nth_error field_columns 3 = Some (lit "Name")
  /\ nth_error field_columns 11 = Some (lit "Hidden")
  /\ Forall2 (fun record form =>
       forall input_elem,
         In input_elem (find_all ["input"%string] form) ->
         str_lower (get input_elem "type" (lit "text")) = lit "hidden" ->
         1 <= Form.hidden_fields record
         /\ exists row,
              In row (map (field_row json_dumps) (Form.fields record))
              /\ nth_error row 3 = Some (CStr (get input_elem "name" []))
              /\ nth_error row 11 = Some (CStr (lit "Yes")))
       forms (find_all ["form"%string] (document self)).
Proof.
  split; [reflexivity |]. split; [reflexivity |].
  apply forms_records in H. destruct H as [_ Hrec].
  unfold enumerate in Hrec. rewrite combine_seq_snd in Hrec.
  eapply Forall2_impl; [| exact Hrec].
  intros record form (Hf & _ & Hh & _ & _) input_elem Hin Htype.
  destruct (numbered_In (input_field form input_elem)
              (field_builders form)
              ltac:(unfold field_builders; rewrite in_app_iff; left;
                    now apply in_map) 0) as [i Hi].
  rewrite <- form_fields_numbered, <- Hf in Hi.
  assert (Hhidden : truthy (Field.hidden (input_field form input_elem i))
                    = true).
  { cbn [input_field Field.hidden truthy]. rewrite Htype.
    now rewrite str_eqb_refl. }
  split.
  - rewrite Hh. exact (filter_length_pos _ _ _ Hi Hhidden).
  - exists (field_row json_dumps (input_field form input_elem i)).
    split; [now apply in_map |]. split; [reflexivity |].
    cbn [field_row nth_error]. unfold yes_no. now rewrite Hhidden.
Qed.

End Sheets.
End FormFacts.

Lemma forms_counted_witness :
  exists forms,
    @_extract_all_forms ascii_tables urljoin_examples (scraper_of csrf_form)
    = Ok forms
    /\ map Form.form_number forms = [1].
Proof.
  eexists. split; [reflexivity |].
  exact (proj1 (@forms_counted ascii_tables urljoin_examples
                  (scraper_of csrf_form) _ eq_refl)).
Defined.

Lemma hidden_input_reported_witness :
  exists forms,
    @_extract_all_forms ascii_tables urljoin_examples (scraper_of csrf_form)
    = Ok forms
    /\ Forall (fun record => 1 <= Form.hidden_fields record) forms.
Proof.
  eexists. split; [reflexivity |].
  pose proof (proj2 (proj2 (@hidden_input_reported ascii_tables
                              urljoin_examples (fun _ => [])
                              (scraper_of csrf_form) _ eq_refl))) as H.
  set (form_elements := find_all ["form"%string]
                          (document (scraper_of csrf_form))) in H.
  vm_compute in form_elements. subst form_elements.
  inversion H as [| ? ? ? ? Hfirst Hrest]; subst. inversion Hrest; subst.
  constructor; [| constructor].
  eapply proj1, Hfirst; [left; reflexivity | reflexivity].
Defined.


(** ** What the extractors pass over *)

Section Skipping.
Context {U : Unicode} {R : Regex}.
Variable urljoin : str -> str -> result str.

Lemma tables_numbers (self : WebScraper) :
  map Table.table_number (_extract_all_tables self)
  = map (fun '(idx, _) => idx + 1)
        (filter (fun '(_, table) => has_header_and_row table)
                (enumerate (find_all ["table"%string] (document self)))).
Proof.
  unfold _extract_all_tables, has_header_and_row.
  induction (enumerate (find_all ["table"%string] (document self)))
    as [| [idx table] l IH]; [reflexivity |].
  cbn [flat_map filter]. cbv zeta. rewrite map_app, IH.
  destruct (negb (is_empty (table_rows table (table_headers table)))
            && negb (is_empty (table_headers table))); reflexivity.
Qed.

Lemma iframe_videos_count (self : WebScraper) (iframes : list Loc) :
  forall videos out,
    iframe_videos urljoin self videos iframes = Ok out ->
    length out = length videos + length (filter on_video_platform iframes).
Proof.
  induction iframes as [| iframe rest IH]; intros videos out H;
    cbn [iframe_videos] in H.
  - inversion H. cbn. lia.
  - cbv zeta in H. cbn [filter]. fold (on_video_platform iframe) in H.
    destruct (on_video_platform iframe).
    + destruct (clean_url urljoin (get iframe "src" []) (base_url self));
        [| discriminate H].
      cbn [bind] in H. apply IH in H. rewrite length_app in H.
      cbn [length] in *. lia.
    + now apply IH.
Qed.

(** C6, as the code has it.  A heading or a paragraph is passed over exactly
    when its text is empty after cleaning; the record of the meta
    description is left out only when the content attribute is missing or
    empty, and is made of a content that cleans to the empty string.  An
    [img] is passed over when it has no [src], [data-src] or
    [data-lazy-src], and a [table] when no header or no data row is found
    for it.  Apart from these an extractor that returns has made a record
    for every matching element: every other [img] and [table] under its own
    1-based index, every [a] with an [href], every [video] and every
    [iframe] of a video platform, every [form] with a field for each of its
    controls, every [meta]; and a record for every price found.  The contact
    record is always made, of the distinct addresses found that validate and
    of the distinct phone numbers found. *)
Theorem extractors_skip_by_guard_only (self : WebScraper) :
  (forall tag,
      map Title.position (titles_of_tag self tag)
      = map (fun '(idx, _) => idx + 1)
            (filter (fun '(_, element) =>
                       negb (is_empty (clean_text (get_text element))))
                    (enumerate (find_all [tag] (document self)))))
  /\ map Description.position (paragraph_descriptions self)
     = map (fun '(idx, _) => idx + 1)
           (filter (fun '(_, p) => negb (is_empty (clean_text (get_text p))))
                   (enumerate (find_all ["p"%string] (document self))))
  /\ (meta_description self = []
      <-> match find_attr "meta" "name" (lit "description") (document self)
          with
          | Some meta_desc => get meta_desc "content" [] = []
          | None => True
          end)
  /\ (forall meta_desc,
         find_attr "meta" "name" (lit "description") (document self)
         = Some meta_desc ->
         get meta_desc "content" [] <> [] ->
         map Description.text (meta_description self)
         = [clean_text (get meta_desc "content" [])])
  /\ _extract_all_descriptions self
     = meta_description self ++ paragraph_descriptions self
  /\ (forall images,
         _extract_all_images urljoin self = Ok images ->
         map Image.position images
         = map (fun '(idx, _) => idx + 1)
               (filter (fun '(_, img) => negb (is_empty (image_src img)))
                       (enumerate (find_all ["img"%string] (document self)))))
  /\ ((forall img, In img (find_all ["img"%string] (document self)) ->
                   image_extracts urljoin self img) ->
      exists images, _extract_all_images urljoin self = Ok images)
  /\ (forall links,
         _extract_all_links urljoin self = Ok links ->
         map Link.position links = seq 1 (length (anchors self)))
  /\ map Table.table_number (_extract_all_tables self)
     = map (fun '(idx, _) => idx + 1)
           (filter (fun '(_, table) => has_header_and_row table)
                   (enumerate (find_all ["table"%string] (document self))))
  /\ (forall videos,
         _extract_all_videos urljoin self = Ok videos ->
         length videos
         = length (find_all ["video"%string] (document self))
           + length (filter on_video_platform
                            (find_all ["iframe"%string] (document self))))
  /\ (forall forms,
         _extract_all_forms urljoin self = Ok forms ->
         map Form.form_number forms
         = seq 1 (length (find_all ["form"%string] (document self)))
         /\ Forall2 (fun record form =>
              length (Form.fields record)
              = length (find_all ["input"%string] form)
                + length (find_all ["textarea"%string] form)
                + length (find_all ["select"%string] form)
                + length (find_all ["button"%string] form))
            forms (find_all ["form"%string] (document self)))
  /\ map Meta.position (_extract_all_meta self)
     = seq 1 (length (find_all ["meta"%string] (document self)))
  /\ (forall elem price,
         In elem (price_elements self) ->
         In price (extract_pattern (clean_text (get_text elem)) "price") ->
         In (marked_price elem price) (_extract_all_prices self))
  /\ (forall price,
         In price (extract_pattern (get_text (document self)) "price") ->
         In price (map Price.price (_extract_all_prices self)))
  /\ (forall list_of_set : list str -> list str,
         let contact := _extract_all_contact_info list_of_set self in
         Contact.emails contact
         = filter validate_email
                  (list_of_set
                     (extract_pattern (get_text (document self)) "email"))
         /\ Contact.phones contact
            = map standardize_phone
                  (list_of_set
                     (extract_pattern (get_text (document self)) "phone"))).
Proof.
  repeat match goal with |- _ /\ _ => split end.
  - intro tag. apply titles_of_tag_fields.
  - apply paragraphs_positions.
  - unfold meta_description.
    destruct (find_attr "meta" "name" (lit "description") (document self))
      as [meta_desc |]; [| tauto].
    cbv zeta. destruct (get meta_desc "content" []); cbn [is_empty];
      split; (reflexivity || discriminate).
  - intros meta_desc Hfind Hcontent. unfold meta_description.
    rewrite Hfind. cbv zeta.
    destruct (get meta_desc "content" []); [congruence | reflexivity].
  - reflexivity.
  - intros images H. exact (@images_positions _ urljoin self _ _ H).
  - intro Hall. unfold _extract_all_images. apply collect_ok.
    intros [idx img] Hin.
    assert (Himg : In img (find_all ["img"%string] (document self))).
    { unfold enumerate in Hin. eapply in_combine_r. exact Hin. }
    cbv zeta. destruct (Hall img Himg) as [He | [u Hu]].
    + rewrite He. eauto.
    + destruct (is_empty (image_src img)); [eauto |]. rewrite Hu. cbn. eauto.
  - intros links H. rewrite (@links_positions _ urljoin self _ _ H).
    apply (combine_seq_positions (anchors self) 0).
  - apply tables_numbers.
  - intros videos H. unfold _extract_all_videos in H.
    destruct (collect _ (enumerate (find_all ["video"%string]
                                             (document self))))
      as [tags |] eqn:Htags; [| discriminate H].
    cbn [bind] in H. apply video_tags_positions in Htags.
    destruct Htags as [Hpos _].
    unfold enumerate in Hpos. rewrite (combine_seq_positions _ 0) in Hpos.
    apply iframe_videos_count in H. rewrite H. f_equal.
    rewrite <- (length_map Video.position), Hpos. apply length_seq.
  - intros forms H. apply forms_records in H. destruct H as [Hnum Hrec].
    unfold enumerate in Hnum, Hrec.
    rewrite (combine_seq_positions _ 0) in Hnum.
    rewrite combine_seq_snd in Hrec.
    split; [exact Hnum |].
    eapply Forall2_impl; [| exact Hrec].
    intros record form (Hf & _).
    rewrite Hf, form_fields_numbered, numbered_length.
    unfold field_builders. rewrite !length_app, !length_map. lia.
  - unfold _extract_all_meta. rewrite map_map.
    change 1 with (0 + 1).
    rewrite <- (combine_seq_positions
                  (find_all ["meta"%string] (document self)) 0).
    apply map_ext. intros [idx meta]. reflexivity.
  - intros elem price He Hp. unfold _extract_all_prices.
    match goal with
    | |- In _ (fold_left _ ?found ?marked) =>
        destruct (general_prices_spec found marked) as (extra & Heq & _)
    end.
    rewrite Heq. apply in_or_app. left. apply in_flat_map.
    exists elem. split; [exact He |]. cbv zeta.
    apply in_map_iff. now exists price.
  - intros price Hp. unfold _extract_all_prices.
    match goal with
    | |- In _ (map _ (fold_left _ ?found ?marked)) =>
        destruct (general_prices_spec found marked)
          as (extra & Heq & _ & _ & Hall)
    end.
    rewrite Heq, map_app, in_app_iff.
    destruct (Hall price Hp) as [Hin | Hin]; [now left |].
    right. rewrite map_map. cbn [general_price Price.price].
    now rewrite map_id.
  - intro list_of_set. split; reflexivity.
Qed.

End Skipping.

(** C6, as stated, fails: an [img] without a source gets no record, and
    neither does a [table] for which no data row is found; and where the
    address of one [img] raises, no [img] gets a record. *)
Lemma elements_without_a_record :
  @_extract_all_images ascii_tables urljoin_examples
    (scraper_of sourceless_image) = Ok []
  /\ length (find_all ["img"%string] (document (scraper_of sourceless_image)))
     = 1
  /\ ~ @every_image_recorded ascii_tables urljoin_examples
         (scraper_of sourceless_image)
  /\ @_extract_all_tables ascii_tables (scraper_of header_row_only_table) = []
  /\ length (find_all ["table"%string]
                      (document (scraper_of header_row_only_table))) = 1
  /\ @_extract_all_images ascii_tables urljoin_examples (scraper_of two_images)
     = Raise (lit "Invalid IPv6 URL")
  /\ map image_src (find_all ["img"%string]
                          (document (scraper_of two_images)))
     = [lit "x://["; lit "http://y.org/a.png"].
Proof.
  split; [reflexivity |]. split; [reflexivity |].
  split; [| repeat split].
  intros (images & H & Hlen). vm_compute in H. inversion H. subst images.
  vm_compute in Hlen. discriminate Hlen.
Qed.

(** A meta description whose content is a blank is kept, with an empty
    text. *)
Example blank_meta_description_kept :
  map (fun r => (Description.text r, Description.length r))
      (@_extract_all_descriptions ascii_tables
         (scraper_of blank_meta_description))
  = [([], 1)].
Proof. reflexivity. Qed.


(** ** The contact sheet and the form sheets *)

Lemma form_key_parts (n : nat) (part part' : string) :
  form_key n part = form_key n part' -> part = part'.
Proof.
  unfold form_key. intro H.
  now repeat apply string_append_cancel in H.
Qed.

Section SheetFacts.
Variable json_dumps : list (str * str) -> str.

Lemma select_options_rows (fields : list Field.t) :
  Forall (fun row => length row = 7) (select_options_data fields).
Proof.
  apply Forall_forall. intros row H. unfold select_options_data in H.
  apply in_flat_map in H. destruct H as (field & _ & H).
  destruct (str_eqb (Field.element_type field) (lit "select")); [| destruct H].
  destruct (Field.options field) as [[| o os] |];
    [destruct H | | destruct H].
  cbn [is_empty] in H.
  apply in_map_iff in H. destruct H as (opt & <- & _). reflexivity.
Qed.

Lemma select_options_count (fields : list Field.t) :
  length (select_options_data fields)
  = list_sum (map options_listed fields).
Proof.
  unfold select_options_data.
  induction fields as [| field fields IH]; [reflexivity |].
  cbn [flat_map map list_sum fold_right]. rewrite length_app.
  fold (list_sum (map options_listed fields)). rewrite IH. f_equal.
  unfold options_listed.
  destruct (str_eqb (Field.element_type field) (lit "select"));
    [| reflexivity].
  destruct (Field.options field) as [[| o os] |]; [reflexivity | | reflexivity].
  cbn [is_empty]. apply length_map.
Qed.

Lemma select_options_In (fields : list Field.t) (field : Field.t)
    (options : list Option_.t) (opt : Option_.t) :
  In field fields ->
  Field.element_type field = lit "select" ->
  Field.options field = Some options ->
  In opt options ->
  In [ CStr (Field.name field); CStr (Field.id field);
       or_blank (Field.label field); CStr (Option_.value opt);
       CStr (Option_.text opt); yes_no (Option_.selected opt);
       yes_no (Option_.disabled opt) ]
     (select_options_data fields).
Proof.
  intros Hfield Hselect Hoptions Hopt. unfold select_options_data.
  apply in_flat_map. exists field. split; [exact Hfield |].
  rewrite Hselect, str_eqb_refl, Hoptions.
  destruct options as [| o os]; [destruct Hopt |]. cbn [is_empty].
  apply in_map_iff. now exists opt.
Qed.

(** X16.  The sheets of a form are rectangular and complete.  A form always
    gets its overview sheet, of one row and thirteen columns; it gets a
    fields sheet, of one row of twenty-six cells per field, unless it has no
    field; and an options sheet, of rows of seven cells, unless no [select]
    of it has an option.  The options sheet has one row for every option of
    every [select] field, the first option included: the row carries the
    name of the field and the value and text of the option. *)
Theorem form_sheets_rectangular (form : Form.t) :
  one_form_frames json_dumps form []
  = (form_key (Form.form_number form) "Overview",
     {| sheet_columns := form_overview_columns;
        sheet_rows := [form_overview form] |})
    :: (if is_empty (Form.fields form) then []
        else [(form_key (Form.form_number form) "Fields",
               {| sheet_columns := field_columns;
                  sheet_rows := map (field_row json_dumps)
                                    (Form.fields form) |})])
    ++ (if is_empty (select_options_data (Form.fields form)) then []
        else [(form_key (Form.form_number form) "Options",
               {| sheet_columns := option_columns;
                  sheet_rows := select_options_data (Form.fields form) |})])
  /\ length (form_overview form) = length form_overview_columns
  /\ Forall (fun row => length row = length field_columns)
            (map (field_row json_dumps) (Form.fields form))
  /\ Forall (fun row => length row = length option_columns)
            (select_options_data (Form.fields form))
  /\ length (select_options_data (Form.fields form))
     = list_sum (map options_listed (Form.fields form))
  /\ (forall field options opt,
         In field (Form.fields form) ->
         Field.element_type field = lit "select" ->
         Field.options field = Some options ->
         In opt options ->
         exists row,
           In row (select_options_data (Form.fields form))
           /\ nth_error row 0 = Some (CStr (Field.name field))
           /\ nth_error row 3 = Some (CStr (Option_.value opt))
           /\ nth_error row 4 = Some (CStr (Option_.text opt))).
Proof.
  split; [| split; [reflexivity | split; [| split; [| split]]]].
  - unfold one_form_frames, put.
    set (n := Form.form_number form).
    rewrite (@dict_set_fresh _ (form_key n "Overview") _ []) by (intros []).
    cbn [app].
    assert (HFO : ~ In (form_key n "Fields")
                       [form_key n "Overview"]).
    { intros [H | []]. apply form_key_parts in H. discriminate H. }
    assert (HOF : ~ In (form_key n "Options")
                       [form_key n "Overview"; form_key n "Fields"]).
    { intros [H | [H | []]]; apply form_key_parts in H; discriminate H. }
    destruct (Form.fields form) as [| f fs] eqn:Hfields;
      cbn [is_empty negb].
    + cbn [select_options_data flat_map is_empty negb app]. reflexivity.
    + rewrite (@dict_set_fresh _ (form_key n "Fields")); [| exact HFO].
      cbn [app].
      destruct (select_options_data (f :: fs)) eqn:Hopt;
        cbn [is_empty negb app]; [reflexivity |].
      rewrite (@dict_set_fresh _ (form_key n "Options"));
        [reflexivity | exact HOF].
  - apply Forall_forall. intros row H. apply in_map_iff in H.
    destruct H as (f & <- & _). reflexivity.
  - apply select_options_rows.
  - apply select_options_count.
  - intros field options opt Hfield Hselect Hoptions Hopt.
    eexists. split; [eapply select_options_In; eassumption |].
    repeat split.
Qed.

End SheetFacts.

(** A [select] with a single option has its row, and so its sheet. *)
Example one_option_select_has_a_row :
  match @_extract_all_forms ascii_tables urljoin_examples
          (scraper_of one_option_form) with
  | Ok forms =>
      map (fun sheet => (fst sheet, length (sheet_rows (snd sheet))))
          (form_frames (fun _ => []) forms [])
  | Raise _ => []
  end
  = [("10_Form_1_Overview", 1); ("10_Form_1_Fields", 1);
     ("10_Form_1_Options", 1)]%string.
Proof. reflexivity. Qed.

Section ContactFacts.
Context {U : Unicode} {R : Regex}.
Variable list_of_set : list str -> list str.

(** X17.  The contact sheet has one row per email and one per phone that
    [_extract_all_contact_info] kept, [total_contacts] rows in all, each of
    three cells and each marked [Yes] under [Validated]; it is left out
    exactly when there is no contact.  Every email in it passed
    [validate_email]; the phones were standardized, not validated. *)
Theorem contact_sheet_rows (self : WebScraper) :
  let items := _extract_all_contact_info list_of_set self in
  length (contact_rows items) = Contact.total_contacts items
  /\ Forall (fun row => length row = 3
                        /\ nth_error row 2 = Some (lit "Yes"))
            (contact_rows items)
  /\ Forall (fun email => validate_email email = true /\ email <> [])
            (Contact.emails items)
  /\ contact_frames items []
     = (if Contact.total_contacts items =? 0 then []
        else [("7_Contact_Info"%string,
               {| columns := [lit "Type"; lit "Value"; lit "Validated"];
                  values := contact_rows items |})]).
Proof.
  cbv zeta. unfold _extract_all_contact_info, contact_frames, contact_rows.
  cbn [Contact.emails Contact.phones Contact.total_contacts].
  set (emails := filter validate_email _). set (phones := map standardize_phone _).
  split; [now rewrite length_app, !length_map |].
  split; [| split].
  - apply Forall_forall. intros row H. apply in_app_iff in H.
    destruct H as [H | H]; apply in_map_iff in H;
      destruct H as (x & <- & _); now split.
  - apply Forall_forall. intros email H. unfold emails in H.
    apply filter_In in H. destruct H as [_ H]. split; [exact H |].
    intros ->. discriminate H.
  - destruct emails as [| e es]; [destruct phones as [| p ps] |]; reflexivity.
Qed.

End ContactFacts.


(** ** More on scrape_full *)

Section RunFacts.
Context {U : Unicode} {R : Regex}.
Variable urljoin : str -> str -> result str.
Variable list_of_set : list str -> list str.

Lemma scrape_body_categories (self : WebScraper) (features : list str) :
  exists s1 s2,
    scrape_body urljoin list_of_set self features
    = s1 :: s2
      :: map (fun '(feature, key, extractor) =>
                extract_into (or_all features) feature key extractor)
             (categories urljoin list_of_set self)
    /\ (forall r, exists r', s1 r = (r', None) /\ data r' = data r)
    /\ (forall r, exists r', s2 r = (r', None) /\ data r' = data r).
Proof.
  do 2 eexists. split; [reflexivity |]. split.
  - intro r. eexists. split; reflexivity.
  - intro r. apply description_stmt_keeps_data.
Qed.

Lemma try_block_categories (features : list str)
    (cats : list (string * string * result Items)) :
  forall r,
    Forall (fun '(feature, _, extractor) =>
              selected (or_all features) feature = false
              \/ exists items, extractor = Ok items) cats ->
    NoDup (map (fun c => snd (fst c)) cats) ->
    (forall c, In c cats -> ~ In (snd (fst c)) (map fst (data r))) ->
    exists r',
      try_block (map (fun '(feature, key, extractor) =>
                        extract_into (or_all features) feature key extractor)
                     cats) r = (r', None)
      /\ data r' = data r ++ flat_map (entry_of features) cats.
Proof.
  induction cats as [| [[feature key] extractor] cats IH];
    intros r Hok Hnd Hfresh.
  - exists r. cbn. now rewrite app_nil_r.
  - inversion Hok as [| ? ? Hc Hok']. inversion Hnd as [| ? ? Hnotin Hnd'].
    subst. cbn [map try_block flat_map entry_of]. unfold extract_into at 1.
    destruct (selected (or_all features) feature) eqn:Hsel.
    + destruct Hc as [Hc | [items ->]]; [discriminate Hc |].
      destruct (IH {| metadata := metadata r;
                      data := dict_set key items (data r) |} Hok' Hnd')
        as (r' & Hrun & Hdata).
      { intros c Hc Hin. cbn [data] in Hin.
        rewrite dict_set_fresh in Hin by (apply (Hfresh (feature, key, Ok items));
                                          now left).
        rewrite map_app, in_app_iff in Hin. destruct Hin as [Hin | [Hin | []]].
        - apply (Hfresh c); [now right | exact Hin].
        - cbn [fst snd] in *. apply Hnotin. rewrite Hin.
          now apply (in_map (fun c => snd (fst c))). }
      exists r'. split; [exact Hrun |]. rewrite Hdata. cbn [data].
      rewrite dict_set_fresh by (apply (Hfresh (feature, key, Ok items));
                                 now left).
      now rewrite <- app_assoc.
    + destruct (IH r Hok' Hnd') as (r' & Hrun & Hdata).
      { intros c Hc'. apply Hfresh. now right. }
      exists r'. split; [exact Hrun | exact Hdata].
Qed.

Lemma scrape_full_run_of_categories (now : str) (self : WebScraper)
    (features : list str)
    (H : nothing_raises urljoin list_of_set self features) :
  snd (scrape_full urljoin list_of_set now self features) = self
  /\ data (fst (scrape_full urljoin list_of_set now self features))
     = flat_map (entry_of features) (categories urljoin list_of_set self).
Proof.
  unfold scrape_full.
  destruct (scrape_body_categories self features)
    as (s1 & s2 & -> & Hs1 & Hs2).
  cbn [try_block].
  match goal with
  | |- context [s1 ?r] => destruct (Hs1 r) as (r1 & -> & Hd1)
  end.
  destruct (Hs2 r1) as (r2 & -> & Hd2).
  destruct (@try_block_categories features
              (categories urljoin list_of_set self) r2 H)
    as (r3 & -> & Hd3).
  - cbn [map categories fst snd].
    repeat (constructor; [cbn [In]; intuition discriminate |]). constructor.
  - intros c _. rewrite Hd2, Hd1. intros [].
  - cbn [fst snd]. split; [reflexivity |]. now rewrite Hd3, Hd2, Hd1.
Qed.

(** X18.  When no selected extractor raises, [scrape_full] leaves the
    scraper and its error log as they were, and the data hold exactly the
    selected categories, in the fixed order titles, descriptions, images,
    links, tables, contact_info, prices, videos, forms, meta, each under its
    own key, the category selected as [contact] under [contact_info]. *)
Theorem scrape_full_when_nothing_raises (now : str) (self : WebScraper)
    (features : list str)
    (H : nothing_raises urljoin list_of_set self features) :
  snd (scrape_full urljoin list_of_set now self features) = self
  /\ data (fst (scrape_full urljoin list_of_set now self features))
     = flat_map (entry_of features) (categories urljoin list_of_set self).
Proof. exact (scrape_full_run_of_categories now H). Qed.

(** X19.  A selection that is not empty and names none of [all] and the ten
    categories runs no extractor: the data come back empty and no error is
    logged, whatever the document. *)
Theorem scrape_full_unknown_names (now : str) (self : WebScraper)
    (features : list str)
    (Hsome : features <> [])
    (Hunknown : forall name, In name feature_names ->
                             ~ In (lit name) features) :
  snd (scrape_full urljoin list_of_set now self features) = self
  /\ data (fst (scrape_full urljoin list_of_set now self features)) = [].
Proof.
  assert (Hsel : forall name, In name feature_names ->
                              selected (or_all features) name = false).
  { intros name Hname. unfold selected, or_all.
    destruct features as [| f fs]; [congruence |]. cbn [is_empty].
    apply orb_false_iff. split.
    - destruct (existsb (str_eqb (lit "all")) (f :: fs)) eqn:E; [| reflexivity].
      apply existsb_exists in E. destruct E as (x & Hx & E).
      apply str_eqb_eq in E. subst x.
      exfalso. apply (Hunknown "all"%string); [now left | exact Hx].
    - destruct (existsb (str_eqb (lit name)) (f :: fs)) eqn:E; [| reflexivity].
      apply existsb_exists in E. destruct E as (x & Hx & E).
      apply str_eqb_eq in E. subst x.
      exfalso. now apply (Hunknown name). }
  assert (Hnone : nothing_raises urljoin list_of_set self features).
  { unfold nothing_raises, categories.
    repeat (constructor; [left; apply Hsel; cbn; tauto |]). constructor. }
  destruct (scrape_full_run_of_categories now Hnone) as [Hself Hdata].
  split; [exact Hself |]. rewrite Hdata.
  unfold categories. cbn [flat_map entry_of].
  rewrite !Hsel by (cbn; tauto). reflexivity.
Qed.

(** X20.  When [contact] or [all] is selected and no selected extractor
    raises, the count of scraped items that [scrape] makes is at least 1,
    even on a page without any contact: the contact dictionary counts one
    for each email, one for each phone and one more for its own total. *)
Theorem total_items_counts_contact_total (now : str) (self : WebScraper)
    (features : list str)
    (H : nothing_raises urljoin list_of_set self features)
    (Hcontact : selected (or_all features) "contact" = true) :
  let contact := _extract_all_contact_info list_of_set self in
  length (Contact.emails contact) + length (Contact.phones contact) + 1
  <= total_items (fst (scrape_full urljoin list_of_set now self features)).
Proof.
  cbv zeta. unfold total_items.
  rewrite (proj2 (scrape_full_run_of_categories now H)).
  unfold categories. cbn [flat_map entry_of]. rewrite Hcontact.
  rewrite !map_app, !list_sum_app. cbn [map snd items_count].
  unfold list_sum at 6. cbn [fold_right]. lia.
Qed.

End RunFacts.

Lemma scrape_full_when_nothing_raises_witness :
  data (fst (@scrape_full ascii_tables finds_nothing urljoin_examples
               (fun l => l) (lit "2024-05-01 10:00:00")
               (scraper_of bad_image_page) [lit "titles"; lit "meta"]))
  = flat_map (entry_of [lit "titles"; lit "meta"])
             (@categories ascii_tables finds_nothing urljoin_examples
                (fun l => l) (scraper_of bad_image_page)).
Proof.
  refine (proj2 (@scrape_full_when_nothing_raises ascii_tables finds_nothing
                   urljoin_examples (fun l => l) (lit "2024-05-01 10:00:00")
                   (scraper_of bad_image_page) [lit "titles"; lit "meta"] _)).
  unfold nothing_raises, categories.
  repeat (constructor;
          [first [ left; reflexivity | right; eexists; reflexivity ] |]).
  constructor.
Defined.

Lemma scrape_full_unknown_names_witness :
  data (fst (@scrape_full ascii_tables finds_nothing urljoin_examples
               (fun l => l) (lit "2024-05-01 10:00:00")
               (scraper_of bad_image_page) [lit "title"; lit "contact_info"]))
  = [].
Proof.
  refine (proj2 (@scrape_full_unknown_names ascii_tables finds_nothing
                   urljoin_examples (fun l => l) (lit "2024-05-01 10:00:00")
                   (scraper_of bad_image_page)
                   [lit "title"; lit "contact_info"] _ _)).
  - discriminate.
  - intros name Hname Hin. cbn [feature_names In] in Hname.
    repeat (destruct Hname as [<- | Hname];
            [vm_compute in Hin; intuition discriminate |]).
    destruct Hname.
Defined.

Lemma total_items_counts_contact_total_witness :
  1 <= total_items
         (fst (@scrape_full ascii_tables finds_nothing urljoin_examples
                 (fun l => l) (lit "2024-05-01 10:00:00")
                 (scraper_of one_heading) [lit "contact"])).
Proof.
  refine (@total_items_counts_contact_total ascii_tables finds_nothing
            urljoin_examples (fun l => l) (lit "2024-05-01 10:00:00")
            (scraper_of one_heading) [lit "contact"] _ eq_refl).
  unfold nothing_raises, categories.
  repeat (constructor;
          [first [ left; reflexivity | right; eexists; reflexivity ] |]).
  constructor.
Defined.



(** ** The analysis and the extraction *)

Lemma dict_get_put {V : Type} (k k' : string) (b : bool) (v : V)
    (d : list (string * V)) :
  dict_get k (put b k' v d)
  = if String.eqb k k' && b then Some v else dict_get k d.
Proof.
  unfold put. destruct b.
  - rewrite dict_get_dict_set, andb_true_r. reflexivity.
  - now rewrite andb_false_r.
Qed.

Lemma filter_length_tagged (tags : list string) (l : list Loc) :
  length (filter (fun d => is_tag (map lit tags) (node d)) l)
  = list_sum (map (fun d => tagged tags (node d)) l).
Proof.
  induction l as [| d l IH]; [reflexivity |].
  cbn [filter map list_sum fold_right]. unfold tagged at 1.
  destruct (is_tag (map lit tags) (node d)); cbn [length];
    fold (list_sum (map (fun d => tagged tags (node d)) l)); lia.
Qed.

Lemma list_sum_map_add {A : Type} (f g : A -> nat) (l : list A) :
  list_sum (map (fun a => f a + g a) l)
  = list_sum (map f l) + list_sum (map g l).
Proof.
  induction l as [| a l IH]; [reflexivity |].
  cbn [map list_sum fold_right].
  fold (list_sum (map (fun a => f a + g a) l)).
  fold (list_sum (map f l)). fold (list_sum (map g l)). lia.
Qed.

Lemma tagged_headings (n : Node) :
  tagged heading_tags n
  = tagged ["h1"%string] n + tagged ["h2"%string] n + tagged ["h3"%string] n
    + tagged ["h4"%string] n + tagged ["h5"%string] n + tagged ["h6"%string] n.
Proof.
  destruct n as [t | tag attrs cs]; [reflexivity |].
  unfold tagged, heading_tags. cbn [is_tag map existsb].
  repeat match goal with
         | |- context [str_eqb tag (lit ?h)] =>
             let E := fresh "E" in
             destruct (str_eqb tag (lit h)) eqn:E;
             [apply str_eqb_eq in E; subst tag; reflexivity |]
         end.
  reflexivity.
Qed.

Lemma tagged_videos (n : Node) :
  tagged ["video"; "iframe"]%string n
  = tagged ["video"%string] n + tagged ["iframe"%string] n.
Proof.
  destruct n as [t | tag attrs cs]; [reflexivity |].
  unfold tagged. cbn [is_tag map existsb].
  repeat match goal with
         | |- context [str_eqb tag (lit ?h)] =>
             let E := fresh "E" in
             destruct (str_eqb tag (lit h)) eqn:E;
             [apply str_eqb_eq in E; subst tag; reflexivity |]
         end.
  reflexivity.
Qed.

Lemma flat_map_length_le {A B : Type} (f : A -> list B) (l : list A) :
  (forall a, length (f a) <= 1) -> length (flat_map f l) <= length l.
Proof.
  intro H. induction l as [| a l IH]; [reflexivity |].
  cbn [flat_map length]. rewrite length_app. specialize (H a). lia.
Qed.

Section AnalysisFacts.
Context {U : Unicode} {R : Regex}.
Variable urljoin : str -> str -> result str.
Variable findall : str -> str -> list str.
Variable list_of_set : list str -> list str.

Lemma reported_counts (self : WebScraper) :
  let analysis := get_available_content findall list_of_set self in
  reported analysis "titles"
  = length (find_all heading_tags (document self))
  /\ reported analysis "descriptions"
     = length (find_all ["p"%string] (document self))
  /\ reported analysis "images"
     = length (find_all ["img"%string] (document self))
  /\ reported analysis "links" = length (anchors self)
  /\ reported analysis "tables"
     = length (find_all ["table"%string] (document self))
  /\ reported analysis "videos"
     = length (find_all ["video"; "iframe"]%string (document self))
  /\ reported analysis "forms"
     = length (find_all ["form"%string] (document self))
  /\ reported analysis "meta"
     = length (find_all ["meta"%string] (document self)).
Proof.
  cbv zeta. unfold reported, get_available_content. cbv zeta.
  rewrite !dict_get_put.
  cbn [String.eqb Ascii.eqb Bool.eqb andb dict_get].
  unfold heading_tags.
  repeat split;
    match goal with
    | |- context [is_empty ?l] => destruct l; reflexivity
    end.
Qed.

Lemma titles_of_tag_length (self : WebScraper) (tag : string) :
  length (titles_of_tag self tag)
  <= length (find_all [tag] (document self)).
Proof.
  unfold titles_of_tag.
  etransitivity; [apply flat_map_length_le |].
  - intros [idx e]. cbv zeta.
    destruct (is_empty (clean_text (get_text e))); cbn; lia.
  - unfold enumerate. rewrite length_combine, length_seq. lia.
Qed.

Lemma iframe_videos_length (self : WebScraper) (iframes : list Loc) :
  forall videos out,
    iframe_videos urljoin self videos iframes = Ok out ->
    length out <= length videos + length iframes.
Proof.
  induction iframes as [| iframe rest IH]; intros videos out H;
    cbn [iframe_videos] in H.
  - inversion H. lia.
  - cbv zeta in H. cbn [length]. destruct (existsb _ _).
    + destruct (clean_url urljoin (get iframe "src" []) (base_url self));
        [| discriminate H].
      cbn [bind] in H. apply IH in H. rewrite length_app in H. cbn in H. lia.
    + apply IH in H. lia.
Qed.

(** X21.  The extraction never yields more records than the analysis of the
    same page announced: not more titles, images, tables or videos than
    [get_available_content] counted, and at most one description more than
    it counted paragraphs, the one of the meta description. *)
Theorem extraction_within_analysis (self : WebScraper) :
  let analysis := get_available_content findall list_of_set self in
  length (_extract_all_titles self) <= reported analysis "titles"
  /\ length (_extract_all_tables self) <= reported analysis "tables"
  /\ length (paragraph_descriptions self) <= reported analysis "descriptions"
  /\ length (_extract_all_descriptions self)
     <= reported analysis "descriptions" + 1
  /\ (forall images, _extract_all_images urljoin self = Ok images ->
                     length images <= reported analysis "images")
  /\ (forall videos, _extract_all_videos urljoin self = Ok videos ->
                     length videos <= reported analysis "videos").
Proof.
  cbv zeta.
  destruct (reported_counts self)
    as (Ht & Hd & Hi & _ & Htab & Hv & _ & _).
  cbv zeta in *. rewrite Ht, Hd, Hi, Htab, Hv. clear Ht Hd Hi Htab Hv.
  assert (Hpar : length (paragraph_descriptions self)
                 <= length (find_all ["p"%string] (document self))).
  { unfold paragraph_descriptions.
    etransitivity; [apply flat_map_length_le |].
    - intros [idx e]. cbv zeta.
      destruct (is_empty (clean_text (get_text e))); cbn; lia.
    - unfold enumerate. rewrite length_combine, length_seq. lia. }
  split; [| split; [| split; [exact Hpar | split; [| split]]]].
  - unfold _extract_all_titles. cbn [flat_map]. rewrite !length_app.
    cbn [length].
    pose proof (titles_of_tag_length self "h1").
    pose proof (titles_of_tag_length self "h2").
    pose proof (titles_of_tag_length self "h3").
    pose proof (titles_of_tag_length self "h4").
    pose proof (titles_of_tag_length self "h5").
    pose proof (titles_of_tag_length self "h6").
    unfold find_all in *. rewrite filter_length_tagged in *.
    rewrite (map_ext _ _ (fun d => tagged_headings (node d))).
    rewrite !list_sum_map_add. lia.
  - unfold _extract_all_tables.
    etransitivity; [apply flat_map_length_le |].
    + intros [idx t]. cbv zeta. destruct (_ && _); cbn; lia.
    + unfold enumerate. rewrite length_combine, length_seq. lia.
  - unfold _extract_all_descriptions. rewrite length_app.
    assert (length (meta_description self) <= 1); [| lia].
    unfold meta_description.
    destruct (find_attr "meta" "name" (lit "description") (document self))
      as [meta_desc |]; [| cbn; lia].
    cbv zeta. destruct (is_empty (get meta_desc "content" [])); cbn; lia.
  - intros images H. apply images_positions in H.
    apply (f_equal (@length nat)) in H. rewrite !length_map in H.
    rewrite H. etransitivity; [apply filter_length_le |].
    unfold enumerate. rewrite length_combine, length_seq. lia.
  - intros videos H. unfold _extract_all_videos in H.
    destruct (collect _ (enumerate (find_all ["video"%string] (document self))))
      as [tags |] eqn:Htags; [| discriminate H].
    cbn [bind] in H. apply video_tags_positions in Htags.
    destruct Htags as [Hpos _]. apply (f_equal (@length nat)) in Hpos.
    rewrite !length_map in Hpos. unfold enumerate in Hpos.
    rewrite length_combine, length_seq, Nat.min_id in Hpos.
    apply iframe_videos_length in H. rewrite Hpos in H.
    unfold find_all in *. rewrite !filter_length_tagged in *.
    rewrite (map_ext _ _ (fun d => tagged_videos (node d))).
    rewrite list_sum_map_add. exact H.
Qed.

(** X22.  For links, forms and meta tags the analysis and the extraction
    agree: when the extractor returns, it returns exactly as many records as
    [get_available_content] counted. *)
Theorem extraction_equals_analysis (self : WebScraper) :
  let analysis := get_available_content findall list_of_set self in
  length (_extract_all_meta self) = reported analysis "meta"
  /\ (forall links, _extract_all_links urljoin self = Ok links ->
                    length links = reported analysis "links")
  /\ (forall forms, _extract_all_forms urljoin self = Ok forms ->
                    length forms = reported analysis "forms").
Proof.
  cbv zeta.
  destruct (reported_counts self) as (_ & _ & _ & Hl & _ & _ & Hf & Hm).
  cbv zeta in *. rewrite Hl, Hf, Hm. split; [| split].
  - unfold _extract_all_meta, enumerate.
    rewrite length_map, length_combine, length_seq. lia.
  - intros links H. apply links_positions in H.
    apply (f_equal (@length nat)) in H. rewrite !length_map in H.
    rewrite H. unfold enumerate. rewrite length_combine, length_seq. lia.
  - intros forms H. apply forms_records in H. destruct H as [H _].
    apply (f_equal (@length nat)) in H. rewrite !length_map in H.
    rewrite H. unfold enumerate. rewrite length_combine, length_seq. lia.
Qed.

End AnalysisFacts.


Section DescriptionFacts.
Context {U : Unicode}.

(** X23.  Every paragraph record has a non-empty text, the length of that
    text as its [length] and a position of at least 1.  There is at most one
    record of the meta description; it comes first, has position 0, and its
    [length] is that of the raw [content] attribute, not of the cleaned
    text. *)
Theorem descriptions_shape (self : WebScraper) :
  _extract_all_descriptions self
  = meta_description self ++ paragraph_descriptions self
  /\ Forall (fun r => 1 <= Description.position r
                      /\ Description.type r = lit "Paragraph"
                      /\ Description.text r <> []
                      /\ Description.length r = length (Description.text r))
            (paragraph_descriptions self)
  /\ length (meta_description self) <= 1
  /\ Forall (fun r =>
               Description.position r = 0
               /\ Description.type r = lit "Meta Description"
               /\ exists meta_desc,
                    find_attr "meta" "name" (lit "description") (document self)
                    = Some meta_desc
                    /\ get meta_desc "content" [] <> []
                    /\ Description.length r
                       = length (get meta_desc "content" [])
                    /\ Description.text r
                       = clean_text (get meta_desc "content" []))
            (meta_description self).
Proof.
  split; [reflexivity |]. split; [| split].
  - unfold paragraph_descriptions. apply Forall_forall. intros r H.
    apply in_flat_map in H. destruct H as ([idx p] & _ & H). cbv zeta in H.
    destruct (clean_text (get_text p)) as [| c t] eqn:Ht; [destruct H |].
    destruct H as [<- | []]. cbn. repeat split; [lia | discriminate].
  - unfold meta_description.
    destruct (find_attr "meta" "name" (lit "description") (document self))
      as [meta_desc |]; [| cbn; lia].
    cbv zeta. destruct (is_empty (get meta_desc "content" [])); cbn; lia.
  - unfold meta_description.
    destruct (find_attr "meta" "name" (lit "description") (document self))
      as [meta_desc |] eqn:Hfind; [| constructor].
    cbv zeta. destruct (get meta_desc "content" []) as [| c t] eqn:Hc;
      [constructor |].
    constructor; [| constructor]. cbn. repeat split.
    exists meta_desc. rewrite Hc. repeat split. discriminate.
Qed.

End DescriptionFacts.
